(** * Instrument-activity detection of the music visualizer

    A shallow embedding of the two detectors of the repository:

    - [Realtime]: the browser-side tracker of [src/utils/AudioProcessor.js]
      ([getInstrumentEnergy] and the methods it calls), which keeps a short
      history of energies per band;
    - [Batch]: the rule layer [detectInstruments] of
      [server/audioProcessor.js];

    and of what surrounds them:

    - [Session]: series of ticks of the tracker;
    - [Visualizer]: the consumer of the mapping, [CosmicVisualizer], with
      its selection of musicians and its basic analysis;
    - [Server]: [processAudio] and the band analysis of
      [server/audioProcessor.js], the upload route and [cleanupFiles] of
      [server/index.js].

    JavaScript numbers are idealised as exact rationals extended with [NaN]:
    rounding of IEEE doubles is not modelled, while the propagation of [NaN]
    (reading past the end of a typed array, comparing with [undefined]) is.
    An uncaught [TypeError] is the [None] of the state-and-error monad. *)

From Stdlib Require Import QArith Qround Qminmax Lqa ZArith List Bool.
From Stdlib.Strings Require Import Byte.
From stdpp Require Import gmap strings list.

(** ** JavaScript numbers *)

Module JS.

Inductive number : Type :=
| Num (q : Q)
| NaN.

Definition add (a b : number) : number :=
  match a, b with Num x, Num y => Num (x + y) | _, _ => NaN end.

Definition sub (a b : number) : number :=
  match a, b with Num x, Num y => Num (x - y) | _, _ => NaN end.

Definition mul (a b : number) : number :=
  match a, b with Num x, Num y => Num (x * y) | _, _ => NaN end.

(** [a / b].  Every divisor of the modelled code is non-zero (a tested
    count, the constants 255 and 2, the length 5 of a slice, half a positive
    sample rate); a zero divisor, which JavaScript answers with an infinity
    or [NaN], is mapped to [NaN] here. *)
Definition div (a b : number) : number :=
  match a, b with
  | Num x, Num y => if Qeq_bool y 0 then NaN else Num (x / y)
  | _, _ => NaN
  end.

(** [a > b]: false as soon as one side is [NaN]. *)
Definition gt (a b : number) : bool :=
  match a, b with Num x, Num y => negb (Qle_bool x y) | _, _ => false end.

(** [Math.max(a, b)] and [Math.min(a, b)]: [NaN] if an argument is. *)
Definition Math_max (a b : number) : number :=
  match a, b with Num x, Num y => Num (Qmax x y) | _, _ => NaN end.

Definition Math_min (a b : number) : number :=
  match a, b with Num x, Num y => Num (Qmin x y) | _, _ => NaN end.

(** [Math.max(a, b, c)]. *)
Definition Math_max3 (a b c : number) : number := Math_max (Math_max a b) c.

(** [Math.pow(a, n)] for a positive integer exponent. *)
Definition Math_pow (a : number) (n : positive) : number :=
  match a with Num x => Num (Qpower_positive x n) | NaN => NaN end.

(** The number a [Uint8Array] element stands for. *)
Definition of_byte (b : byte) : number := Num (inject_Z (Z.of_N (Byte.to_N b))).

Definition of_nat (n : nat) : number := Num (inject_Z (Z.of_nat n)).

(** [x] is the rational [q] (up to the equality of fractions). *)
Definition is_num (x : number) (q : Q) : Prop :=
  match x with Num a => a == q | NaN => False end.

(** [arr.reduce(f, init)]. *)
Definition reduce {A B : Type} (f : B -> A -> B) (init : B) (arr : list A) : B :=
  fold_left f arr init.

(** [arr.some((val, i, arr) => ...)]. *)
Fixpoint some_from {A : Type} (f : A -> nat -> list A -> bool)
    (arr : list A) (i : nat) (rest : list A) : bool :=
  match rest with
  | [] => false
  | val :: rest' => f val i arr || some_from f arr (S i) rest'
  end.

Definition some {A : Type} (f : A -> nat -> list A -> bool) (arr : list A) : bool :=
  some_from f arr 0 arr.

(** [arr[i]] used as a number: [undefined] behaves as [NaN] in arithmetic. *)
Definition at_index (arr : list number) (i : nat) : number :=
  match arr !! i with Some v => v | None => NaN end.

(** [arr.slice(-k)]: the last [k] elements, the whole array if it is shorter. *)
Definition slice_last {A : Type} (k : nat) (arr : list A) : list A :=
  drop (length arr - k) arr.

(** [names.includes(s)]. *)
Definition includes (names : list string) (s : string) : bool :=
  existsb (String.eqb s) names.

(** [obj[key]] on an object literal kept as an association list (the order
    of the keys is that of [Object.keys]). *)
Fixpoint get {A : Type} (obj : list (string * A)) (key : string) : option A :=
  match obj with
  | [] => None
  | (k, v) :: obj' => if String.eqb k key then Some v else get obj' key
  end.

Definition keys {A : Type} (obj : list (string * A)) : list string := map fst obj.

End JS.

(** ** The real-time tracker, [src/utils/AudioProcessor.js] *)

Module Realtime.
Import JS.

(** One band of [this.instruments] (the [detectionBuffer] arrays of the
    literal are never read or written and are left out). *)
Record BandConfig : Type := mkBand {
  freqRange : Z * Z;
  threshold : Q }.

Inductive Instrument : Type :=
| Single (band : BandConfig)
| Kit (parts : list (string * BandConfig)).

Definition drums_parts : list (string * BandConfig) :=
  [ ("kick",  mkBand (20, 100) 0.6);
    ("snare", mkBand (120, 250) 0.5);
    ("hihat", mkBand (800, 5000) 0.4) ]%Z.

Definition instruments : list (string * Instrument) :=
  [ ("vocals", Single (mkBand (300, 3500) 0.45));
    ("guitar", Single (mkBand (300, 4000) 0.5));
    ("bass",   Single (mkBand (60, 250) 0.5));
    ("drums",  Kit drums_parts);
    ("synth",  Single (mkBand (100, 8000) 0.45)) ]%Z.

Definition percussion : list string := ["kick"; "snare"; "hihat"].

(** The fields of the object the methods read and write.  [sampleRate] is
    [this.audioContext.sampleRate], a positive number of hertz. *)
Record AudioProcessor : Type := mkAudioProcessor {
  isInitialized : bool;
  sampleRate : positive;
  detectionHistory : gmap string (list number) }.

(** The histories the constructor creates: one empty array per band. *)
Definition initial_history : gmap string (list number) :=
  fold_left
    (fun dh instrument =>
       if String.eqb instrument "drums"
       then <["hihat" := []]> (<["snare" := []]> (<["kick" := []]> dh))
       else <[instrument := []]> dh)
    (keys instruments) ∅.

(** State and [TypeError]: a method maps the object to a value and the
    updated object, or throws. *)
Definition M (A : Type) : Type := AudioProcessor -> option (A * AudioProcessor).

Definition ret {A : Type} (a : A) : M A := fun this => Some (a, this).

Definition bind {A B : Type} (m : M A) (k : A -> M B) : M B :=
  fun this => match m this with
              | Some (a, this') => k a this'
              | None => None
              end.

Definition throw {A : Type} : M A := fun _ => None.

Notation "x <- m ;; k" := (bind m (fun x => k))
  (at level 60, m at next level, right associativity).
Notation "m ;;; k" := (bind m (fun _ => k))
  (at level 60, right associativity).

(** [this.detectionHistory[instrument]] where an array is needed:
    [undefined.push] and [undefined.length] throw. *)
Definition history_of (instrument : string) : M (list number) :=
  fun this => match detectionHistory this !! instrument with
              | Some history => Some (history, this)
              | None => None
              end.

Definition set_history (instrument : string) (history : list number) : M unit :=
  fun this => Some (tt, mkAudioProcessor (isInitialized this) (sampleRate this)
                          (<[instrument := history]> (detectionHistory this))).

(** [history.push(energy); if (history.length > 20) history.shift();] *)
Definition push_shift (history : list number) (energy : number) : list number :=
  let pushed := history ++ [energy] in
  if (20 <? length pushed)%nat then tail pushed else pushed.

Definition updateDetectionHistory (instrument : string) (energy : number) : M unit :=
  history <- history_of instrument ;;
  set_history instrument (push_shift history energy).

(** Successive calls of [updateDetectionHistory] for one band. *)
Fixpoint push_all (instrument : string) (energies : list number) : M unit :=
  match energies with
  | [] => ret tt
  | energy :: rest =>
      updateDetectionHistory instrument energy ;;; push_all instrument rest
  end.

(** *** Confidence from the recent history *)

(** [recentValues.reduce((sum, val) => sum + val, 0) / recentValues.length] *)
Definition mean_of (recentValues : list number) : number :=
  div (reduce (fun sum val => add sum val) (Num 0) recentValues)
      (of_nat (length recentValues)).

(** [recentValues.reduce((sum, val) => sum + Math.pow(val - mean, 2), 0)
     / recentValues.length] *)
Definition variance_of (recentValues : list number) (mean : number) : number :=
  div (reduce (fun sum val => add sum (Math_pow (sub val mean) 2)) (Num 0) recentValues)
      (of_nat (length recentValues)).

(** [recentValues.some((val, i, arr) => i > 0 && val > arr[i-1] * 1.5)] *)
Definition hasTransient (recentValues : list number) : bool :=
  some (fun val i arr => (0 <? i)%nat && gt val (mul (at_index arr (i - 1)) (Num 1.5)))
       recentValues.

(** The body of [getDetectionConfidence] once [history] is read. *)
Definition confidence_from (instrument : string) (history : list number) : number :=
  if (length history <? 5)%nat then Num 0.5
  else
    let recentValues := slice_last 5 history in
    let mean := mean_of recentValues in
    if includes percussion instrument then
      if hasTransient recentValues then Num 0.8 else Num 0.4
    else
      let variance := variance_of recentValues mean in
      Math_min (Num 0.9) (Math_max (Num 0.3) (sub (Num 0.7) (mul variance (Num 5)))).

Definition getDetectionConfidence (instrument : string) : M number :=
  history <- history_of instrument ;;
  ret (confidence_from instrument history).

(** *** Energy of one band in a frame *)

(** [Math.floor(freq / (sampleRate / 2) * bufferLength)] *)
Definition to_index (freq : Z) (rate : positive) (bufferLength : Z) : Z :=
  Qfloor (inject_Z freq / (inject_Z (Z.pos rate) / 2) * inject_Z bufferLength).

(** [dataArray[i]] on a [Uint8Array], as the summand of [total += ...]:
    outside the array the element is [undefined] and the sum becomes [NaN]. *)
Definition read (dataArray : list byte) (i : Z) : number :=
  if (i <? 0)%Z then NaN
  else match dataArray !! Z.to_nat i with
       | Some b => of_byte b
       | None => NaN
       end.

(** [for (let i = lowIndex; i < highIndex && i < bufferLength; i++)
       { total += dataArray[i]; count++; }]
    Each round increases [i], so [bufferLength - lowIndex] rounds of fuel
    are never used up before the guard fails ([energy_loop_fuel]). *)
Fixpoint energy_loop (fuel : nat) (dataArray : list byte) (highIndex bufferLength : Z)
    (i : Z) (total : number) (count : Z) : number * Z :=
  match fuel with
  | O => (total, count)
  | S fuel' =>
      if (i <? highIndex)%Z && (i <? bufferLength)%Z
      then energy_loop fuel' dataArray highIndex bufferLength
             (i + 1)%Z (add total (read dataArray i)) (count + 1)%Z
      else (total, count)
  end.

(** Lines 175-190 of [processInstrumentData]: the value of [rawEnergy]. *)
Definition rawEnergy (rate : positive) (dataArray : list byte) (bufferLength : Z)
    (range : Z * Z) : number :=
  let '(lowFreq, highFreq) := range in
  let lowIndex := to_index lowFreq rate bufferLength in
  let highIndex := to_index highFreq rate bufferLength in
  let '(total, count) :=
    energy_loop (Z.to_nat (bufferLength - lowIndex)) dataArray highIndex bufferLength
                lowIndex (Num 0) 0%Z in
  if (0 <? count)%Z
  then div (div total (Num (inject_Z count))) (Num 255)
  else Num 0.

(** *** One band, one tick *)

#[warnings="-register-all"] Inductive DetectionResult : Type := mkDetectionResult {
  energy : number;
  active : bool;
  confidence : number;
  components : option (list (string * DetectionResult)) }.

(** The threshold [processInstrumentData] compares with.  A key that is
    missing makes the property access throw; the [drums] entry itself has no
    [threshold], and comparing with [undefined] is comparing with [NaN]. *)
Definition threshold_of (instrument : string) : M number :=
  if includes percussion instrument then
    match get instruments "drums" with
    | Some (Kit parts) =>
        match get parts instrument with
        | Some band => ret (Num (threshold band))
        | None => throw
        end
    | _ => throw
    end
  else
    match get instruments instrument with
    | Some (Single band) => ret (Num (threshold band))
    | Some (Kit _) => ret NaN
    | None => throw
    end.

Definition processInstrumentData (instrument : string) (dataArray : list byte)
    (bufferLength : Z) (range : Z * Z) : M DetectionResult :=
  fun this =>
    let rawEnergy := rawEnergy (sampleRate this) dataArray bufferLength range in
    (updateDetectionHistory instrument rawEnergy ;;;
     threshold <- threshold_of instrument ;;
     confidence <- getDetectionConfidence instrument ;;
     ret {| energy := rawEnergy;
            active := gt rawEnergy threshold;
            confidence := confidence;
            components := None |}) this.

(** *** Overlaps and the drums group *)

Definition with_confidence (r : DetectionResult) (c : number) : DetectionResult :=
  {| energy := energy r; active := active r; confidence := c;
     components := components r |}.

(** First [if] of [processOverlaps]: bass against guitar. *)
Definition suppress_guitar (result : gmap string DetectionResult)
    : gmap string DetectionResult :=
  match result !! "bass", result !! "guitar" with
  | Some bass, Some guitar =>
      if active bass && active guitar
      then if gt (energy bass) (mul (energy guitar) (Num 1.2))
           then <["guitar" := with_confidence guitar (mul (confidence guitar) (Num 0.7))]> result
           else result
      else result
  | _, _ => result
  end.

(** Second [if] of [processOverlaps]: the composite [drums] entry. *)
Definition group_drums (result : gmap string DetectionResult)
    : gmap string DetectionResult :=
  match result !! "kick", result !! "snare", result !! "hihat" with
  | Some kick, Some snare, Some hihat =>
      <["drums" :=
          {| energy := Math_max3 (energy kick) (energy snare) (energy hihat);
             active := active kick || active snare || active hihat;
             confidence := Math_max3 (confidence kick) (confidence snare) (confidence hihat);
             components := Some [("kick", kick); ("snare", snare); ("hihat", hihat)] |}]>
        result
  | _, _, _ => result
  end.

Definition processOverlaps (result : gmap string DetectionResult)
    : gmap string DetectionResult :=
  group_drums (suppress_guitar result).

(** *** One tick *)

(** [result[name] = this.processInstrumentData(name, dataArray, bufferLength,
    band.freqRange)] *)
Definition process_into (dataArray : list byte) (bufferLength : Z)
    (result : gmap string DetectionResult) (name : string) (band : option BandConfig)
    : M (gmap string DetectionResult) :=
  match band with
  | Some band =>
      r <- processInstrumentData name dataArray bufferLength (freqRange band) ;;
      ret (<[name := r]> result)
  | None => throw
  end.

(** [names.forEach(...)] with a body that updates [result]. *)
Fixpoint forEach {A : Type} (body : A -> string -> M A) (names : list string) (acc : A)
    : M A :=
  match names with
  | [] => ret acc
  | name :: rest => acc' <- body acc name ;; forEach body rest acc'
  end.

(** The callbacks of the two [forEach] loops of [getInstrumentEnergy]. *)
Definition per_drum (dataArray : list byte) (bufferLength : Z)
    (parts : list (string * BandConfig))
    (result : gmap string DetectionResult) (drumType : string)
    : M (gmap string DetectionResult) :=
  process_into dataArray bufferLength result drumType (get parts drumType).

Definition per_instrument (dataArray : list byte) (bufferLength : Z)
    (result : gmap string DetectionResult) (instrument : string)
    : M (gmap string DetectionResult) :=
  if String.eqb instrument "drums" then
    match get instruments "drums" with
    | Some (Kit parts) =>
        forEach (per_drum dataArray bufferLength parts) (keys parts) result
    | _ => throw
    end
  else
    process_into dataArray bufferLength result instrument
      (match get instruments instrument with
       | Some (Single band) => Some band
       | _ => None
       end).

(** [getInstrumentEnergy].  [dataArray] is the array the analyser filled:
    it is allocated with [bufferLength = this.analyser.frequencyBinCount]
    elements, so its length is the buffer length. *)
Definition getInstrumentEnergy (dataArray : list byte) : M (gmap string DetectionResult) :=
  fun this =>
    if negb (isInitialized this) then ret ∅ this
    else
      let bufferLength := Z.of_nat (length dataArray) in
      (result <- forEach (per_instrument dataArray bufferLength) (keys instruments) ∅ ;;
       ret (processOverlaps result)) this.

(** The bands that get a result of their own, with their configuration. *)
Definition configured_bands : list (string * BandConfig) :=
  flat_map (fun entry : string * Instrument =>
              match entry.2 with
              | Single band => [(entry.1, band)]
              | Kit parts => parts
              end)
           instruments.

(** What [processInstrumentData] returns for a band whose history is
    [history] and whose threshold is [limit], and the object it leaves. *)
Definition band_result (rate : positive) (instrument : string) (dataArray : list byte)
    (bufferLength : Z) (range : Z * Z) (limit : number) (history : list number)
    : DetectionResult :=
  let e := rawEnergy rate dataArray bufferLength range in
  {| energy := e; active := gt e limit;
     confidence := confidence_from instrument (push_shift history e);
     components := None |}.

Definition pushed (this : AudioProcessor) (instrument : string) (history : list number)
    : AudioProcessor :=
  mkAudioProcessor (isInitialized this) (sampleRate this)
    (<[instrument := history]> (detectionHistory this)).

(** Every band has its history array, as after the constructor. *)
Definition has_histories (this : AudioProcessor) : Prop :=
  forall name, In name (keys configured_bands) ->
    is_Some (detectionHistory this !! name).

(** *** The energy of a band, as the specification words it *)

Definition magnitude (b : byte) : Z := Z.of_N (Byte.to_N b).

Definition sum_magnitudes (bins : list byte) : Z :=
  foldr (fun b acc => (magnitude b + acc)%Z) 0%Z bins.

(** The bins [lo], ..., [hi - 1] of the frame. *)
Definition bins_between (dataArray : list byte) (lo hi : Z) : list byte :=
  take (Z.to_nat (hi - lo)) (drop (Z.to_nat lo) dataArray).

(** The mean magnitude over the index range [lo, hi) cut at the end of the
    buffer, as a fraction of the largest magnitude 255; 0 for an empty
    range. *)
Definition average_energy (dataArray : list byte) (lo hi : Z) : Q :=
  let stop := Z.min hi (Z.of_nat (length dataArray)) in
  if (lo <? stop)%Z
  then inject_Z (sum_magnitudes (bins_between dataArray lo stop))
       / inject_Z (stop - lo) / 255
  else 0.

(** *** Mean, variance and transients, as the specification words them *)

Definition Qsum (qs : list Q) : Q := foldr Qplus 0%Q qs.

Definition Qmean (qs : list Q) : Q := Qsum qs / inject_Z (Z.of_nat (length qs)).

Definition Qvariance (qs : list Q) : Q :=
  Qsum (map (fun q : Q => ((q - Qmean qs) ^ 2)%Q) qs) / inject_Z (Z.of_nat (length qs)).


End Realtime.

(** ** The rule layer of the server, [server/audioProcessor.js] *)

Module Batch.
Import JS.

(** One entry of [frequencyBands], as [analyzeFrequencyBand] resolves it. *)
Record BandAnalysis : Type := mkBandAnalysis {
  range : Z * Z;
  energy : number;
  significance : number }.

Record Flag : Type := mkFlag {
  detected : bool;
  confidence : number }.

Record Detection : Type := mkDetection {
  vocals : Flag;
  guitar : Flag;
  bass : Flag;
  drums : Flag;
  synth : Flag;
  piano : Flag }.

(** [frequencyBands[name].energy]; a missing band makes the access throw. *)
Definition energy_of (frequencyBands : gmap string BandAnalysis) (name : string)
    : option number :=
  energy <$> frequencyBands !! name.

(** [detectInstruments(frequencyBands, stems)]; [None] is a [TypeError].
    The operands of [||] and [&&] are read left to right, the right one only
    when the left one does not decide. *)
Definition detectInstruments (frequencyBands : gmap string BandAnalysis)
    (stems : option (gmap string string)) : option Detection :=
  let none := mkFlag false (Num 0) in
  (* Bass detection *)
  bass_e ← energy_of frequencyBands "bass";
  let bass_flag := if gt bass_e (Num 0.6) then mkFlag true bass_e else none in
  (* Drum detection *)
  sub_e ← energy_of frequencyBands "sub_bass";
  drums_test ← (if gt sub_e (Num 0.6) then Some true
                else highs_e ← energy_of frequencyBands "highs";
                     Some (gt highs_e (Num 0.7)));
  drums_flag ← (if drums_test : bool
                then highs_e ← energy_of frequencyBands "highs";
                     Some (mkFlag true (Math_max sub_e highs_e))
                else Some none);
  (* Vocal detection *)
  mids_e ← energy_of frequencyBands "mids";
  let vocals_flag := if gt mids_e (Num 0.7) then mkFlag true mids_e else none in
  (* Guitar detection *)
  low_e ← energy_of frequencyBands "low_mids";
  let guitar_flag :=
    if gt low_e (Num 0.6) && gt mids_e (Num 0.5)
    then mkFlag true (div (add low_e mids_e) (Num 2))
    else none in
  (* Synth detection *)
  high_e ← energy_of frequencyBands "high_mids";
  synth_test ← (if gt high_e (Num 0.7)
                then highs_e ← energy_of frequencyBands "highs";
                     Some (gt highs_e (Num 0.6))
                else Some false);
  synth_flag ← (if synth_test : bool
                then highs_e ← energy_of frequencyBands "highs";
                     Some (mkFlag true (div (add high_e highs_e) (Num 2)))
                else Some none);
  Some {| vocals := vocals_flag; guitar := guitar_flag; bass := bass_flag;
          drums := drums_flag; synth := synth_flag; piano := none |}.

(** A flag that is raised with confidence [c] when [test] holds. *)
Definition flag_if (test : bool) (c : number) : Flag :=
  if test then mkFlag true c else mkFlag false (Num 0).

(** The six bands of [analyzeFrequencyBands] with given energies. *)
Definition six_bands (sub_bass bass low_mids mids high_mids highs : number)
    : gmap string BandAnalysis :=
  <["sub_bass" := mkBandAnalysis (20, 60)%Z sub_bass (Num 1)]>
  (<["bass" := mkBandAnalysis (60, 250)%Z bass (Num 1)]>
  (<["low_mids" := mkBandAnalysis (250, 500)%Z low_mids (Num 1)]>
  (<["mids" := mkBandAnalysis (500, 2000)%Z mids (Num 1)]>
  (<["high_mids" := mkBandAnalysis (2000, 4000)%Z high_mids (Num 1)]>
  (<["highs" := mkBandAnalysis (4000, 20000)%Z highs (Num 1)]> ∅))))).

End Batch.

(** ** Concrete objects and frames *)

Module Examples.
Import JS Realtime.

(** A processor right after [initializeWithExistingContext], at 48 kHz. *)
Definition fresh : AudioProcessor := mkAudioProcessor true 48000 initial_history.

(** The same object before initialisation. *)
Definition idle : AudioProcessor := mkAudioProcessor false 48000 initial_history.

(** A frame of 128 bins (an analyser with [fftSize = 256]): bin 0 at 153,
    bins 1 to 20 at 204, silence above. *)
Definition frame_low_mid : list byte :=
  replicate 1 x99 ++ replicate 20 xcc ++ replicate 107 x00.

(** A frame of 128 bins with bin 0 at 204 and bins 1 to 20 at 153. *)
Definition frame_bass_heavy : list byte :=
  replicate 1 xcc ++ replicate 20 x99 ++ replicate 107 x00.

(** An array of 16 elements, shorter than a buffer length of 128. *)
Definition short_frame : list byte := replicate 16 x80.

(** Results for the three drum parts, and nothing else. *)
Definition three_parts : gmap string DetectionResult :=
  <["kick" := mkDetectionResult (Num 0.7) true (Num 0.8) None]>
  (<["snare" := mkDetectionResult (Num 0.2) false (Num 0.4) None]>
  (<["hihat" := mkDetectionResult (Num 0.5) true (Num 0.4) None]> ∅)).


(** A processor whose history for [instrument] is [history]. *)
Definition with_history (instrument : string) (history : list number) : AudioProcessor :=
  mkAudioProcessor true 48000 (<[instrument := history]> initial_history).

(** Five samples at 0.5. *)
Definition steady : list number := replicate 5 (Num 0.5).

(** Samples swinging between 0 and 1. *)
Definition swinging : list number := [Num 0; Num 1; Num 0; Num 1; Num 0].



(** Twenty-five distinct samples, 0.01 to 0.25. *)
Definition ramp25 : list number :=
  map (fun n => Num (inject_Z (Z.of_nat n) / 100)) (seq 1 25).

End Examples.

(** ** Sessions of ticks *)

Module Session.
Import JS Realtime.

(** Successive calls of [getInstrumentEnergy], one frame each, as the
    animation loop makes them; the mappings are collected in order. *)
Fixpoint ticks (frames : list (list byte)) : M (list (gmap string DetectionResult)) :=
  match frames with
  | [] => ret []
  | dataArray :: rest =>
      result <- getInstrumentEnergy dataArray ;;
      results <- ticks rest ;;
      ret (result :: results)
  end.

(** The two nested [forEach] loops of [getInstrumentEnergy] visit the bands
    in this order, one [processInstrumentData] each. *)
Fixpoint process_bands (dataArray : list byte) (bufferLength : Z)
    (bands : list (string * BandConfig)) (result : gmap string DetectionResult)
    : M (gmap string DetectionResult) :=
  match bands with
  | [] => ret result
  | (name, band) :: rest =>
      result' <- process_into dataArray bufferLength result name (Some band) ;;
      process_bands dataArray bufferLength rest result'
  end.

(** A number between 0 and 1. *)
Definition unit_number (x : number) : Prop :=
  exists q, x = Num q /\ (0 <= q <= 1)%Q.

(** Every history holds numbers between 0 and 1 only. *)
Definition unit_histories (this : AudioProcessor) : Prop :=
  forall name history,
    detectionHistory this !! name = Some history -> Forall unit_number history.

(** The energy a band gets from a frame at a given sample rate. *)
Definition band_energy (rate : positive) (band : BandConfig) (dataArray : list byte)
    : number :=
  rawEnergy rate dataArray (Z.of_nat (length dataArray)) (freqRange band).

End Session.

(** ** The consumer of the mapping, [CosmicVisualizer] *)

Module Visualizer.
Import JS Realtime.

(** A musician of [musicianTypes]; the fields that only position and
    colour the drawing ([x], [y], [color], [scale]) are left out. *)
Record Musician : Type := mkMusician {
  type : string;
  freqRange : Z * Z;
  active : bool }.

(** [activeInstruments.key || false] *)
Definition flag (activeInstruments : gmap string bool) (key : string) : bool :=
  match activeInstruments !! key with Some b => b | None => false end.

Definition musicianTypes (activeInstruments : gmap string bool)
    : list (string * Musician) :=
  [ ("vocalist",  mkMusician "vocalist"  (300, 3500)%Z (flag activeInstruments "vocals"));
    ("guitarist", mkMusician "guitarist" (300, 4000)%Z (flag activeInstruments "guitar"));
    ("drummer",   mkMusician "drummer"   (20, 250)%Z   (flag activeInstruments "drums"));
    ("bassist",   mkMusician "bassist"   (60, 250)%Z   (flag activeInstruments "bass"));
    ("synth",     mkMusician "synth"     (100, 8000)%Z (flag activeInstruments "synth")) ].

(** [Object.values(activeInstruments).some(v => v)] *)
Definition some_active (activeInstruments : gmap string bool) : bool :=
  existsb (fun entry : string * bool => entry.2) (map_to_list activeInstruments).

(** The array [musicians] the effect builds. *)
Definition musicians (activeInstruments : gmap string bool) (isPlaying : bool)
    : list Musician :=
  if (size activeInstruments =? 0)%nat || negb (some_active activeInstruments)
  then map snd (musicianTypes activeInstruments)
  else
    let selected := List.filter active (map snd (musicianTypes activeInstruments)) in
    if (length selected =? 0)%nat && isPlaying
    then match get (musicianTypes activeInstruments) "guitarist" with
         | Some guitarist => [guitarist]
         | None => []
         end
    else selected.

(** The types of the musicians whose flag is set, in the order of
    [musicianTypes]. *)
Definition flagged (activeInstruments : gmap string bool) : list string :=
  (if flag activeInstruments "vocals" then ["vocalist"] else [])
  ++ (if flag activeInstruments "guitar" then ["guitarist"] else [])
  ++ (if flag activeInstruments "drums" then ["drummer"] else [])
  ++ (if flag activeInstruments "bass" then ["bassist"] else [])
  ++ (if flag activeInstruments "synth" then ["synth"] else []).

(** [newActiveInstruments]: [instrumentEnergies.key?.active || false] for the
    five keys. *)
Definition newActiveInstruments (instrumentEnergies : gmap string DetectionResult)
    : gmap string bool :=
  let active_of key :=
    match instrumentEnergies !! key with
    | Some r => Realtime.active r
    | None => false
    end in
  <["vocals" := active_of "vocals"]>
  (<["guitar" := active_of "guitar"]>
  (<["bass" := active_of "bass"]>
  (<["drums" := active_of "drums"]>
  (<["synth" := active_of "synth"]> ∅)))).

(** [value || 0] for [value = instrumentEnergies[musician.type]?.energy]:
    [undefined], [NaN] and 0 give 0. *)
Definition or_zero (value : option number) : number :=
  match value with
  | Some (Num q) => if Qeq_bool q 0 then Num 0 else Num q
  | Some NaN => Num 0
  | None => Num 0
  end.

(** The energy a musician is drawn with when the mapping comes from
    [getInstrumentEnergy]. *)
Definition drawn_energy (instrumentEnergies : gmap string DetectionResult)
    (musician : Musician) : number :=
  or_zero (Realtime.energy <$> instrumentEnergies !! type musician).

(** [Math.floor(freq / (22050 / bufferLength))] *)
Definition fallback_index (freq : Z) (bufferLength : Z) : Z :=
  Qfloor (inject_Z freq / (22050 / inject_Z bufferLength)).

(** The basic analysis of the [else] branch: [avgEnergy] of one musician.
    The loop is the loop of [processInstrumentData] without its counter;
    the sum is divided by [highIndex - lowIndex]. *)
Definition fallback_energy (dataArray : list byte) (range : Z * Z) : number :=
  let bufferLength := Z.of_nat (length dataArray) in
  let '(lowFreq, highFreq) := range in
  let lowIndex := fallback_index lowFreq bufferLength in
  let highIndex := fallback_index highFreq bufferLength in
  let total :=
    fst (energy_loop (Z.to_nat (bufferLength - lowIndex)) dataArray highIndex
           bufferLength lowIndex (Num 0) 0%Z) in
  div (div total (Num (inject_Z (highIndex - lowIndex)))) (Num 255).

(** The energy a musician is drawn with in the basic analysis. *)
Definition drawn_fallback (dataArray : list byte) (musician : Musician) : number :=
  or_zero (Some (fallback_energy dataArray (freqRange musician))).

(** [drawMusician]: the amounts derived from the energy. *)
Definition glowAmount (energy : number) : number :=
  Math_min (mul energy (Num 0.3)) (Num 0.6).

Definition moveAmount (energy : number) : number := mul energy (Num 5).

Definition mouthOpen (energy : number) : number :=
  Math_min (mul energy (Num 15)) (Num 10).

(** [ctx.shadowBlur = 10 + (glowAmount * 30)] *)
Definition shadowBlur (energy : number) : number :=
  add (Num 10) (mul (glowAmount energy) (Num 30)).

(** [musician.animationPhase += 0.1 + energy * 0.3] *)
Definition next_phase (animationPhase energy : number) : number :=
  add animationPhase (add (Num 0.1) (mul energy (Num 0.3))).

End Visualizer.

(** ** The server around the rule layer *)

Module Server.
Import JS Batch.

(** How a promise settles, or how a call that may throw ends. *)
Inductive outcome (A : Type) : Type :=
| Resolved (value : A)
| Rejected (message : string).
Arguments Resolved {A} value.
Arguments Rejected {A} message.

(** The bands of [analyzeFrequencyBands]. *)
Definition bands : list (string * (Z * Z)) :=
  [ ("sub_bass", (20, 60)); ("bass", (60, 250)); ("low_mids", (250, 500));
    ("mids", (500, 2000)); ("high_mids", (2000, 4000)); ("highs", (4000, 20000)) ]%Z.

(** [analyzeFrequencyBand]: the promise rejects when the filter run or the
    probe of its output fails, and otherwise resolves with the placeholder
    analysis; [draw1] and [draw2] are the two values of [Math.random()],
    each at least 0 and below 1. *)
Definition analyzeFrequencyBand (band : string * (Z * Z)) (filtered probed : outcome unit)
    (draw1 draw2 : Q) : outcome BandAnalysis :=
  match filtered with
  | Rejected message => Rejected message
  | Resolved _ =>
      match probed with
      | Rejected message => Rejected message
      | Resolved _ =>
          Resolved {| range := band.2;
                      energy := add (mul (Num draw1) (Num 0.5)) (Num 0.5);
                      significance := add (mul (Num draw2) (Num 0.5)) (Num 0.5) |}
      end
  end.

(** The callback of [Promise.all(bandPromises).then]:
    [results.forEach((result, index) => bandResults[bands[index].name] = result)];
    [bands[index]] is [undefined] past the sixth result. *)
Fixpoint bandResults_from (index : nat) (results : list BandAnalysis)
    (bandResults : gmap string BandAnalysis) : option (gmap string BandAnalysis) :=
  match results with
  | [] => Some bandResults
  | result :: rest =>
      match bands !! index with
      | Some band => bandResults_from (S index) rest (<[band.1 := result]> bandResults)
      | None => None
      end
  end.

Definition bandResults (results : list BandAnalysis) : option (gmap string BandAnalysis) :=
  bandResults_from 0 results ∅.











(** *** [cleanupFiles] *)

(** The calls of [cleanupFiles] that report an error. *)
Record Faults : Type := mkFaults {
  readdir_fails : bool;
  stat_fails : string -> bool;
  unlink_fails : string -> bool }.

(** [Date.now() - (24 * 60 * 60 * 1000)] *)
Definition cutoffTime (now : Z) : Z := (now - 24 * 60 * 60 * 1000)%Z.

(** Whether the callbacks of one file end in a successful [fs.unlink]. *)
Definition unlinked (faults : Faults) (now : Z) (file : string) (mtime : Z) : bool :=
  negb (stat_fails faults file) && (mtime <? cutoffTime now)%Z
  && negb (unlink_fails faults file).

(** [cleanupFiles()] at time [now] on the upload directory, a map from file
    names to modification times in milliseconds. *)
Definition cleanupFiles (faults : Faults) (now : Z) (uploads : gmap string Z)
    : gmap string Z :=
  if readdir_fails faults then uploads
  else filter (fun entry : string * Z => unlinked faults now entry.1 entry.2 = false)
              uploads.

Definition no_faults : Faults := mkFaults false (fun _ => false) (fun _ => false).

End Server.

(** ** Concrete uploads and directories *)

Module Scenes.
Import JS Batch Server.

(** A frame of 128 bins that agrees with [Examples.frame_low_mid] on bin 0
    only. *)
Definition frame_first_bin : list byte := replicate 1 x99 ++ replicate 127 x00.





(** An upload directory with a file of two days ago and one of an hour
    ago, at time [now]. *)
Definition now : Z := 1700000000000.

Definition uploads : gmap string Z :=
  <["old.mp3" := (now - 2 * 86400000)%Z]> (<["new.mp3" := (now - 3600000)%Z]> ∅).

End Scenes.

(** * Properties *)

Import JS.

(** ** The state-and-error monad *)

Section MonadLemmas.
Import Realtime.
Context {A B : Type}.

Lemma bind_Some (m : M A) (k : A -> M B) (this this' : AudioProcessor) (a : A) :
  m this = Some (a, this') -> bind m k this = k a this'.
Proof. intros H. unfold bind. now rewrite H. Qed.

Lemma bind_None (m : M A) (k : A -> M B) (this : AudioProcessor) :
  m this = None -> bind m k this = None.
Proof. intros H. unfold bind. now rewrite H. Qed.
End MonadLemmas.

(** ** Histories *)

Section History.
Import Realtime.

Lemma slice_last_short {A : Type} (k : nat) (l : list A) :
  (length l <= k)%nat -> slice_last k l = l.
Proof.
  intros H. unfold slice_last.
  replace (length l - k)%nat with 0%nat by lia. reflexivity.
Qed.

Lemma slice_last_length {A : Type} (k : nat) (l : list A) :
  length (slice_last k l) = Nat.min k (length l).
Proof. unfold slice_last. rewrite length_drop. lia. Qed.

Lemma tail_drop_snoc {A : Type} (n : nat) (l : list A) (x : A) :
  (n < length l)%nat -> tail (drop n l ++ [x]) = drop (S n) (l ++ [x]).
Proof.
  revert n. induction l as [|y l IH]; intros n Hn; simpl in Hn; [lia|].
  destruct n as [|n].
  - simpl. reflexivity.
  - simpl. apply IH. lia.
Qed.

(** Pushing onto the last 20 of [l] gives the last 20 of [l] with the new
    sample appended. *)
Lemma push_shift_slice (l : list number) (energy : number) :
  push_shift (slice_last 20 l) energy = slice_last 20 (l ++ [energy]).
Proof.
  unfold push_shift.
  rewrite length_app, slice_last_length. simpl length.
  destruct (Nat.ltb_spec 20 (Nat.min 20 (length l) + 1)) as [Hfull|Hroom].
  - unfold slice_last. rewrite length_app. simpl length.
    replace (length l + 1 - 20)%nat with (S (length l - 20)) by lia.
    apply tail_drop_snoc. lia.
  - rewrite slice_last_short by lia.
    rewrite slice_last_short; [reflexivity|].
    rewrite length_app. simpl. lia.
Qed.

Lemma updateDetectionHistory_Some (instrument : string) (energy : number)
    (this : AudioProcessor) (history : list number) :
  detectionHistory this !! instrument = Some history ->
  updateDetectionHistory instrument energy this =
    Some (tt, mkAudioProcessor (isInitialized this) (sampleRate this)
                (<[instrument := push_shift history energy]> (detectionHistory this))).
Proof.
  intros H. unfold updateDetectionHistory, bind, history_of, set_history.
  now rewrite H.
Qed.

Lemma updateDetectionHistory_None (instrument : string) (energy : number)
    (this : AudioProcessor) :
  detectionHistory this !! instrument = None ->
  updateDetectionHistory instrument energy this = None.
Proof.
  intros H. unfold updateDetectionHistory, bind, history_of. now rewrite H.
Qed.

Lemma push_all_slice (instrument : string) (energies pushed : list number)
    (this : AudioProcessor) :
  detectionHistory this !! instrument = Some (slice_last 20 pushed) ->
  exists this',
    push_all instrument energies this = Some (tt, this') /\
    detectionHistory this' !! instrument = Some (slice_last 20 (pushed ++ energies)) /\
    isInitialized this' = isInitialized this /\
    sampleRate this' = sampleRate this /\
    forall other, other <> instrument ->
      detectionHistory this' !! other = detectionHistory this !! other.
Proof.
  revert pushed this. induction energies as [|energy rest IH]; intros pushed this H.
  - exists this. rewrite app_nil_r. simpl. unfold ret. auto.
  - simpl push_all.
    rewrite (bind_Some _ _ _ _ _ (updateDetectionHistory_Some _ energy _ _ H)).
    rewrite push_shift_slice.
    set (this1 := mkAudioProcessor _ _ _).
    destruct (IH (pushed ++ [energy]) this1) as (this' & Hrun & Hhist & Hinit & Hrate & Hother).
    { subst this1. simpl. apply lookup_insert_eq. }
    exists this'. rewrite Hrun, Hhist, <- app_assoc. simpl.
    repeat split; auto.
    intros other Hne. rewrite Hother by assumption.
    subst this1. simpl. apply lookup_insert_ne. congruence.
Qed.
End History.

(** C2. Each history is a FIFO window of at most 20 samples: pushing any
    series of energies onto a history of at most 20 samples, one call of
    [updateDetectionHistory] each, succeeds and leaves exactly the last 20
    of all samples, oldest first; one push appends the sample and drops the
    oldest one exactly when the length would exceed 20; and 25 pushes onto
    an empty history retain the last 20 pushed values in order.  The
    histories of the other bands are not touched. *)
Theorem history_is_fifo_window_of_20 (instrument : string) (history energies : list number)
    (this : Realtime.AudioProcessor) :
  Realtime.detectionHistory this !! instrument = Some history ->
  (length history <= 20)%nat ->
  exists this',
    Realtime.push_all instrument energies this = Some (tt, this') /\
    Realtime.detectionHistory this' !! instrument
      = Some (slice_last 20 (history ++ energies)) /\
    (length (slice_last 20 (history ++ energies)) <= 20)%nat /\
    (forall energy,
        Realtime.push_shift history energy
        = if (length history <? 20)%nat then history ++ [energy]
          else tail history ++ [energy]) /\
    (history = [] -> length energies = 25%nat ->
     Realtime.detectionHistory this' !! instrument = Some (drop 5 energies)) /\
    (forall other, other <> instrument ->
       Realtime.detectionHistory this' !! other = Realtime.detectionHistory this !! other).
Proof.
  intros Hhist Hlen.
  destruct (push_all_slice instrument energies history this)
    as (this' & Hrun & Hwin & _ & _ & Hother).
  { rewrite slice_last_short by assumption. exact Hhist. }
  exists this'. split; [exact Hrun|]. split; [exact Hwin|].
  split; [rewrite slice_last_length; lia|].
  split.
  - intros energy. unfold Realtime.push_shift.
    rewrite length_app. simpl length.
    destruct (Nat.ltb_spec (length history) 20) as [Hlt|Hge].
    + destruct (Nat.ltb_spec 20 (length history + 1)); [lia|reflexivity].
    + destruct (Nat.ltb_spec 20 (length history + 1)); [|lia].
      destruct history; [simpl in Hge; lia|reflexivity].
  - split; [|exact Hother].
    intros -> H25. rewrite Hwin. simpl app. unfold slice_last. now rewrite H25.
Qed.

(** ** One band, one tick *)

Section Tick.
Import Realtime.

Lemma processInstrumentData_ok (instrument : string) (dataArray : list byte)
    (bufferLength : Z) (range : Z * Z) (this : AudioProcessor)
    (history : list number) (limit : number) :
  detectionHistory this !! instrument = Some history ->
  threshold_of instrument = ret limit ->
  processInstrumentData instrument dataArray bufferLength range this =
    Some (band_result (sampleRate this) instrument dataArray bufferLength range
            limit history,
          pushed this instrument
            (push_shift history
               (rawEnergy (sampleRate this) dataArray bufferLength range))).
Proof.
  intros Hhist Hlimit. unfold processInstrumentData.
  rewrite (bind_Some _ _ _ _ _ (updateDetectionHistory_Some _ _ _ _ Hhist)).
  rewrite Hlimit. unfold bind at 1. unfold ret at 1.
  unfold getDetectionConfidence, bind, history_of, ret. simpl detectionHistory.
  rewrite lookup_insert_eq. reflexivity.
Qed.

Lemma processInstrumentData_no_history (instrument : string) (dataArray : list byte)
    (bufferLength : Z) (range : Z * Z) (this : AudioProcessor) :
  detectionHistory this !! instrument = None ->
  processInstrumentData instrument dataArray bufferLength range this = None.
Proof.
  intros Hhist. unfold processInstrumentData.
  apply bind_None, updateDetectionHistory_None, Hhist.
Qed.

Lemma process_into_ok (dataArray : list byte) (bufferLength : Z)
    (result : gmap string DetectionResult) (name : string) (band : BandConfig)
    (this : AudioProcessor) (history : list number) (limit : number) :
  detectionHistory this !! name = Some history ->
  threshold_of name = ret limit ->
  process_into dataArray bufferLength result name (Some band) this =
    Some (<[name := band_result (sampleRate this) name dataArray bufferLength
                      (freqRange band) limit history]> result,
          pushed this name
            (push_shift history
               (rawEnergy (sampleRate this) dataArray bufferLength (freqRange band)))).
Proof.
  intros Hhist Hlimit. unfold process_into.
  rewrite (bind_Some _ _ _ _ _
             (processInstrumentData_ok _ _ _ _ _ _ _ Hhist Hlimit)).
  reflexivity.
Qed.

Lemma forEach_cons {A : Type} (body : A -> string -> M A) (name : string)
    (rest : list string) (acc : A) :
  forEach body (name :: rest) acc = bind (body acc name) (forEach body rest).
Proof. reflexivity. Qed.
End Tick.

Section WholeTick.
Import Realtime.

Lemma per_instrument_single (dataArray : list byte) (bufferLength : Z)
    (result : gmap string DetectionResult) (name : string) (band : BandConfig) :
  String.eqb name "drums" = false ->
  get instruments name = Some (Single band) ->
  per_instrument dataArray bufferLength result name
  = process_into dataArray bufferLength result name (Some band).
Proof. intros Hname Hget. unfold per_instrument. now rewrite Hname, Hget. Qed.

Lemma per_instrument_drums (dataArray : list byte) (bufferLength : Z)
    (result : gmap string DetectionResult) :
  per_instrument dataArray bufferLength result "drums"
  = forEach (per_drum dataArray bufferLength drums_parts) (keys drums_parts) result.
Proof. reflexivity. Qed.

Lemma pushed_lookup_ne (this : AudioProcessor) (name other : string)
    (history : list number) :
  name <> other ->
  detectionHistory (pushed this name history) !! other = detectionHistory this !! other.
Proof. intros Hne. unfold pushed. simpl. now apply lookup_insert_ne. Qed.

Lemma pushed_lookup_eq (this : AudioProcessor) (name : string) (history : list number) :
  detectionHistory (pushed this name history) !! name = Some history.
Proof. unfold pushed. simpl. apply lookup_insert_eq. Qed.

(** One band of the tick: rewrite the head of the loop with
    [process_into_ok], reading the band's history through the earlier
    updates. *)
Ltac band_step H :=
  rewrite forEach_cons;
  erewrite bind_Some;
  [| apply process_into_ok;
     [ rewrite ?pushed_lookup_ne by discriminate; exact H | reflexivity ] ].

(** A tick on an initialised object with all seven histories succeeds;
    before [processOverlaps] every band holds the result of
    [processInstrumentData] on its own history, and every history has
    received the band's energy. *)
Lemma getInstrumentEnergy_ok (dataArray : list byte) (this : AudioProcessor) :
  isInitialized this = true ->
  has_histories this ->
  exists raw this',
    getInstrumentEnergy dataArray this = Some (processOverlaps raw, this') /\
    raw !! "drums" = None /\
    (forall name, is_Some (raw !! name) -> In name (keys configured_bands)) /\
    forall name band, In (name, band) configured_bands ->
      exists history,
        detectionHistory this !! name = Some history /\
        raw !! name
          = Some (band_result (sampleRate this) name dataArray
                    (Z.of_nat (length dataArray)) (freqRange band)
                    (Num (threshold band)) history) /\
        detectionHistory this' !! name
          = Some (push_shift history
                    (rawEnergy (sampleRate this) dataArray
                       (Z.of_nat (length dataArray)) (freqRange band))).
Proof.
  intros Hinit Hall.
  destruct (Hall "vocals") as [hv Hv]; [simpl; tauto|].
  destruct (Hall "guitar") as [hg Hg]; [simpl; tauto|].
  destruct (Hall "bass") as [hb Hb]; [simpl; tauto|].
  destruct (Hall "kick") as [hk Hk]; [simpl; tauto|].
  destruct (Hall "snare") as [hs Hs]; [simpl; tauto|].
  destruct (Hall "hihat") as [hh Hh]; [simpl; tauto|].
  destruct (Hall "synth") as [hy Hy]; [simpl; tauto|].
  unfold getInstrumentEnergy. rewrite Hinit. cbn [negb].
  change (keys instruments) with ["vocals"; "guitar"; "bass"; "drums"; "synth"].
  set (bufferLength := Z.of_nat (length dataArray)).
  eexists _, _. split.
  { erewrite bind_Some; [reflexivity|].
    rewrite forEach_cons, (per_instrument_single _ _ _ "vocals" _ eq_refl eq_refl).
    erewrite bind_Some; [|apply process_into_ok; [exact Hv|reflexivity]].
    rewrite forEach_cons, (per_instrument_single _ _ _ "guitar" _ eq_refl eq_refl).
    erewrite bind_Some;
      [|apply process_into_ok;
        [rewrite ?pushed_lookup_ne by discriminate; exact Hg|reflexivity]].
    rewrite forEach_cons, (per_instrument_single _ _ _ "bass" _ eq_refl eq_refl).
    erewrite bind_Some;
      [|apply process_into_ok;
        [rewrite ?pushed_lookup_ne by discriminate; exact Hb|reflexivity]].
    rewrite forEach_cons, per_instrument_drums.
    erewrite bind_Some.
    2:{ change (keys drums_parts) with ["kick"; "snare"; "hihat"].
        unfold per_drum.
        change (get drums_parts "kick") with (Some (mkBand (20, 100)%Z 0.6)).
        change (get drums_parts "snare") with (Some (mkBand (120, 250)%Z 0.5)).
        change (get drums_parts "hihat") with (Some (mkBand (800, 5000)%Z 0.4)).
        band_step Hk. band_step Hs. band_step Hh.
        reflexivity. }
    rewrite forEach_cons, (per_instrument_single _ _ _ "synth" _ eq_refl eq_refl).
    erewrite bind_Some;
      [|apply process_into_ok;
        [rewrite ?pushed_lookup_ne by discriminate; exact Hy|reflexivity]].
    reflexivity. }
  cbn [sampleRate pushed].
  split; [now simplify_map_eq|].
  split.
  { intros name [r Hr].
    change (keys configured_bands)
      with ["vocals"; "guitar"; "bass"; "kick"; "snare"; "hihat"; "synth"].
    repeat (rewrite lookup_insert in Hr; case_decide; [subst; simpl; tauto|]).
    rewrite lookup_empty in Hr. discriminate. }
  intros name band Hin.
  change configured_bands with
    [ ("vocals", mkBand (300, 3500)%Z 0.45); ("guitar", mkBand (300, 4000)%Z 0.5);
      ("bass", mkBand (60, 250)%Z 0.5); ("kick", mkBand (20, 100)%Z 0.6);
      ("snare", mkBand (120, 250)%Z 0.5); ("hihat", mkBand (800, 5000)%Z 0.4);
      ("synth", mkBand (100, 8000)%Z 0.45) ] in Hin.
  simpl In in Hin.
  destruct Hin as [Hin|[Hin|[Hin|[Hin|[Hin|[Hin|[Hin|[]]]]]]]];
    injection Hin as <- <-;
    [exists hv|exists hg|exists hb|exists hk|exists hs|exists hh|exists hy];
    (split; [assumption|]);
    (split; [now simplify_map_eq|]);
    cbn [detectionHistory]; now simplify_map_eq.
Qed.
End WholeTick.

Lemma history_is_fifo_window_of_20_witness :
  let history : list number := [] in
  exists this',
    Realtime.push_all "bass" Examples.ramp25 Examples.fresh = Some (tt, this') /\
    Realtime.detectionHistory this' !! "bass"
      = Some (slice_last 20 (history ++ Examples.ramp25)) /\
    (length (slice_last 20 (history ++ Examples.ramp25)) <= 20)%nat /\
    (forall energy,
        Realtime.push_shift history energy
        = if (length history <? 20)%nat then history ++ [energy]
          else tail history ++ [energy]) /\
    (history = [] -> length Examples.ramp25 = 25%nat ->
     Realtime.detectionHistory this' !! "bass" = Some (drop 5 Examples.ramp25)) /\
    (forall other, other <> "bass" ->
       Realtime.detectionHistory this' !! other
       = Realtime.detectionHistory Examples.fresh !! other).
Proof.
  intros history.
  apply (history_is_fifo_window_of_20 "bass" history Examples.ramp25 Examples.fresh).
  - reflexivity.
  - simpl. lia.
Defined.

(** ** Overlaps *)

Section Overlaps.
Import Realtime.

Lemma suppress_guitar_other (result : gmap string DetectionResult) (name : string) :
  name <> "guitar" -> suppress_guitar result !! name = result !! name.
Proof.
  intros Hne. unfold suppress_guitar.
  destruct (result !! "bass") as [bass|]; [|reflexivity].
  destruct (result !! "guitar") as [guitar|]; [|reflexivity].
  destruct (active bass && active guitar); [|reflexivity].
  destruct (gt _ _); [|reflexivity].
  apply lookup_insert_ne. congruence.
Qed.

Lemma group_drums_other (result : gmap string DetectionResult) (name : string) :
  name <> "drums" -> group_drums result !! name = result !! name.
Proof.
  intros Hne. unfold group_drums.
  destruct (result !! "kick"); [|reflexivity].
  destruct (result !! "snare"); [|reflexivity].
  destruct (result !! "hihat"); [|reflexivity].
  apply lookup_insert_ne. congruence.
Qed.

Lemma processOverlaps_other (result : gmap string DetectionResult) (name : string) :
  name <> "guitar" -> name <> "drums" ->
  processOverlaps result !! name = result !! name.
Proof.
  intros Hg Hd. unfold processOverlaps.
  rewrite group_drums_other by assumption. now apply suppress_guitar_other.
Qed.

(** [processOverlaps] changes neither the energy nor the activity flag of
    a band. *)
Lemma processOverlaps_band (result : gmap string DetectionResult) (name : string)
    (r : DetectionResult) :
  name <> "drums" ->
  processOverlaps result !! name = Some r ->
  exists r0, result !! name = Some r0 /\
             energy r = energy r0 /\ active r = active r0.
Proof.
  intros Hd. unfold processOverlaps. rewrite group_drums_other by assumption.
  destruct (decide (name = "guitar")) as [->|Hg].
  - unfold suppress_guitar.
    destruct (result !! "guitar") as [guitar|] eqn:Hguitar.
    2:{ destruct (result !! "bass"); rewrite Hguitar; discriminate. }
    destruct (result !! "bass") as [bass|];
      [|rewrite Hguitar; intros [= <-]; eauto].
    destruct (active bass && active guitar);
      [|rewrite Hguitar; intros [= <-]; eauto].
    destruct (gt _ _); [|rewrite Hguitar; intros [= <-]; eauto].
    rewrite lookup_insert_eq. intros [= <-]. exists guitar. auto.
  - rewrite suppress_guitar_other by assumption. intros ->. eauto.
Qed.
End Overlaps.

Section ActiveFlag.
Import Realtime.

Lemma processOverlaps_is_Some (result : gmap string DetectionResult) (name : string) :
  name <> "drums" ->
  is_Some (result !! name) -> is_Some (processOverlaps result !! name).
Proof.
  intros Hd Hsome. unfold processOverlaps. rewrite group_drums_other by assumption.
  destruct (decide (name = "guitar")) as [->|Hg].
  - unfold suppress_guitar.
    destruct (result !! "bass") as [bass|]; [|assumption].
    destruct (result !! "guitar") as [guitar|] eqn:Hguitar;
      [|rewrite Hguitar; assumption].
    destruct (active bass && active guitar); [|rewrite Hguitar; eauto].
    destruct (gt _ _); [|rewrite Hguitar; eauto].
    rewrite lookup_insert_eq. eauto.
  - now rewrite suppress_guitar_other by assumption.
Qed.

Lemma configured_band_not_drums (name : string) (band : BandConfig) :
  In (name, band) configured_bands -> name <> "drums".
Proof.
  intros Hin ->. simpl in Hin.
  repeat (destruct Hin as [Hin|Hin]; [discriminate Hin|]). exact Hin.
Qed.

Lemma configured_band_key (name : string) :
  In name (keys configured_bands) -> exists band, In (name, band) configured_bands.
Proof.
  unfold keys. intros Hin. apply in_map_iff in Hin.
  destruct Hin as ([name' band] & <- & Hin). now exists band.
Qed.
End ActiveFlag.

(** C1. On an object holding the seven histories, a tick returns a mapping
    in which every result of a configured band (vocals, guitar, bass, kick,
    snare, hihat, synth) has [active] equal to the comparison of its
    [energy] with that band's own threshold; on an initialised object each
    of the seven bands has such a result; and the object the tick leaves
    again holds the seven histories, so the property carries over to every
    later tick. *)
Theorem active_iff_energy_above_threshold (dataArray : list byte)
    (this : Realtime.AudioProcessor) :
  Realtime.has_histories this ->
  keys Realtime.configured_bands
    = ["vocals"; "guitar"; "bass"; "kick"; "snare"; "hihat"; "synth"] /\
  exists result this',
    Realtime.getInstrumentEnergy dataArray this = Some (result, this') /\
    Realtime.has_histories this' /\
    forall name band, In (name, band) Realtime.configured_bands ->
      (Realtime.isInitialized this = true -> is_Some (result !! name)) /\
      forall r, result !! name = Some r ->
        Realtime.active r = gt (Realtime.energy r) (Num (Realtime.threshold band)).
Proof.
  intros Hall. split; [reflexivity|].
  destruct (Realtime.isInitialized this) eqn:Hinit.
  - destruct (getInstrumentEnergy_ok dataArray this Hinit Hall)
      as (raw & this' & Hrun & _ & _ & Hbands).
    exists (Realtime.processOverlaps raw), this'.
    split; [exact Hrun|]. split.
    + intros name Hin. destruct (configured_band_key name Hin) as [band Hband].
      destruct (Hbands name band Hband) as (history & _ & _ & Hnew). eauto.
    + intros name band Hin.
      pose proof (configured_band_not_drums name band Hin) as Hd.
      destruct (Hbands name band Hin) as (history & _ & Hraw & _).
      split.
      * intros _. apply processOverlaps_is_Some; [assumption|]. rewrite Hraw. eauto.
      * intros r Hr.
        destruct (processOverlaps_band raw name r Hd Hr) as (r0 & Hr0 & -> & ->).
        rewrite Hraw in Hr0. injection Hr0 as <-. reflexivity.
  - exists ∅, this. unfold Realtime.getInstrumentEnergy. rewrite Hinit.
    split; [reflexivity|]. split; [exact Hall|].
    intros name band _. split; [discriminate|].
    intros r Hr. rewrite lookup_empty in Hr. discriminate.
Qed.

Lemma active_iff_energy_above_threshold_witness :
  keys Realtime.configured_bands
    = ["vocals"; "guitar"; "bass"; "kick"; "snare"; "hihat"; "synth"] /\
  exists result this',
    Realtime.getInstrumentEnergy Examples.frame_low_mid Examples.fresh
      = Some (result, this') /\
    Realtime.has_histories this' /\
    forall name band, In (name, band) Realtime.configured_bands ->
      (Realtime.isInitialized Examples.fresh = true -> is_Some (result !! name)) /\
      forall r, result !! name = Some r ->
        Realtime.active r = gt (Realtime.energy r) (Num (Realtime.threshold band)).
Proof.
  apply (active_iff_energy_above_threshold Examples.frame_low_mid Examples.fresh).
  intros name Hin. simpl in Hin.
  repeat (destruct Hin as [<-|Hin]; [vm_compute; eauto|]). destruct Hin.
Defined.

Section Drums.
Import Realtime.

Lemma Qmax3_spec (a b c : Q) :
  (a <= Qmax (Qmax a b) c /\ b <= Qmax (Qmax a b) c /\ c <= Qmax (Qmax a b) c /\
   (Qmax (Qmax a b) c == a \/ Qmax (Qmax a b) c == b \/ Qmax (Qmax a b) c == c))%Q.
Proof.
  destruct (Q.max_spec a b) as [[Hab Eab]|[Hab Eab]];
    destruct (Q.max_spec (Qmax a b) c) as [[Hc Ec]|[Hc Ec]];
    rewrite Ec; rewrite ?Eab in *; repeat split; auto; lra.
Qed.

Lemma group_drums_lookup (result : gmap string DetectionResult)
    (kick snare hihat : DetectionResult) :
  result !! "kick" = Some kick -> result !! "snare" = Some snare ->
  result !! "hihat" = Some hihat ->
  group_drums result !! "drums" =
    Some {| energy := Math_max3 (energy kick) (energy snare) (energy hihat);
            active := active kick || active snare || active hihat;
            confidence :=
              Math_max3 (confidence kick) (confidence snare) (confidence hihat);
            components := Some [("kick", kick); ("snare", snare); ("hihat", hihat)] |}.
Proof.
  intros Hk Hs Hh. unfold group_drums. rewrite Hk, Hs, Hh.
  apply lookup_insert_eq.
Qed.

Lemma group_drums_missing (result : gmap string DetectionResult) :
  ~ (is_Some (result !! "kick") /\ is_Some (result !! "snare")
     /\ is_Some (result !! "hihat")) ->
  group_drums result = result.
Proof.
  intros Hnot. unfold group_drums.
  destruct (result !! "kick"); [|reflexivity].
  destruct (result !! "snare"); [|reflexivity].
  destruct (result !! "hihat"); [|reflexivity].
  exfalso. apply Hnot. eauto.
Qed.
End Drums.

(** C6. [processOverlaps] adds the composite [drums] entry to a mapping
    without one if and only if the mapping has a result for each of kick,
    snare and hihat.  The entry then has the maximum of the three energies
    (for numeric energies: an upper bound of the three that is one of
    them), the disjunction of the three activity flags, the maximum of the
    three confidences, and the three results as its [components].  In a
    tick of an initialised object the three results are always there, and
    so is the composite. *)
Theorem drums_emitted_iff_all_parts (result : gmap string Realtime.DetectionResult)
    (dataArray : list byte) (this : Realtime.AudioProcessor) :
  result !! "drums" = None ->
  Realtime.has_histories this ->
  Realtime.isInitialized this = true ->
  (is_Some (Realtime.processOverlaps result !! "drums") <->
   is_Some (result !! "kick") /\ is_Some (result !! "snare")
   /\ is_Some (result !! "hihat")) /\
  (forall kick snare hihat,
      result !! "kick" = Some kick -> result !! "snare" = Some snare ->
      result !! "hihat" = Some hihat ->
      exists drums,
        Realtime.processOverlaps result !! "drums" = Some drums /\
        Realtime.energy drums
          = Math_max3 (Realtime.energy kick) (Realtime.energy snare)
                      (Realtime.energy hihat) /\
        Realtime.active drums
          = Realtime.active kick || Realtime.active snare || Realtime.active hihat /\
        Realtime.confidence drums
          = Math_max3 (Realtime.confidence kick) (Realtime.confidence snare)
                      (Realtime.confidence hihat) /\
        Realtime.components drums
          = Some [("kick", kick); ("snare", snare); ("hihat", hihat)] /\
        forall ek es eh,
          Realtime.energy kick = Num ek -> Realtime.energy snare = Num es ->
          Realtime.energy hihat = Num eh ->
          exists m, Realtime.energy drums = Num m /\
                    (ek <= m /\ es <= m /\ eh <= m /\ (m == ek \/ m == es \/ m == eh))%Q) /\
  exists tick this' kick snare hihat drums,
    Realtime.getInstrumentEnergy dataArray this = Some (tick, this') /\
    tick !! "kick" = Some kick /\ tick !! "snare" = Some snare /\
    tick !! "hihat" = Some hihat /\ tick !! "drums" = Some drums /\
    Realtime.components drums = Some [("kick", kick); ("snare", snare); ("hihat", hihat)].
Proof.
  intros Hnone Hall Hinit. split; [|split].
  - split.
    + intros Hsome.
      destruct (decide (is_Some (result !! "kick") /\ is_Some (result !! "snare")
                        /\ is_Some (result !! "hihat"))) as [Hyes|Hno]; [exact Hyes|].
      exfalso. unfold Realtime.processOverlaps in Hsome.
      rewrite group_drums_missing in Hsome.
      * rewrite suppress_guitar_other, Hnone in Hsome by discriminate.
        destruct Hsome as [? [=]].
      * now rewrite !suppress_guitar_other by discriminate.
    + intros ([kick Hk] & [snare Hs] & [hihat Hh]).
      unfold Realtime.processOverlaps.
      erewrite group_drums_lookup; [eauto| | |];
        rewrite suppress_guitar_other by discriminate; eassumption.
  - intros kick snare hihat Hk Hs Hh.
    eexists. split.
    { unfold Realtime.processOverlaps.
      apply group_drums_lookup;
        rewrite suppress_guitar_other by discriminate; eassumption. }
    cbn [Realtime.energy Realtime.active Realtime.confidence Realtime.components].
    repeat (split; [reflexivity|]).
    intros ek es eh -> -> ->. eexists. split; [reflexivity|]. apply Qmax3_spec.
  - destruct (getInstrumentEnergy_ok dataArray this Hinit Hall)
      as (raw & this' & Hrun & _ & _ & Hbands).
    destruct (Hbands "kick" _ (or_intror (or_intror (or_intror (or_introl eq_refl)))))
      as (hk & _ & Hk & _).
    destruct (Hbands "snare" _
                (or_intror (or_intror (or_intror (or_intror (or_introl eq_refl))))))
      as (hs & _ & Hs & _).
    destruct (Hbands "hihat" _
                (or_intror (or_intror (or_intror (or_intror (or_intror
                   (or_introl eq_refl)))))))
      as (hh & _ & Hh & _).
    eexists (Realtime.processOverlaps raw), this', _, _, _, _.
    split; [exact Hrun|].
    rewrite !processOverlaps_other by discriminate.
    split; [exact Hk|]. split; [exact Hs|]. split; [exact Hh|].
    split.
    + unfold Realtime.processOverlaps.
      apply group_drums_lookup;
        rewrite suppress_guitar_other by discriminate; eassumption.
    + reflexivity.
Qed.

Lemma drums_emitted_iff_all_parts_witness :
  (is_Some (Realtime.processOverlaps Examples.three_parts !! "drums") <->
   is_Some (Examples.three_parts !! "kick") /\ is_Some (Examples.three_parts !! "snare")
   /\ is_Some (Examples.three_parts !! "hihat")) /\
  (forall kick snare hihat,
      Examples.three_parts !! "kick" = Some kick ->
      Examples.three_parts !! "snare" = Some snare ->
      Examples.three_parts !! "hihat" = Some hihat ->
      exists drums,
        Realtime.processOverlaps Examples.three_parts !! "drums" = Some drums /\
        Realtime.energy drums
          = Math_max3 (Realtime.energy kick) (Realtime.energy snare)
                      (Realtime.energy hihat) /\
        Realtime.active drums
          = Realtime.active kick || Realtime.active snare || Realtime.active hihat /\
        Realtime.confidence drums
          = Math_max3 (Realtime.confidence kick) (Realtime.confidence snare)
                      (Realtime.confidence hihat) /\
        Realtime.components drums
          = Some [("kick", kick); ("snare", snare); ("hihat", hihat)] /\
        forall ek es eh,
          Realtime.energy kick = Num ek -> Realtime.energy snare = Num es ->
          Realtime.energy hihat = Num eh ->
          exists m, Realtime.energy drums = Num m /\
                    (ek <= m /\ es <= m /\ eh <= m /\ (m == ek \/ m == es \/ m == eh))%Q) /\
  exists tick this' kick snare hihat drums,
    Realtime.getInstrumentEnergy Examples.frame_low_mid Examples.fresh
      = Some (tick, this') /\
    tick !! "kick" = Some kick /\ tick !! "snare" = Some snare /\
    tick !! "hihat" = Some hihat /\ tick !! "drums" = Some drums /\
    Realtime.components drums = Some [("kick", kick); ("snare", snare); ("hihat", hihat)].
Proof.
  apply (drums_emitted_iff_all_parts Examples.three_parts Examples.frame_low_mid
           Examples.fresh).
  - vm_compute. reflexivity.
  - intros name Hin. simpl in Hin.
    repeat (destruct Hin as [<-|Hin]; [vm_compute; eauto|]). destruct Hin.
  - reflexivity.
Defined.

Section Suppression.
Import Realtime.

Lemma gt_Num_true (x y : Q) : gt (Num x) (Num y) = true <-> (y < x)%Q.
Proof.
  unfold gt. rewrite negb_true_iff, <- not_true_iff_false, Qle_bool_iff.
  split; [apply Qnot_le_lt|apply Qlt_not_le].
Qed.

Lemma gt_Num_false (x y : Q) : gt (Num x) (Num y) = false <-> (x <= y)%Q.
Proof. unfold gt. now rewrite negb_false_iff, Qle_bool_iff. Qed.
End Suppression.




(** A tick in which the bass (energy 0.8) is more than 1.2 times the guitar
    (energy 0.6): the guitar leaves the tick with 0.7 times the confidence
    0.5 of a band with fewer than 5 samples. *)
Example tick_damps_guitar :
  exists result bass guitar,
    fst <$> Realtime.getInstrumentEnergy Examples.frame_bass_heavy Examples.fresh
      = Some result /\
    result !! "bass" = Some bass /\ result !! "guitar" = Some guitar /\
    is_num (Realtime.energy bass) 0.8 /\ is_num (Realtime.energy guitar) 0.6 /\
    is_num (Realtime.confidence bass) 0.5 /\
    is_num (Realtime.confidence guitar) (0.5 * 0.7).
Proof.
  eexists _, _, _. split; [vm_compute; reflexivity|].
  split; [vm_compute; reflexivity|]. split; [vm_compute; reflexivity|].
  repeat split; vm_compute; reflexivity.
Qed.

(** A tick before initialisation returns the empty mapping. *)
Example tick_before_initialisation :
  Realtime.getInstrumentEnergy Examples.frame_low_mid Examples.idle
  = Some (∅, Examples.idle).
Proof. reflexivity. Qed.

(** ** Frames whose length differs from the buffer length *)

(** C7 (amended). No frame is ever rejected.  Whatever the length of the
    array and the buffer length it is passed with, [processInstrumentData]
    on a band with a history returns a result and pushes that result's
    energy onto the band's history; a tick hands [processInstrumentData]
    the length of the very array it reads as the buffer length, so that a
    mismatch does not arise there, and every history receives its band's
    energy in every tick of an initialised object holding the seven
    histories.  The one tick that is skipped is a tick
    before initialisation: it returns the empty mapping and leaves the
    object, histories included, as it was. *)
Theorem no_frame_is_rejected (instrument : string) (dataArray : list byte)
    (bufferLength : Z) (range : Z * Z) (this : Realtime.AudioProcessor)
    (history : list number) (limit : number) :
  Realtime.detectionHistory this !! instrument = Some history ->
  Realtime.threshold_of instrument = Realtime.ret limit ->
  (exists r this',
     Realtime.processInstrumentData instrument dataArray bufferLength range this
       = Some (r, this') /\
     Realtime.energy r
       = Realtime.rawEnergy (Realtime.sampleRate this) dataArray bufferLength range /\
     Realtime.detectionHistory this' !! instrument
       = Some (Realtime.push_shift history (Realtime.energy r))) /\
  (Realtime.isInitialized this = false ->
   Realtime.getInstrumentEnergy dataArray this = Some (∅, this)) /\
  (Realtime.isInitialized this = true -> Realtime.has_histories this ->
   exists result this',
     Realtime.getInstrumentEnergy dataArray this = Some (result, this') /\
     forall name band, In (name, band) Realtime.configured_bands ->
       exists before,
         Realtime.detectionHistory this !! name = Some before /\
         Realtime.detectionHistory this' !! name
           = Some (Realtime.push_shift before
                     (Realtime.rawEnergy (Realtime.sampleRate this) dataArray
                        (Z.of_nat (length dataArray)) (Realtime.freqRange band)))).
Proof.
  intros Hhist Hlimit. split; [|split].
  - eexists _, _. split.
    + apply processInstrumentData_ok; eassumption.
    + split; [reflexivity|]. apply pushed_lookup_eq.
  - intros Hinit. unfold Realtime.getInstrumentEnergy. now rewrite Hinit.
  - intros Hinit Hall.
    destruct (getInstrumentEnergy_ok dataArray this Hinit Hall)
      as (raw & this' & Hrun & _ & _ & Hbands).
    exists (Realtime.processOverlaps raw), this'. split; [exact Hrun|].
    intros name band Hin.
    destruct (Hbands name band Hin) as (before & Hbefore & _ & Hafter). eauto.
Qed.

Lemma no_frame_is_rejected_witness :
  (exists r this',
     Realtime.processInstrumentData "synth" Examples.short_frame 128
       (100, 8000)%Z Examples.fresh = Some (r, this') /\
     Realtime.energy r
       = Realtime.rawEnergy (Realtime.sampleRate Examples.fresh) Examples.short_frame
           128 (100, 8000)%Z /\
     Realtime.detectionHistory this' !! "synth"
       = Some (Realtime.push_shift [] (Realtime.energy r))) /\
  (Realtime.isInitialized Examples.fresh = false ->
   Realtime.getInstrumentEnergy Examples.short_frame Examples.fresh
   = Some (∅, Examples.fresh)) /\
  (Realtime.isInitialized Examples.fresh = true ->
   Realtime.has_histories Examples.fresh ->
   exists result this',
     Realtime.getInstrumentEnergy Examples.short_frame Examples.fresh
       = Some (result, this') /\
     forall name band, In (name, band) Realtime.configured_bands ->
       exists before,
         Realtime.detectionHistory Examples.fresh !! name = Some before /\
         Realtime.detectionHistory this' !! name
           = Some (Realtime.push_shift before
                     (Realtime.rawEnergy (Realtime.sampleRate Examples.fresh)
                        Examples.short_frame
                        (Z.of_nat (length Examples.short_frame))
                        (Realtime.freqRange band)))).
Proof.
  apply (no_frame_is_rejected "synth" Examples.short_frame 128 (100, 8000)%Z
           Examples.fresh [] (Num 0.45)).
  - vm_compute. reflexivity.
  - reflexivity.
Defined.

(** C7, as stated, fails.  An array of 16 elements handed to
    [processInstrumentData] with a buffer length of 128 is not rejected: the
    call returns a result, whose energy is [NaN] because the loop read past
    the end of the array, and the history of the band, empty before, holds
    that energy afterwards. *)
Lemma short_frame_is_processed :
  Z.of_nat (length Examples.short_frame) <> 128%Z /\
  Realtime.detectionHistory Examples.fresh !! "synth" = Some [] /\
  exists r this',
    Realtime.processInstrumentData "synth" Examples.short_frame 128 (100, 8000)%Z
      Examples.fresh = Some (r, this') /\
    Realtime.energy r = NaN /\
    Realtime.active r = false /\
    Realtime.detectionHistory this' !! "synth" = Some [NaN].
Proof.
  split; [vm_compute; discriminate|].
  split; [vm_compute; reflexivity|].
  eexists _, _. split; [vm_compute; reflexivity|].
  repeat split; vm_compute; reflexivity.
Qed.

(** ** Energy of a band *)

Section BandEnergy.
Import Realtime.

Lemma to_index_div (freq : Z) (rate : positive) (bufferLength : Z) :
  to_index freq rate bufferLength = (2 * freq * bufferLength / Z.pos rate)%Z.
Proof.
  unfold to_index, Qfloor, Qdiv, Qmult, Qinv, inject_Z. simpl.
  rewrite !Pos.mul_1_r. f_equal. lia.
Qed.

Lemma to_index_nonneg (freq : Z) (rate : positive) (bufferLength : Z) :
  (0 <= freq)%Z -> (0 <= bufferLength)%Z -> (0 <= to_index freq rate bufferLength)%Z.
Proof.
  intros Hf Hb. rewrite to_index_div. apply Z.div_pos; lia.
Qed.

Lemma magnitude_bounds (b : byte) : (0 <= magnitude b <= 255)%Z.
Proof. unfold magnitude. destruct b; vm_compute; split; discriminate. Qed.

Lemma sum_magnitudes_bounds (bins : list byte) :
  (0 <= sum_magnitudes bins <= 255 * Z.of_nat (length bins))%Z.
Proof.
  induction bins as [|b bins IH]; simpl; [lia|].
  pose proof (magnitude_bounds b). lia.
Qed.

Lemma bins_between_empty (dataArray : list byte) (lo hi : Z) :
  (hi <= lo)%Z -> bins_between dataArray lo hi = [].
Proof.
  intros H. unfold bins_between. replace (Z.to_nat (hi - lo)) with 0%nat by lia.
  reflexivity.
Qed.

Lemma bins_between_step (dataArray : list byte) (lo hi : Z) (b : byte) :
  (0 <= lo < hi)%Z -> dataArray !! Z.to_nat lo = Some b ->
  bins_between dataArray lo hi = b :: bins_between dataArray (lo + 1) hi.
Proof.
  intros Hlo Hb. unfold bins_between.
  replace (Z.to_nat (hi - lo)) with (S (Z.to_nat (hi - (lo + 1)))) by lia.
  rewrite (drop_S _ _ _ Hb). simpl.
  replace (Z.to_nat (lo + 1)) with (S (Z.to_nat lo)) by lia. reflexivity.
Qed.

Lemma bins_between_length (dataArray : list byte) (lo hi : Z) :
  (0 <= lo)%Z -> (hi <= Z.of_nat (length dataArray))%Z ->
  length (bins_between dataArray lo hi) = Z.to_nat (hi - lo).
Proof.
  intros Hlo Hhi. unfold bins_between. rewrite length_take, length_drop. lia.
Qed.

(** The loop adds the magnitudes of the bins from [i] up to the smaller
    of [highIndex] and [bufferLength], counts them, and stops by its guard. *)
Lemma energy_loop_sum (fuel : nat) (dataArray : list byte) (highIndex bufferLength : Z) :
  (bufferLength <= Z.of_nat (length dataArray))%Z ->
  forall (i : Z) (t : Q) (count : Z),
    (0 <= i)%Z -> (Z.min highIndex bufferLength - i <= Z.of_nat fuel)%Z ->
    exists t',
      energy_loop fuel dataArray highIndex bufferLength i (Num t) count
      = (Num t', (count + Z.max 0 (Z.min highIndex bufferLength - i))%Z) /\
      t' == t + inject_Z (sum_magnitudes
                            (bins_between dataArray i (Z.min highIndex bufferLength))).
Proof.
  intros Hbuf. induction fuel as [|fuel IH]; intros i t count Hi Hfuel.
  - exists t. simpl. rewrite bins_between_empty by lia. simpl.
    split; [f_equal; lia|ring].
  - simpl energy_loop.
    destruct (Z.ltb_spec i highIndex) as [Hhigh|Hhigh];
      destruct (Z.ltb_spec i bufferLength) as [Hlen|Hlen]; cbn [andb].
    2-4: exists t; rewrite bins_between_empty by lia; simpl;
         split; [f_equal; lia|ring].
    destruct (lookup_lt_is_Some_2 dataArray (Z.to_nat i)) as [b Hb]; [lia|].
    unfold read. destruct (Z.ltb_spec i 0) as [Hneg|_]; [lia|]. rewrite Hb.
    cbn [of_byte add].
    destruct (IH (i + 1)%Z (t + inject_Z (Z.of_N (Byte.to_N b)))%Q (count + 1)%Z)
      as (t' & Hrun & Ht'); [lia|lia|].
    exists t'. rewrite Hrun. split; [f_equal; lia|].
    rewrite Ht', (bins_between_step dataArray i _ b) by (auto; lia).
    simpl sum_magnitudes. fold (magnitude b). rewrite inject_Z_plus. ring.
Qed.

(** More fuel than [bufferLength - lowIndex] changes nothing: the loop has
    left by its guard. *)
Lemma energy_loop_fuel (extra fuel : nat) (dataArray : list byte)
    (highIndex bufferLength i : Z) (total : number) (count : Z) :
  (bufferLength - i <= Z.of_nat fuel)%Z ->
  energy_loop (fuel + extra) dataArray highIndex bufferLength i total count
  = energy_loop fuel dataArray highIndex bufferLength i total count.
Proof.
  revert i total count. induction fuel as [|fuel IH]; intros i total count Hfuel.
  - destruct extra as [|extra]; [reflexivity|]. simpl.
    destruct (Z.ltb_spec i bufferLength); [lia|]. now rewrite andb_false_r.
  - simpl. destruct ((i <? highIndex)%Z && (i <? bufferLength)%Z); [|reflexivity].
    apply IH. lia.
Qed.
End BandEnergy.

Section BandEnergyBounds.
Import Realtime.

Lemma Qeq_bool_inject_Z_pos (count : Z) :
  (0 < count)%Z -> Qeq_bool (inject_Z count) 0 = false.
Proof.
  intros Hpos. unfold Qeq_bool, inject_Z. simpl.
  apply Z.eqb_neq. lia.
Qed.

Lemma scaled_average_bounds (total count : Z) :
  (0 < count)%Z -> (0 <= total <= 255 * count)%Z ->
  (0 <= inject_Z total / inject_Z count / 255 <= 1)%Q.
Proof.
  intros Hcount [Hlow Hhigh].
  assert (Hc : (0 < inject_Z count)%Q) by (rewrite (Zlt_Qlt 0 count) in Hcount; exact Hcount).
  assert (Ht : (0 <= inject_Z total)%Q) by (rewrite (Zle_Qle 0 total) in Hlow; exact Hlow).
  assert (Hb : (inject_Z total <= 255 * inject_Z count)%Q).
  { rewrite Zle_Qle, inject_Z_mult in Hhigh. exact Hhigh. }
  split.
  - apply Qle_shift_div_l; [reflexivity|].
    apply Qle_shift_div_l; [exact Hc|]. lra.
  - apply Qle_shift_div_r; [reflexivity|].
    apply Qle_shift_div_r; [exact Hc|]. lra.
Qed.

End BandEnergyBounds.



(** ** Confidence *)

Section Confidence.
Import Realtime.




Lemma getDetectionConfidence_Some (instrument : string) (this : AudioProcessor)
    (history : list number) :
  detectionHistory this !! instrument = Some history ->
  getDetectionConfidence instrument this
  = Some (confidence_from instrument history, this).
Proof.
  intros H. unfold getDetectionConfidence, bind, history_of, ret. now rewrite H.
Qed.



End Confidence.




Section Sustained.
Import Realtime.
Local Open Scope Q_scope.

Lemma fold_left_Qplus (qs : list Q) (a : Q) : fold_left Qplus qs a == a + Qsum qs.
Proof.
  revert a. induction qs as [|q qs IH]; intros a; simpl.
  - ring.
  - rewrite IH. unfold Qsum. ring.
Qed.

Lemma reduce_add_Num (qs : list Q) (a : Q) :
  reduce (fun sum val => add sum val) (Num a) (map Num qs) = Num (fold_left Qplus qs a).
Proof.
  unfold reduce. revert a. induction qs as [|q qs IH]; intros a; simpl; [reflexivity|].
  apply IH.
Qed.

Lemma length_positive_Qeq_bool {A : Type} (l : list A) :
  (0 < length l)%nat -> Qeq_bool (inject_Z (Z.of_nat (length l))) 0 = false.
Proof. intros H. apply Qeq_bool_inject_Z_pos. lia. Qed.

Lemma mean_of_Num (qs : list Q) :
  (0 < length qs)%nat ->
  exists m, mean_of (map Num qs) = Num m /\ m == Qmean qs.
Proof.
  intros Hlen. unfold mean_of. rewrite reduce_add_Num, length_map.
  unfold of_nat, div. rewrite length_positive_Qeq_bool by assumption.
  eexists. split; [reflexivity|].
  unfold Qmean. rewrite fold_left_Qplus. apply Qdiv_comp; [ring|reflexivity].
Qed.

Lemma reduce_squares_Num (qs : list Q) (m a : Q) :
  reduce (fun sum val => add sum (Math_pow (sub val (Num m)) 2)) (Num a) (map Num qs)
  = Num (fold_left (fun s q => s + Qpower_positive (q - m) 2) qs a).
Proof.
  unfold reduce. revert a. induction qs as [|q qs IH]; intros a; simpl; [reflexivity|].
  apply IH.
Qed.

Lemma fold_left_squares (qs : list Q) (m m' a : Q) :
  m == m' ->
  fold_left (fun s q => s + Qpower_positive (q - m) 2) qs a
  == a + Qsum (map (fun q : Q => ((q - m') ^ 2)%Q) qs).
Proof.
  intros Hm. revert a. induction qs as [|q qs IH]; intros a; simpl.
  - ring.
  - rewrite IH. unfold Qsum. simpl. rewrite Hm. ring.
Qed.

Lemma variance_of_Num (qs : list Q) (m : Q) :
  (0 < length qs)%nat -> m == Qmean qs ->
  exists var, variance_of (map Num qs) (Num m) = Num var /\ var == Qvariance qs.
Proof.
  intros Hlen Hm. unfold variance_of. rewrite reduce_squares_Num, length_map.
  unfold of_nat, div. rewrite length_positive_Qeq_bool by assumption.
  eexists. split; [reflexivity|].
  unfold Qvariance. rewrite (fold_left_squares qs m (Qmean qs) 0 Hm).
  apply Qdiv_comp; [ring|reflexivity].
Qed.

Lemma Qsquare_nonneg (x : Q) : 0 <= x * x.
Proof.
  destruct (Qlt_le_dec x 0) as [Hneg|Hpos].
  - assert (H : x * x == (- x) * (- x)) by ring.
    rewrite H. apply Qmult_le_0_compat; lra.
  - now apply Qmult_le_0_compat.
Qed.

Lemma Qsum_squares_nonneg (qs : list Q) (m : Q) :
  0 <= Qsum (map (fun q : Q => ((q - m) ^ 2)%Q) qs).
Proof.
  unfold Qsum. induction qs as [|q qs IH]; simpl in *; [lra|].
  pose proof (Qsquare_nonneg (q - m)). lra.
Qed.

Lemma Qvariance_nonneg (qs : list Q) : (0 < length qs)%nat -> 0 <= Qvariance qs.
Proof.
  intros Hlen. unfold Qvariance. apply Qle_shift_div_l.
  - change 0 with (inject_Z 0). rewrite <- Zlt_Qlt. lia.
  - rewrite Qmult_0_l. apply Qsum_squares_nonneg.
Qed.

Lemma Qvariance_constant (v : Q) : Qvariance (replicate 5 v) == 0.
Proof. unfold Qvariance, Qmean, Qsum. simpl. field. Qed.

(** The clamp [Math.min(0.9, Math.max(0.3, 0.7 - variance * 5))] for a
    variance that is not negative: the upper bound 0.9 is never reached. *)
Lemma clamp_of_variance (var : Q) :
  0 <= var ->
  0.3 <= Qmin 0.9 (Qmax 0.3 (0.7 - var * 5)) <= 0.7 /\
  (var == 0 -> Qmin 0.9 (Qmax 0.3 (0.7 - var * 5)) == 0.7) /\
  (0.08 <= var -> Qmin 0.9 (Qmax 0.3 (0.7 - var * 5)) == 0.3).
Proof.
  intros Hvar.
  destruct (Q.max_spec 0.3 (0.7 - var * 5)) as [[Hlt Hmax]|[Hle Hmax]];
    destruct (Q.min_spec 0.9 (Qmax 0.3 (0.7 - var * 5))) as [[Hlt' Hmin]|[Hle' Hmin]];
    rewrite Hmin; rewrite ?Hmax in *; repeat split; intros; lra.
Qed.

Lemma confidence_from_sustained (instrument : string) (history : list number) :
  includes percussion instrument = false -> (5 <= length history)%nat ->
  confidence_from instrument history
  = let recentValues := slice_last 5 history in
    Math_min (Num 0.9)
      (Math_max (Num 0.3)
         (sub (Num 0.7)
            (mul (variance_of recentValues (mean_of recentValues)) (Num 5)))).
Proof.
  intros Hinc Hlen. unfold confidence_from.
  destruct (Nat.ltb_spec (length history) 5); [lia|]. now rewrite Hinc.
Qed.
End Sustained.

(** C3 (amended). For a sustained band whose history has at least 5
    samples, all of them numbers, the confidence is
    [min(0.9, max(0.3, 0.7 - 5 * variance))] of the last 5 samples and lies
    between 0.3 and 0.7: a constant recent history (variance 0) yields
    exactly 0.7, the largest confidence the formula can give, and a recent
    history of variance at least 0.08 yields exactly 0.3. *)
Theorem sustained_confidence_between_03_and_07 (instrument : string)
    (history : list number) (qs : list Q) (this : Realtime.AudioProcessor) :
  includes Realtime.percussion instrument = false ->
  Realtime.detectionHistory this !! instrument = Some history ->
  (5 <= length history)%nat ->
  slice_last 5 history = map Num qs ->
  exists c,
    Realtime.getDetectionConfidence instrument this = Some (Num c, this) /\
    (c == Qmin 0.9 (Qmax 0.3 (0.7 - Realtime.Qvariance qs * 5)))%Q /\
    (0.3 <= c <= 0.7)%Q /\
    (Realtime.Qvariance qs == 0 -> c == 0.7)%Q /\
    (0.08 <= Realtime.Qvariance qs -> c == 0.3)%Q /\
    (forall v, qs = replicate 5 v -> Realtime.Qvariance qs == 0 /\ c == 0.7)%Q.
Proof.
  intros Hinc Hhist Hlen Hrecent.
  assert (Hqs : length qs = 5%nat).
  { rewrite <- (length_map Num), <- Hrecent, slice_last_length. lia. }
  rewrite (getDetectionConfidence_Some _ _ _ Hhist).
  rewrite confidence_from_sustained by assumption. cbv zeta. rewrite Hrecent.
  destruct (mean_of_Num qs) as (m & -> & Hm); [lia|].
  destruct (variance_of_Num qs m) as (var & -> & Hvar); [lia|exact Hm|].
  cbn [mul sub Math_max Math_min].
  pose proof (Qvariance_nonneg qs) as Hnonneg.
  destruct (clamp_of_variance (Realtime.Qvariance qs)) as (Hbounds & Hzero & Hhigh);
    [apply Hnonneg; lia|].
  eexists. split; [reflexivity|].
  assert (Hc : (Qmin 0.9 (Qmax 0.3 (0.7 - var * 5))
                == Qmin 0.9 (Qmax 0.3 (0.7 - Realtime.Qvariance qs * 5)))%Q).
  { now rewrite Hvar. }
  split; [exact Hc|]. rewrite Hc.
  split; [exact Hbounds|]. split; [exact Hzero|]. split; [exact Hhigh|].
  intros v ->. split; [apply Qvariance_constant|].
  rewrite Hc. apply Hzero, Qvariance_constant.
Qed.

Lemma sustained_confidence_between_03_and_07_witness :
  let this := Examples.with_history "vocals" Examples.swinging in
  let qs := [0; 1; 0; 1; 0]%Q in
  exists c,
    Realtime.getDetectionConfidence "vocals" this = Some (Num c, this) /\
    (c == Qmin 0.9 (Qmax 0.3 (0.7 - Realtime.Qvariance qs * 5)))%Q /\
    (0.3 <= c <= 0.7)%Q /\
    (Realtime.Qvariance qs == 0 -> c == 0.7)%Q /\
    (0.08 <= Realtime.Qvariance qs -> c == 0.3)%Q /\
    (forall v, qs = replicate 5 v -> Realtime.Qvariance qs == 0 /\ c == 0.7)%Q.
Proof.
  intros this qs.
  apply (sustained_confidence_between_03_and_07 "vocals" Examples.swinging qs this).
  - reflexivity.
  - vm_compute. reflexivity.
  - simpl. lia.
  - reflexivity.
Defined.

(** C3, as stated, fails for a constant history: five samples at 0.5 in
    the history of the vocals have variance 0, and the confidence is 0.7,
    not 0.9. *)
Lemma constant_history_gives_07 :
  (Realtime.Qvariance (replicate 5 0.5) == 0)%Q /\
  exists c,
    fst <$> Realtime.getDetectionConfidence "vocals"
              (Examples.with_history "vocals" Examples.steady)
    = Some (Num c) /\
    (c == 0.7)%Q /\ ~ (c == 0.9)%Q.
Proof.
  split; [vm_compute; reflexivity|].
  eexists. split; [vm_compute; reflexivity|].
  split; [vm_compute; reflexivity|vm_compute; discriminate].
Qed.

(** ** The rule layer *)

Section Rules.
Import Batch.

(** With the six bands present [detectInstruments] returns, and each flag
    other than [piano] is its rule applied to the energies. *)
Lemma detectInstruments_present (frequencyBands : gmap string BandAnalysis)
    (stems : option (gmap string string))
    (sub_e bass_e low_e mids_e high_e highs_e : number) :
  energy_of frequencyBands "sub_bass" = Some sub_e ->
  energy_of frequencyBands "bass" = Some bass_e ->
  energy_of frequencyBands "low_mids" = Some low_e ->
  energy_of frequencyBands "mids" = Some mids_e ->
  energy_of frequencyBands "high_mids" = Some high_e ->
  energy_of frequencyBands "highs" = Some highs_e ->
  exists d,
    detectInstruments frequencyBands stems = Some d /\
    bass d = flag_if (gt bass_e (Num 0.6)) bass_e /\
    drums d = flag_if (gt sub_e (Num 0.6) || gt highs_e (Num 0.7))
                (Math_max sub_e highs_e) /\
    vocals d = flag_if (gt mids_e (Num 0.7)) mids_e /\
    guitar d = flag_if (gt low_e (Num 0.6) && gt mids_e (Num 0.5))
                 (div (add low_e mids_e) (Num 2)) /\
    synth d = flag_if (gt high_e (Num 0.7) && gt highs_e (Num 0.6))
                (div (add high_e highs_e) (Num 2)).
Proof.
  intros Hsub Hbass Hlow Hmids Hhigh Hhighs.
  unfold detectInstruments. rewrite Hbass, Hsub. cbn [mbind option_bind].
  unfold flag_if.
  destruct (gt bass_e (Num 0.6)), (gt sub_e (Num 0.6));
    rewrite ?Hhighs; cbn [mbind option_bind orb];
    destruct (gt highs_e (Num 0.7)); rewrite ?Hhighs, Hmids, Hlow, Hhigh;
    cbn [mbind option_bind];
    destruct (gt high_e (Num 0.7)); rewrite ?Hhighs; cbn [mbind option_bind andb];
    destruct (gt highs_e (Num 0.6)); rewrite ?Hhighs; cbn [mbind option_bind];
    eexists; (split; [reflexivity|]); cbn; repeat split; reflexivity.
Qed.
End Rules.

(** C9. When the six bands are present, [detectInstruments] returns a
    detection in which bass is flagged iff the bass energy is above 0.6,
    with that energy as confidence; drums iff the sub-bass energy is above
    0.6 or the highs energy above 0.7, with the maximum of the two energies;
    vocals iff the mids energy is above 0.7, with that energy; guitar iff
    the low-mids energy is above 0.6 and the mids energy above 0.5, with
    their average; synth iff the high-mids energy is above 0.7 and the highs
    energy above 0.6, with their average; a flag that is not raised has
    confidence 0.  For the energies 0.65, 0.3, 0.2, 0.75, 0.2, 0.2 this is
    drums with confidence 0.65, vocals with confidence 0.75 and no other
    flag. *)
Theorem detectInstruments_rules (frequencyBands : gmap string Batch.BandAnalysis)
    (stems : option (gmap string string))
    (sub_bass bass low_mids mids high_mids highs : number) :
  Batch.energy_of frequencyBands "sub_bass" = Some sub_bass ->
  Batch.energy_of frequencyBands "bass" = Some bass ->
  Batch.energy_of frequencyBands "low_mids" = Some low_mids ->
  Batch.energy_of frequencyBands "mids" = Some mids ->
  Batch.energy_of frequencyBands "high_mids" = Some high_mids ->
  Batch.energy_of frequencyBands "highs" = Some highs ->
  (exists d,
     Batch.detectInstruments frequencyBands stems = Some d /\
     Batch.bass d = Batch.flag_if (gt bass (Num 0.6)) bass /\
     Batch.drums d = Batch.flag_if (gt sub_bass (Num 0.6) || gt highs (Num 0.7))
                       (Math_max sub_bass highs) /\
     Batch.vocals d = Batch.flag_if (gt mids (Num 0.7)) mids /\
     Batch.guitar d = Batch.flag_if (gt low_mids (Num 0.6) && gt mids (Num 0.5))
                        (div (add low_mids mids) (Num 2)) /\
     Batch.synth d = Batch.flag_if (gt high_mids (Num 0.7) && gt highs (Num 0.6))
                       (div (add high_mids highs) (Num 2))) /\
  (forall x y : Q, div (add (Num x) (Num y)) (Num 2) = Num ((x + y) / 2)) /\
  Batch.detectInstruments
    (Batch.six_bands (Num 0.65) (Num 0.3) (Num 0.2) (Num 0.75) (Num 0.2) (Num 0.2)) stems
  = Some {| Batch.vocals := Batch.mkFlag true (Num 0.75);
            Batch.guitar := Batch.mkFlag false (Num 0);
            Batch.bass := Batch.mkFlag false (Num 0);
            Batch.drums := Batch.mkFlag true (Num 0.65);
            Batch.synth := Batch.mkFlag false (Num 0);
            Batch.piano := Batch.mkFlag false (Num 0) |}.
Proof.
  intros Hsub Hbass Hlow Hmids Hhigh Hhighs. split; [|split].
  - now apply detectInstruments_present.
  - reflexivity.
  - vm_compute. reflexivity.
Qed.

Lemma detectInstruments_rules_witness :
  let frequencyBands :=
    Batch.six_bands (Num 0.65) (Num 0.3) (Num 0.2) (Num 0.75) (Num 0.2) (Num 0.2) in
  (exists d,
     Batch.detectInstruments frequencyBands None = Some d /\
     Batch.bass d = Batch.flag_if (gt (Num 0.3) (Num 0.6)) (Num 0.3) /\
     Batch.drums d = Batch.flag_if (gt (Num 0.65) (Num 0.6) || gt (Num 0.2) (Num 0.7))
                       (Math_max (Num 0.65) (Num 0.2)) /\
     Batch.vocals d = Batch.flag_if (gt (Num 0.75) (Num 0.7)) (Num 0.75) /\
     Batch.guitar d = Batch.flag_if (gt (Num 0.2) (Num 0.6) && gt (Num 0.75) (Num 0.5))
                        (div (add (Num 0.2) (Num 0.75)) (Num 2)) /\
     Batch.synth d = Batch.flag_if (gt (Num 0.2) (Num 0.7) && gt (Num 0.2) (Num 0.6))
                       (div (add (Num 0.2) (Num 0.2)) (Num 2))) /\
  (forall x y : Q, div (add (Num x) (Num y)) (Num 2) = Num ((x + y) / 2)) /\
  Batch.detectInstruments
    (Batch.six_bands (Num 0.65) (Num 0.3) (Num 0.2) (Num 0.75) (Num 0.2) (Num 0.2)) None
  = Some {| Batch.vocals := Batch.mkFlag true (Num 0.75);
            Batch.guitar := Batch.mkFlag false (Num 0);
            Batch.bass := Batch.mkFlag false (Num 0);
            Batch.drums := Batch.mkFlag true (Num 0.65);
            Batch.synth := Batch.mkFlag false (Num 0);
            Batch.piano := Batch.mkFlag false (Num 0) |}.
Proof.
  intros frequencyBands.
  apply (detectInstruments_rules frequencyBands None
           (Num 0.65) (Num 0.3) (Num 0.2) (Num 0.75) (Num 0.2) (Num 0.2));
    vm_compute; reflexivity.
Defined.

Section Piano.
Import Batch.

Lemma energy_of_is_Some (frequencyBands : gmap string BandAnalysis) (name : string) :
  is_Some (frequencyBands !! name) -> is_Some (energy_of frequencyBands name).
Proof. intros [band Hband]. unfold energy_of. rewrite Hband. simpl. eauto. Qed.

Lemma detectInstruments_piano (frequencyBands : gmap string BandAnalysis)
    (stems : option (gmap string string)) (d : Detection) :
  detectInstruments frequencyBands stems = Some d ->
  piano d = mkFlag false (Num 0).
Proof.
  unfold detectInstruments. intros Hrun.
  repeat match type of Hrun with
         | context [mbind _ ?m] =>
             match m with
             | context [mbind] => fail 1
             | _ => destruct m eqn:?; cbn [mbind option_bind option_ret] in Hrun
             end
         | context [if ?b then _ else _] => destruct b
         | None = Some _ => discriminate Hrun
         | Some _ = Some _ => injection Hrun as <-
         end; try discriminate; reflexivity.
Qed.
End Piano.

(** C10. Whatever the bands and stems, a detection that [detectInstruments]
    returns holds a [piano] flag that is not raised and has confidence 0;
    and it does return a detection as soon as the six bands are present. *)
Theorem piano_is_never_detected (frequencyBands : gmap string Batch.BandAnalysis)
    (stems : option (gmap string string)) :
  (forall d, Batch.detectInstruments frequencyBands stems = Some d ->
     Batch.piano d = Batch.mkFlag false (Num 0)) /\
  ((forall name,
       In name ["sub_bass"; "bass"; "low_mids"; "mids"; "high_mids"; "highs"] ->
       is_Some (frequencyBands !! name)) ->
   exists d, Batch.detectInstruments frequencyBands stems = Some d /\
             Batch.detected (Batch.piano d) = false /\
             Batch.confidence (Batch.piano d) = Num 0).
Proof.
  split; [apply detectInstruments_piano|].
  intros Hall.
  destruct (energy_of_is_Some frequencyBands "sub_bass") as [sub_bass Hsub];
    [apply Hall; simpl; tauto|].
  destruct (energy_of_is_Some frequencyBands "bass") as [bass Hbass];
    [apply Hall; simpl; tauto|].
  destruct (energy_of_is_Some frequencyBands "low_mids") as [low_mids Hlow];
    [apply Hall; simpl; tauto|].
  destruct (energy_of_is_Some frequencyBands "mids") as [mids Hmids];
    [apply Hall; simpl; tauto|].
  destruct (energy_of_is_Some frequencyBands "high_mids") as [high_mids Hhigh];
    [apply Hall; simpl; tauto|].
  destruct (energy_of_is_Some frequencyBands "highs") as [highs Hhighs];
    [apply Hall; simpl; tauto|].
  destruct (detectInstruments_present frequencyBands stems _ _ _ _ _ _
              Hsub Hbass Hlow Hmids Hhigh Hhighs) as (d & Hd & _).
  exists d. split; [exact Hd|].
  now rewrite (detectInstruments_piano _ _ _ Hd).
Qed.

Lemma piano_is_never_detected_witness :
  let frequencyBands :=
    Batch.six_bands (Num 0.65) (Num 0.3) (Num 0.2) (Num 0.75) (Num 0.2) (Num 0.2) in
  exists d, Batch.detectInstruments frequencyBands None = Some d /\
            Batch.detected (Batch.piano d) = false /\
            Batch.confidence (Batch.piano d) = Num 0.
Proof.
  intros frequencyBands.
  apply (proj2 (piano_is_never_detected frequencyBands None)).
  intros name Hin. simpl in Hin.
  repeat (destruct Hin as [<-|Hin]; [vm_compute; eauto|]). destruct Hin.
Defined.

(** * Further properties *)

(** ** A tick, band by band *)

Section Flattened.
Import Realtime Session.

Lemma threshold_of_cases (instrument : string) :
  (exists limit, threshold_of instrument = ret limit) \/ threshold_of instrument = throw.
Proof.
  unfold threshold_of.
  destruct (includes percussion instrument).
  - destruct (get instruments "drums") as [[band|parts]|]; auto.
    destruct (get parts instrument); eauto.
  - destruct (get instruments instrument) as [[band|parts]|]; eauto.
Qed.

(** A call of [processInstrumentData] that returns has found the history
    and the threshold of the band. *)
Lemma processInstrumentData_inv (instrument : string) (dataArray : list byte)
    (bufferLength : Z) (range : Z * Z) (this this' : AudioProcessor)
    (r : DetectionResult) :
  processInstrumentData instrument dataArray bufferLength range this = Some (r, this') ->
  exists history limit,
    detectionHistory this !! instrument = Some history /\
    threshold_of instrument = ret limit /\
    r = band_result (sampleRate this) instrument dataArray bufferLength range
          limit history /\
    this' = pushed this instrument
              (push_shift history
                 (rawEnergy (sampleRate this) dataArray bufferLength range)).
Proof.
  intros Hrun.
  destruct (detectionHistory this !! instrument) as [history|] eqn:Hhist.
  2:{ rewrite processInstrumentData_no_history in Hrun by assumption. discriminate. }
  destruct (threshold_of_cases instrument) as [[limit Hlimit]|Hthrow].
  - rewrite (processInstrumentData_ok _ _ _ _ _ _ _ Hhist Hlimit) in Hrun.
    injection Hrun as <- <-. eauto 10.
  - exfalso. unfold processInstrumentData in Hrun.
    rewrite (bind_Some _ _ _ _ _ (updateDetectionHistory_Some _ _ _ _ Hhist)) in Hrun.
    rewrite Hthrow in Hrun. discriminate.
Qed.

Lemma process_into_inv (dataArray : list byte) (bufferLength : Z)
    (result result' : gmap string DetectionResult) (name : string) (band : BandConfig)
    (this this' : AudioProcessor) :
  process_into dataArray bufferLength result name (Some band) this
    = Some (result', this') ->
  exists history limit,
    detectionHistory this !! name = Some history /\
    threshold_of name = ret limit /\
    result' = <[name := band_result (sampleRate this) name dataArray bufferLength
                          (freqRange band) limit history]> result /\
    this' = pushed this name
              (push_shift history
                 (rawEnergy (sampleRate this) dataArray bufferLength (freqRange band))).
Proof.
  unfold process_into, bind.
  destruct (processInstrumentData _ _ _ _ this) as [[r this1]|] eqn:Hrun; [|discriminate].
  unfold ret. intros [= <- <-].
  destruct (processInstrumentData_inv _ _ _ _ _ _ _ Hrun)
    as (history & limit & Hhist & Hlimit & -> & ->).
  eauto 10.
Qed.

Lemma bind_ext {A B : Type} (m : M A) (k k' : A -> M B) (this : AudioProcessor) :
  (forall a this', k a this' = k' a this') -> bind m k this = bind m k' this.
Proof. intros Hk. unfold bind. destruct (m this) as [[a this']|]; auto. Qed.

Lemma bind_bind {A B C : Type} (m : M A) (k : A -> M B) (k' : B -> M C)
    (this : AudioProcessor) :
  bind (bind m k) k' this = bind m (fun a => bind (k a) k') this.
Proof. unfold bind. destruct (m this) as [[a this']|]; reflexivity. Qed.

(** The nested loops are the sequence of the seven bands. *)
Lemma forEach_flat (dataArray : list byte) (bufferLength : Z)
    (result : gmap string DetectionResult) (this : AudioProcessor) :
  forEach (per_instrument dataArray bufferLength) (keys instruments) result this
  = process_bands dataArray bufferLength configured_bands result this.
Proof.
  change (keys instruments) with ["vocals"; "guitar"; "bass"; "drums"; "synth"].
  change configured_bands with
    [ ("vocals", mkBand (300, 3500)%Z 0.45); ("guitar", mkBand (300, 4000)%Z 0.5);
      ("bass", mkBand (60, 250)%Z 0.5); ("kick", mkBand (20, 100)%Z 0.6);
      ("snare", mkBand (120, 250)%Z 0.5); ("hihat", mkBand (800, 5000)%Z 0.4);
      ("synth", mkBand (100, 8000)%Z 0.45) ].
  cbn [process_bands].
  rewrite forEach_cons, (per_instrument_single _ _ _ "vocals" _ eq_refl eq_refl).
  apply bind_ext. intros r1 s1.
  rewrite forEach_cons, (per_instrument_single _ _ _ "guitar" _ eq_refl eq_refl).
  apply bind_ext. intros r2 s2.
  rewrite forEach_cons, (per_instrument_single _ _ _ "bass" _ eq_refl eq_refl).
  apply bind_ext. intros r3 s3.
  rewrite forEach_cons, per_instrument_drums.
  change (keys drums_parts) with ["kick"; "snare"; "hihat"].
  rewrite forEach_cons. unfold per_drum at 1.
  change (get drums_parts "kick") with (Some (mkBand (20, 100)%Z 0.6)).
  rewrite bind_bind. apply bind_ext. intros r4 s4.
  rewrite forEach_cons. unfold per_drum at 1.
  change (get drums_parts "snare") with (Some (mkBand (120, 250)%Z 0.5)).
  rewrite bind_bind. apply bind_ext. intros r5 s5.
  rewrite forEach_cons. unfold per_drum at 1.
  change (get drums_parts "hihat") with (Some (mkBand (800, 5000)%Z 0.4)).
  rewrite bind_bind. apply bind_ext. intros r6 s6.
  cbn [forEach].
  change (bind (ret r6) ?k s6) with (k r6 s6). cbv beta.
  rewrite (per_instrument_single _ _ _ "synth" _ eq_refl eq_refl).
  reflexivity.
Qed.

(** What a run over some bands leaves: the flags of the object, the
    histories of the bands it did not visit, and a history for each band it
    did visit, before and after. *)
Lemma process_bands_inv (dataArray : list byte) (bufferLength : Z)
    (bands : list (string * BandConfig)) :
  forall (result result' : gmap string DetectionResult) (this this' : AudioProcessor),
    process_bands dataArray bufferLength bands result this = Some (result', this') ->
    isInitialized this' = isInitialized this /\
    sampleRate this' = sampleRate this /\
    (forall name, In name (keys bands) ->
       is_Some (detectionHistory this !! name) /\
       is_Some (detectionHistory this' !! name)) /\
    (forall name, ~ In name (keys bands) ->
       detectionHistory this' !! name = detectionHistory this !! name).
Proof.
  induction bands as [|[name band] rest IH]; intros result result' this this' Hrun.
  - injection Hrun as <- <-. repeat split; auto; try (intros ? []); contradiction.
  - cbn [process_bands] in Hrun. unfold bind in Hrun.
    destruct (process_into _ _ _ name _ this) as [[r1 s1]|] eqn:Hstep; [|discriminate].
    destruct (process_into_inv _ _ _ _ _ _ _ _ Hstep)
      as (history & limit & Hhist & _ & _ & ->).
    destruct (IH _ _ _ _ Hrun) as (Hinit & Hrate & Hvisited & Hrest).
    split; [exact Hinit|]. split; [exact Hrate|]. split.
    + intros other [Heq|Hin].
      * simpl in Heq. subst other. split; [rewrite Hhist; eauto|].
        destruct (in_dec String.string_dec name (keys rest)) as [Hagain|Hfirst].
        -- apply Hvisited, Hagain.
        -- rewrite (Hrest _ Hfirst), pushed_lookup_eq. eauto.
      * destruct (Hvisited other Hin) as [Hbefore Hafter]. split; [|exact Hafter].
        destruct (decide (name = other)) as [Heq|Hne];
          [subst other; rewrite Hhist; eauto|].
        now rewrite pushed_lookup_ne in Hbefore.
    + intros other Hnot. simpl in Hnot.
      rewrite Hrest by tauto. apply pushed_lookup_ne. tauto.
Qed.

Lemma getInstrumentEnergy_flat (dataArray : list byte) (this : AudioProcessor) :
  isInitialized this = true ->
  getInstrumentEnergy dataArray this
  = match process_bands dataArray (Z.of_nat (length dataArray)) configured_bands ∅ this with
    | Some (raw, this') => Some (processOverlaps raw, this')
    | None => None
    end.
Proof.
  intros Hinit. unfold getInstrumentEnergy. rewrite Hinit. cbn [negb].
  unfold bind. rewrite forEach_flat.
  destruct (process_bands _ _ _ _ this) as [[raw this']|]; reflexivity.
Qed.

(** A tick leaves the initialisation flag and the sample rate alone. *)
Lemma getInstrumentEnergy_flags (dataArray : list byte) (this this' : AudioProcessor)
    (result : gmap string DetectionResult) :
  getInstrumentEnergy dataArray this = Some (result, this') ->
  isInitialized this' = isInitialized this /\ sampleRate this' = sampleRate this /\
  (forall name, ~ In name (keys configured_bands) ->
     detectionHistory this' !! name = detectionHistory this !! name).
Proof.
  destruct (isInitialized this) eqn:Hinit.
  - rewrite getInstrumentEnergy_flat by assumption.
    destruct (process_bands _ _ _ _ this) as [[raw s]|] eqn:Hrun; [|discriminate].
    intros [= <- <-].
    destruct (process_bands_inv _ _ _ _ _ _ _ Hrun) as (Hi & Hr & _ & Hrest).
    rewrite Hi. auto.
  - unfold getInstrumentEnergy. rewrite Hinit. intros [= <- <-]. auto.
Qed.
End Flattened.

(** X1. A tick throws exactly when the object is initialised and some band
    has no history array: it returns a mapping if and only if the object is
    not initialised or holds a history for each of the seven bands. *)
Theorem tick_returns_iff_histories (dataArray : list byte)
    (this : Realtime.AudioProcessor) :
  is_Some (Realtime.getInstrumentEnergy dataArray this) <->
  Realtime.isInitialized this = false \/ Realtime.has_histories this.
Proof.
  split.
  - intros [[result this'] Hrun].
    destruct (Realtime.isInitialized this) eqn:Hinit; [right|now left].
    rewrite getInstrumentEnergy_flat in Hrun by assumption.
    destruct (Session.process_bands _ _ _ _ this) as [[raw s]|] eqn:Hbands;
      [|discriminate].
    destruct (process_bands_inv _ _ _ _ _ _ _ Hbands) as (_ & _ & Hvisited & _).
    intros name Hin. apply Hvisited, Hin.
  - intros [Hidle|Hall].
    + unfold Realtime.getInstrumentEnergy. rewrite Hidle. simpl. eauto.
    + destruct (Realtime.isInitialized this) eqn:Hinit.
      * destruct (getInstrumentEnergy_ok dataArray this Hinit Hall)
          as (raw & this' & Hrun & _). rewrite Hrun. eauto.
      * unfold Realtime.getInstrumentEnergy. rewrite Hinit. simpl. eauto.
Qed.

(** ** The whole mapping of a tick *)

Section TickResults.
Import Realtime Session.

Lemma configured_band_nonneg (name : string) (band : BandConfig) :
  In (name, band) configured_bands -> (0 <= (freqRange band).1)%Z.
Proof.
  intros Hin. simpl in Hin.
  repeat (destruct Hin as [[= <- <-]|Hin]; [simpl; lia|]). destruct Hin.
Qed.

Lemma configured_band_threshold (name : string) (band : BandConfig) :
  In (name, band) configured_bands -> (0 < threshold band)%Q.
Proof.
  intros Hin. simpl in Hin.
  repeat (destruct Hin as [[= <- <-]|Hin]; [reflexivity|]). destruct Hin.
Qed.

(** The guitar leaves [processOverlaps] with its confidence or with 0.7
    times its confidence, and otherwise as it came. *)
Lemma processOverlaps_guitar (result : gmap string DetectionResult)
    (guitar : DetectionResult) :
  result !! "guitar" = Some guitar ->
  exists c, (c = confidence guitar \/ c = mul (confidence guitar) (Num 0.7)) /\
            processOverlaps result !! "guitar" = Some (with_confidence guitar c).
Proof.
  intros Hg. unfold processOverlaps. rewrite group_drums_other by discriminate.
  unfold suppress_guitar. rewrite Hg.
  assert (Hsame : guitar = with_confidence guitar (confidence guitar))
    by now destruct guitar.
  destruct (result !! "bass") as [bass|];
    [|exists (confidence guitar); rewrite Hg, <- Hsame; auto].
  destruct (active bass && active guitar);
    [|exists (confidence guitar); rewrite Hg, <- Hsame; auto].
  destruct (gt _ _); [|exists (confidence guitar); rewrite Hg, <- Hsame; auto].
  eexists. split; [right; reflexivity|]. apply lookup_insert_eq.
Qed.

(** The mapping and the object a tick of an initialised object returns. *)
Lemma tick_characterised (dataArray : list byte) (this : AudioProcessor) :
  isInitialized this = true ->
  has_histories this ->
  exists result this',
    getInstrumentEnergy dataArray this = Some (result, this') /\
    isInitialized this' = true /\
    sampleRate this' = sampleRate this /\
    (forall name, ~ In name (keys configured_bands) ->
       detectionHistory this' !! name = detectionHistory this !! name) /\
    (forall name band, In (name, band) configured_bands ->
       exists history r,
         detectionHistory this !! name = Some history /\
         detectionHistory this' !! name
           = Some (push_shift history (band_energy (sampleRate this) band dataArray)) /\
         result !! name = Some r /\
         energy r = band_energy (sampleRate this) band dataArray /\
         active r = gt (energy r) (Num (threshold band)) /\
         components r = None /\
         (confidence r = confidence_from name (push_shift history (energy r)) \/
          name = "guitar" /\
          confidence r
          = mul (confidence_from name (push_shift history (energy r))) (Num 0.7))) /\
    (exists kick snare hihat,
       result !! "kick" = Some kick /\ result !! "snare" = Some snare /\
       result !! "hihat" = Some hihat /\
       result !! "drums"
       = Some {| energy := Math_max3 (energy kick) (energy snare) (energy hihat);
                 active := active kick || active snare || active hihat;
                 confidence :=
                   Math_max3 (confidence kick) (confidence snare) (confidence hihat);
                 components :=
                   Some [("kick", kick); ("snare", snare); ("hihat", hihat)] |}) /\
    (forall name, is_Some (result !! name) ->
       name = "drums" \/ In name (keys configured_bands)).
Proof.
  intros Hinit Hall.
  destruct (getInstrumentEnergy_ok dataArray this Hinit Hall)
    as (raw & this' & Hrun & Hnodrums & Hkeys & Hbands).
  destruct (getInstrumentEnergy_flags _ _ _ _ Hrun) as (Hinit' & Hrate & Hrest).
  exists (processOverlaps raw), this'.
  split; [exact Hrun|]. split; [congruence|]. split; [exact Hrate|].
  split; [exact Hrest|]. split; [|split].
  - intros name band Hin.
    destruct (Hbands name band Hin) as (history & Hbefore & Hraw & Hafter).
    pose proof (configured_band_not_drums name band Hin) as Hnd.
    destruct (decide (name = "guitar")) as [->|Hng].
    + destruct (processOverlaps_guitar raw _ Hraw) as (c & Hc & Hres).
      eexists history, _. split; [exact Hbefore|]. split; [exact Hafter|].
      split; [exact Hres|]. cbn [energy active components confidence with_confidence band_result].
      repeat (split; [reflexivity|]).
      destruct Hc as [->| ->]; [left|right; split]; reflexivity.
    + eexists history, _. split; [exact Hbefore|]. split; [exact Hafter|].
      split; [rewrite processOverlaps_other by assumption; exact Hraw|].
      cbn [energy active components confidence band_result].
      repeat (split; [reflexivity|]). left. reflexivity.
  - destruct (Hbands "kick" _ (or_intror (or_intror (or_intror (or_introl eq_refl)))))
      as (hk & _ & Hk & _).
    destruct (Hbands "snare" _
                (or_intror (or_intror (or_intror (or_intror (or_introl eq_refl))))))
      as (hs & _ & Hs & _).
    destruct (Hbands "hihat" _
                (or_intror (or_intror (or_intror (or_intror (or_intror
                   (or_introl eq_refl)))))))
      as (hh & _ & Hh & _).
    eexists _, _, _. rewrite !processOverlaps_other by discriminate.
    split; [exact Hk|]. split; [exact Hs|]. split; [exact Hh|].
    unfold processOverlaps. apply group_drums_lookup;
      rewrite suppress_guitar_other by discriminate; assumption.
  - intros name [r Hr].
    destruct (decide (name = "drums")) as [->|Hnd]; [now left|right].
    destruct (processOverlaps_band raw name r Hnd Hr) as (r0 & Hr0 & _).
    apply Hkeys. rewrite Hr0. eauto.
Qed.
End TickResults.

(** ** More on the energy of a band *)

Section EnergyFacts.
Import Realtime Session.

(** The energy of a band with a non-negative lower frequency in a frame
    read with its own length: a number between 0 and 1, the average over
    the bins of the band. *)
Lemma rawEnergy_average (rate : positive) (dataArray : list byte) (lowFreq highFreq : Z) :
  (0 <= lowFreq)%Z ->
  exists e,
    rawEnergy rate dataArray (Z.of_nat (length dataArray)) (lowFreq, highFreq) = Num e /\
    (0 <= e <= 1)%Q /\
    e == average_energy dataArray
           (to_index lowFreq rate (Z.of_nat (length dataArray)))
           (to_index highFreq rate (Z.of_nat (length dataArray))).
Proof.
  intros Hlow.
  set (bufferLength := Z.of_nat (length dataArray)).
  set (lowIndex := to_index lowFreq rate bufferLength).
  set (highIndex := to_index highFreq rate bufferLength).
  assert (Hlo : (0 <= lowIndex)%Z) by (apply to_index_nonneg; [assumption|lia]).
  set (stop := Z.min highIndex bufferLength).
  destruct (energy_loop_sum (Z.to_nat (bufferLength - lowIndex)) dataArray highIndex
              bufferLength (Z.le_refl _) lowIndex 0 0%Z Hlo)
    as (total & Hrun & Htotal); [lia|].
  fold stop in Hrun, Htotal.
  unfold rawEnergy. fold lowIndex highIndex. rewrite Hrun.
  unfold average_energy. fold bufferLength stop.
  destruct (Z.ltb_spec lowIndex stop) as [Hrange|Hempty].
  - replace (0 + Z.max 0 (stop - lowIndex))%Z with (stop - lowIndex)%Z by lia.
    destruct (Z.ltb_spec 0 (stop - lowIndex)) as [_|]; [|lia].
    unfold div. rewrite Qeq_bool_inject_Z_pos by lia.
    change (Qeq_bool 255 0) with false. cbv iota.
    eexists. split; [reflexivity|].
    assert (Hsame :
      total / inject_Z (stop - lowIndex) / 255 ==
      inject_Z (sum_magnitudes (bins_between dataArray lowIndex stop))
      / inject_Z (stop - lowIndex) / 255).
    { rewrite Htotal. apply Qdiv_comp; [|reflexivity].
      apply Qdiv_comp; [ring|reflexivity]. }
    split; [|exact Hsame].
    rewrite Hsame. apply scaled_average_bounds; [lia|].
    pose proof (sum_magnitudes_bounds (bins_between dataArray lowIndex stop)) as Hsum.
    rewrite bins_between_length in Hsum by (subst stop bufferLength; lia). lia.
  - replace (0 + Z.max 0 (stop - lowIndex))%Z with 0%Z by lia.
    cbn [Z.ltb Z.compare]. exists 0%Q. repeat split; try reflexivity; lra.
Qed.

(** An index range that is empty once cut at the buffer gives exactly 0,
    whatever the array holds. *)
Lemma rawEnergy_empty (rate : positive) (dataArray : list byte) (bufferLength : Z)
    (lowFreq highFreq : Z) :
  (Z.min (to_index highFreq rate bufferLength) bufferLength
   <= to_index lowFreq rate bufferLength)%Z ->
  rawEnergy rate dataArray bufferLength (lowFreq, highFreq) = Num 0.
Proof.
  intros Hempty. unfold rawEnergy.
  set (lowIndex := to_index lowFreq rate bufferLength) in *.
  set (highIndex := to_index highFreq rate bufferLength) in *.
  assert (Hloop : forall fuel,
             energy_loop fuel dataArray highIndex bufferLength lowIndex (Num 0) 0
             = (Num 0, 0%Z)).
  { intros [|fuel]; [reflexivity|]. simpl.
    destruct (Z.ltb_spec lowIndex highIndex);
      destruct (Z.ltb_spec lowIndex bufferLength); try reflexivity. lia. }
  rewrite Hloop. reflexivity.
Qed.

Lemma band_energy_unit (rate : positive) (name : string) (band : BandConfig)
    (dataArray : list byte) :
  In (name, band) configured_bands -> unit_number (band_energy rate band dataArray).
Proof.
  intros Hin. unfold band_energy, unit_number.
  pose proof (configured_band_nonneg name band Hin) as Hlow.
  destruct (freqRange band) as [lowFreq highFreq]. simpl in Hlow.
  destruct (rawEnergy_average rate dataArray lowFreq highFreq Hlow) as (e & He & Hb & _).
  eauto.
Qed.

Lemma sum_magnitudes_zeros (n : nat) : sum_magnitudes (replicate n x00) = 0%Z.
Proof. induction n as [|n IH]; simpl; [reflexivity|]. rewrite IH. reflexivity. Qed.

Lemma bins_between_zeros (n : nat) (lo hi : Z) :
  exists m, bins_between (replicate n x00) lo hi = replicate m x00.
Proof.
  unfold bins_between. rewrite drop_replicate, take_replicate. eauto.
Qed.

Lemma average_energy_zeros (n : nat) (lo hi : Z) :
  average_energy (replicate n x00) lo hi == 0.
Proof.
  unfold average_energy. destruct (_ <? _)%Z; [|reflexivity].
  destruct (bins_between_zeros n lo (Z.min hi (Z.of_nat (length (replicate n x00)))))
    as [m ->].
  rewrite sum_magnitudes_zeros. unfold Qdiv. rewrite !Qmult_0_l. reflexivity.
Qed.
End EnergyFacts.

(** ** Numbers between 0 and 1 *)

Section UnitNumbers.
Import Realtime Session.
Local Open Scope Q_scope.

Lemma unit_numbers_map (l : list number) :
  Forall unit_number l -> exists qs, l = map Num qs.
Proof.
  induction 1 as [|x l (q & -> & _) _ (qs & ->)].
  - now exists [].
  - now exists (q :: qs).
Qed.

Lemma push_shift_unit (history : list number) (e : number) :
  Forall unit_number history -> unit_number e ->
  Forall unit_number (push_shift history e).
Proof.
  intros Hh He. unfold push_shift.
  assert (Hall : Forall unit_number (history ++ [e])).
  { apply Forall_app. split; [assumption|]. now constructor. }
  destruct (_ <? _)%nat; [|exact Hall].
  destruct (history ++ [e]); [constructor|]. now inversion Hall.
Qed.

(** For a history of numbers every confidence lies between 0.3 and 0.8. *)
Lemma confidence_from_bounds (instrument : string) (history : list number) :
  Forall unit_number history ->
  exists c, confidence_from instrument history = Num c /\ 0.3 <= c <= 0.8.
Proof.
  intros Hh. unfold confidence_from.
  destruct (Nat.ltb_spec (length history) 5) as [Hshort|Hlong].
  { exists 0.5. split; [reflexivity|lra]. }
  cbv zeta. destruct (includes percussion instrument).
  { destruct (hasTransient _); eexists; (split; [reflexivity|lra]). }
  destruct (unit_numbers_map (slice_last 5 history)) as [qs Hqs].
  { unfold slice_last. now apply Forall_drop. }
  assert (Hlen : length qs = 5%nat).
  { rewrite <- (length_map Num), <- Hqs, slice_last_length. lia. }
  rewrite Hqs.
  destruct (mean_of_Num qs) as (m & -> & Hm); [lia|].
  destruct (variance_of_Num qs m) as (var & -> & Hvar); [lia|exact Hm|].
  cbn [mul sub Math_max Math_min].
  eexists. split; [reflexivity|].
  destruct (clamp_of_variance var) as ([Hlo Hhi] & _).
  { rewrite Hvar. apply Qvariance_nonneg. lia. }
  lra.
Qed.

Lemma Math_max3_bounds (a b c : number) (lo hi : Q) :
  (exists x, a = Num x /\ lo <= x <= hi) ->
  (exists y, b = Num y /\ lo <= y <= hi) ->
  (exists z, c = Num z /\ lo <= z <= hi) ->
  exists m, Math_max3 a b c = Num m /\ lo <= m <= hi.
Proof.
  intros (x & -> & Hx) (y & -> & Hy) (z & -> & Hz).
  eexists. split; [reflexivity|].
  destruct (Qmax3_spec x y z) as (_ & _ & _ & [-> | [-> | ->]]); assumption.
Qed.
End UnitNumbers.

(** X2. A tick never produces [NaN] from a frame: on an initialised object
    whose histories hold numbers between 0 and 1, every energy of the
    returned mapping, the composite [drums] included, is a number between 0
    and 1, and the histories the tick leaves again hold such numbers only. *)
Theorem tick_energies_stay_in_unit_interval (dataArray : list byte)
    (this : Realtime.AudioProcessor) :
  Realtime.isInitialized this = true ->
  Realtime.has_histories this ->
  Session.unit_histories this ->
  exists result this',
    Realtime.getInstrumentEnergy dataArray this = Some (result, this') /\
    Realtime.has_histories this' /\
    Session.unit_histories this' /\
    forall name r, result !! name = Some r -> Session.unit_number (Realtime.energy r).
Proof.
  intros Hinit Hall Hunit.
  destruct (tick_characterised dataArray this Hinit Hall)
    as (result & this' & Hrun & _ & _ & Hrest & Hbands & Hdrums & Hkeys).
  exists result, this'. split; [exact Hrun|].
  assert (Henergy : forall name band r,
             In (name, band) Realtime.configured_bands -> result !! name = Some r ->
             Session.unit_number (Realtime.energy r)).
  { intros name band r Hin Hr.
    destruct (Hbands name band Hin) as (history & r' & _ & _ & Hr' & He & _).
    rewrite Hr in Hr'. injection Hr' as <-. rewrite He.
    now apply (band_energy_unit _ name). }
  split; [|split].
  - intros name Hin. destruct (configured_band_key name Hin) as [band Hband].
    destruct (Hbands name band Hband) as (history & r & _ & Hafter & _). eauto.
  - intros name history' Hhist'.
    destruct (in_dec String.string_dec name (keys Realtime.configured_bands))
      as [Hin|Hout].
    + destruct (configured_band_key name Hin) as [band Hband].
      destruct (Hbands name band Hband) as (history & r & Hbefore & Hafter & _).
      rewrite Hafter in Hhist'. injection Hhist' as <-.
      apply push_shift_unit; [now apply (Hunit name)|now apply (band_energy_unit _ name)].
    + rewrite (Hrest name Hout) in Hhist'. now apply (Hunit name).
  - intros name r Hr.
    destruct (Hkeys name) as [->|Hin]; [rewrite Hr; eauto| |].
    + destruct Hdrums as (kick & snare & hihat & Hk & Hs & Hh & Hd).
      rewrite Hr in Hd. injection Hd as ->. cbn [Realtime.energy].
      apply (Math_max3_bounds _ _ _ 0 1).
      * eapply (Henergy "kick"); [|exact Hk]. simpl; tauto.
      * eapply (Henergy "snare"); [|exact Hs]. simpl; tauto.
      * eapply (Henergy "hihat"); [|exact Hh]. simpl; tauto.
    + destruct (configured_band_key name Hin) as [band Hband].
      now apply (Henergy name band).
Qed.

(** X3. Between 0.21 and 0.8: on an initialised object whose histories
    hold numbers between 0 and 1, every confidence of the mapping a tick
    returns is a number of at least 0.3 and at most 0.8, except that the
    guitar, which may have been damped, can go down to 0.21. *)
Theorem tick_confidences_are_bounded (dataArray : list byte)
    (this : Realtime.AudioProcessor) :
  Realtime.isInitialized this = true ->
  Realtime.has_histories this ->
  Session.unit_histories this ->
  exists result this',
    Realtime.getInstrumentEnergy dataArray this = Some (result, this') /\
    forall name r, result !! name = Some r ->
      exists c, Realtime.confidence r = Num c /\
                (0.21 <= c <= 0.8)%Q /\ (name <> "guitar" -> (0.3 <= c)%Q).
Proof.
  intros Hinit Hall Hunit.
  destruct (tick_characterised dataArray this Hinit Hall)
    as (result & this' & Hrun & _ & _ & _ & Hbands & Hdrums & Hkeys).
  exists result, this'. split; [exact Hrun|].
  assert (Hband : forall name band r,
             In (name, band) Realtime.configured_bands -> result !! name = Some r ->
             exists c, Realtime.confidence r = Num c /\
                       (0.21 <= c <= 0.8)%Q /\ (name <> "guitar" -> (0.3 <= c)%Q)).
  { intros name band r Hin Hr.
    destruct (Hbands name band Hin) as (history & r' & Hbefore & _ & Hr' & He & _ & _ & Hc).
    rewrite Hr in Hr'. injection Hr' as <-.
    destruct (confidence_from_bounds name
                (Realtime.push_shift history (Realtime.energy r))) as (c & Hconf & Hb).
    { apply push_shift_unit; [now apply (Hunit name)|].
      rewrite He. now apply (band_energy_unit _ name). }
    destruct Hc as [Hc|[-> Hc]]; rewrite Hc, Hconf.
    - exists c. split; [reflexivity|]. split; [lra|intros; lra].
    - eexists. split; [reflexivity|]. split; [lra|congruence]. }
  intros name r Hr.
  destruct (Hkeys name) as [->|Hin]; [rewrite Hr; eauto| |].
  - destruct Hdrums as (kick & snare & hihat & Hk & Hs & Hh & Hd).
    rewrite Hr in Hd. injection Hd as ->. cbn [Realtime.confidence].
    destruct (Hband "kick" _ kick
                (or_intror (or_intror (or_intror (or_introl eq_refl)))) Hk)
      as (ck & Hck & Hbk & Hlk).
    destruct (Hband "snare" _ snare
                (or_intror (or_intror (or_intror (or_intror (or_introl eq_refl))))) Hs)
      as (cs & Hcs & Hbs & Hls).
    destruct (Hband "hihat" _ hihat
                (or_intror (or_intror (or_intror (or_intror (or_intror
                   (or_introl eq_refl)))))) Hh)
      as (ch & Hch & Hbh & Hlh).
    destruct (Math_max3_bounds (Realtime.confidence kick) (Realtime.confidence snare)
                (Realtime.confidence hihat) 0.3 0.8) as (m & Hm & Hbm).
    { exists ck. split; [exact Hck|]. split; [apply Hlk; discriminate|lra]. }
    { exists cs. split; [exact Hcs|]. split; [apply Hls; discriminate|lra]. }
    { exists ch. split; [exact Hch|]. split; [apply Hlh; discriminate|lra]. }
    exists m. split; [exact Hm|]. split; [lra|intros; lra].
  - destruct (configured_band_key name Hin) as [band Hin'].
    now apply (Hband name band).
Qed.

Section ManyTicks.
Import Realtime Session.

Lemma tick_keeps_histories (dataArray : list byte) (this this' : AudioProcessor)
    (result : gmap string DetectionResult) :
  isInitialized this = true -> has_histories this ->
  getInstrumentEnergy dataArray this = Some (result, this') ->
  isInitialized this' = true /\ has_histories this' /\
  sampleRate this' = sampleRate this /\
  forall name band history,
    In (name, band) configured_bands ->
    detectionHistory this !! name = Some history ->
    detectionHistory this' !! name
    = Some (push_shift history (band_energy (sampleRate this) band dataArray)).
Proof.
  intros Hinit Hall Hrun.
  destruct (tick_characterised dataArray this Hinit Hall)
    as (result0 & this0 & Hrun0 & Hinit' & Hrate & _ & Hbands & _).
  rewrite Hrun in Hrun0. injection Hrun0 as <- <-.
  split; [exact Hinit'|]. split; [|split; [exact Hrate|]].
  - intros name Hin. destruct (configured_band_key name Hin) as [band Hband].
    destruct (Hbands name band Hband) as (history & r & _ & Hafter & _). eauto.
  - intros name band history Hin Hhist.
    destruct (Hbands name band Hin) as (history0 & r & Hbefore & Hafter & _).
    rewrite Hhist in Hbefore. now injection Hbefore as <-.
Qed.

Lemma ticks_history (frames : list (list byte)) (name : string) (band : BandConfig) :
  In (name, band) configured_bands ->
  forall (seen : list number) (this : AudioProcessor),
    isInitialized this = true -> has_histories this ->
    detectionHistory this !! name = Some (slice_last 20 seen) ->
    exists results this',
      ticks frames this = Some (results, this') /\
      length results = length frames /\
      isInitialized this' = true /\ has_histories this' /\
      sampleRate this' = sampleRate this /\
      detectionHistory this' !! name
      = Some (slice_last 20
                (seen ++ map (band_energy (sampleRate this) band) frames)).
Proof.
  intros Hin. induction frames as [|dataArray rest IH]; intros seen this Hinit Hall Hhist.
  - exists [], this. rewrite app_nil_r. simpl. unfold ret. auto 10.
  - destruct (tick_characterised dataArray this Hinit Hall)
      as (result & this1 & Hrun & _).
    destruct (tick_keeps_histories _ _ _ _ Hinit Hall Hrun)
      as (Hinit1 & Hall1 & Hrate1 & Hpush).
    specialize (Hpush name band _ Hin Hhist). rewrite push_shift_slice in Hpush.
    destruct (IH _ this1 Hinit1 Hall1 Hpush)
      as (results & this' & Hticks & Hlen & Hinit' & Hall' & Hrate' & Hhist').
    exists (result :: results), this'.
    cbn [ticks]. rewrite (bind_Some _ _ _ _ _ Hrun), (bind_Some _ _ _ _ _ Hticks).
    unfold ret. split; [reflexivity|]. split; [simpl; congruence|].
    split; [exact Hinit'|]. split; [exact Hall'|]. split; [congruence|].
    rewrite Hhist', Hrate1, <- app_assoc. reflexivity.
Qed.
End ManyTicks.

(** X4. The history of a band is the window of the last 20 energies: after
    any series of ticks on an initialised object, the history of a
    configured band that held at most 20 samples is the last 20 of those
    samples followed by the band's energy in each frame, in order; the
    series returns one mapping per frame. *)
Theorem history_after_ticks (frames : list (list byte)) (name : string)
    (band : Realtime.BandConfig) (history : list number)
    (this : Realtime.AudioProcessor) :
  In (name, band) Realtime.configured_bands ->
  Realtime.isInitialized this = true ->
  Realtime.has_histories this ->
  Realtime.detectionHistory this !! name = Some history ->
  (length history <= 20)%nat ->
  exists results this',
    Session.ticks frames this = Some (results, this') /\
    length results = length frames /\
    Realtime.detectionHistory this' !! name
    = Some (slice_last 20
              (history
               ++ map (Session.band_energy (Realtime.sampleRate this) band) frames)) /\
    (length frames >= 20 ->
     Realtime.detectionHistory this' !! name
     = Some (map (Session.band_energy (Realtime.sampleRate this) band)
               (slice_last 20 frames)))%nat.
Proof.
  intros Hin Hinit Hall Hhist Hlen.
  destruct (ticks_history frames name band Hin history this Hinit Hall)
    as (results & this' & Hrun & Hcount & _ & _ & _ & Hafter).
  { now rewrite slice_last_short. }
  exists results, this'. split; [exact Hrun|]. split; [exact Hcount|].
  split; [exact Hafter|].
  intros Hmany. rewrite Hafter. f_equal. unfold slice_last.
  rewrite length_app, length_map.
  replace (length history + length frames - 20)%nat
    with (length history + (length frames - 20))%nat by lia.
  rewrite drop_app_add, skipn_map. reflexivity.
Qed.

(** X5. Silence is never active: a tick of an initialised object on a frame
    of any length that holds zeros only returns a mapping in which every
    result, the composite [drums] included, has energy 0 and is inactive. *)
Theorem silent_frame_is_inactive (n : nat) (this : Realtime.AudioProcessor) :
  Realtime.isInitialized this = true ->
  Realtime.has_histories this ->
  exists result this',
    Realtime.getInstrumentEnergy (replicate n x00) this = Some (result, this') /\
    forall name r, result !! name = Some r ->
      is_num (Realtime.energy r) 0 /\ Realtime.active r = false.
Proof.
  intros Hinit Hall.
  destruct (tick_characterised (replicate n x00) this Hinit Hall)
    as (result & this' & Hrun & _ & _ & _ & Hbands & Hdrums & Hkeys).
  exists result, this'. split; [exact Hrun|].
  assert (Hband : forall name band r,
             In (name, band) Realtime.configured_bands -> result !! name = Some r ->
             exists e, Realtime.energy r = Num e /\ e == 0 /\ Realtime.active r = false).
  { intros name band r Hin Hr.
    destruct (Hbands name band Hin) as (history & r' & _ & _ & Hr' & He & Ha & _).
    rewrite Hr in Hr'. injection Hr' as <-.
    pose proof (configured_band_nonneg name band Hin) as Hlow.
    pose proof (configured_band_threshold name band Hin) as Hthr.
    unfold Session.band_energy in He.
    destruct (Realtime.freqRange band) as [lowFreq highFreq]. simpl in Hlow.
    destruct (rawEnergy_average (Realtime.sampleRate this) (replicate n x00)
                lowFreq highFreq Hlow) as (e & Heq & _ & Havg).
    rewrite average_energy_zeros in Havg.
    exists e. rewrite Ha, He, Heq. split; [reflexivity|]. split; [exact Havg|].
    apply gt_Num_false. lra. }
  intros name r Hr.
  destruct (Hkeys name) as [->|Hin]; [rewrite Hr; eauto| |].
  - destruct Hdrums as (kick & snare & hihat & Hk & Hs & Hh & Hd).
    rewrite Hr in Hd. injection Hd as ->. cbn [Realtime.energy Realtime.active].
    destruct (Hband "kick" _ kick
                (or_intror (or_intror (or_intror (or_introl eq_refl)))) Hk)
      as (ek & -> & Hek & ->).
    destruct (Hband "snare" _ snare
                (or_intror (or_intror (or_intror (or_intror (or_introl eq_refl))))) Hs)
      as (es & -> & Hes & ->).
    destruct (Hband "hihat" _ hihat
                (or_intror (or_intror (or_intror (or_intror (or_intror
                   (or_introl eq_refl)))))) Hh)
      as (eh & -> & Heh & ->).
    split; [|reflexivity]. cbn [Math_max3 Math_max is_num].
    destruct (Qmax3_spec ek es eh) as (_ & _ & _ & [-> | [-> | ->]]); assumption.
  - destruct (configured_band_key name Hin) as [band Hin'].
    destruct (Hband name band r Hin' Hr) as (e & -> & He & Ha). now split.
Qed.

Section EmptyBands.
Import Realtime Session.

Lemma to_index_mono (low high : Z) (rate : positive) (bufferLength : Z) :
  (0 <= bufferLength)%Z -> (low <= high)%Z ->
  (to_index low rate bufferLength <= to_index high rate bufferLength)%Z.
Proof.
  intros Hb Hle. rewrite !to_index_div. apply Z.div_le_mono; [lia|nia].
Qed.

(** At or above half the sample rate a frequency maps to the end of the
    buffer or beyond. *)
Lemma to_index_above_nyquist (freq : Z) (rate : positive) (bufferLength : Z) :
  (0 <= bufferLength)%Z -> (Z.pos rate <= 2 * freq)%Z ->
  (bufferLength <= to_index freq rate bufferLength)%Z.
Proof.
  intros Hb Hny. rewrite to_index_div. apply Z.div_le_lower_bound; [lia|nia].
Qed.

Lemma to_index_first_bin (freq : Z) (rate : positive) (bufferLength : Z) :
  (2 * freq * bufferLength < Z.pos rate)%Z ->
  (to_index freq rate bufferLength <= 0)%Z.
Proof.
  intros Hsmall. rewrite to_index_div.
  assert (2 * freq * bufferLength / Z.pos rate < 1)%Z; [|lia].
  apply Z.div_lt_upper_bound; lia.
Qed.
End EmptyBands.

(** X6. A band that misses the buffer has no energy.  Whatever the frame
    holds, the energy is exactly 0 when the upper frequency is not above
    the lower one, when the lower frequency is at or above half the sample
    rate, or when the upper frequency still falls into the first bin
    ([2 * highFreq * bufferLength < sampleRate]). *)
Theorem band_outside_buffer_has_no_energy (rate : positive) (dataArray : list byte)
    (lowFreq highFreq : Z) :
  (highFreq <= lowFreq)%Z \/
  (Z.pos rate <= 2 * lowFreq)%Z \/
  (0 <= lowFreq /\ 2 * highFreq * Z.of_nat (length dataArray) < Z.pos rate)%Z ->
  Realtime.rawEnergy rate dataArray (Z.of_nat (length dataArray)) (lowFreq, highFreq)
  = Num 0.
Proof.
  intros Hcases. apply rawEnergy_empty.
  set (bufferLength := Z.of_nat (length dataArray)).
  assert (Hb : (0 <= bufferLength)%Z) by (subst bufferLength; lia).
  destruct Hcases as [Hrev|[Hny|[Hlow Hsmall]]].
  - pose proof (to_index_mono highFreq lowFreq rate bufferLength Hb Hrev). lia.
  - pose proof (to_index_above_nyquist lowFreq rate bufferLength Hb Hny). lia.
  - pose proof (to_index_first_bin highFreq rate bufferLength Hsmall).
    pose proof (to_index_nonneg lowFreq rate bufferLength Hlow Hb). lia.
Qed.

(** X7. With frames of 128 bins (an analyser whose [fftSize] is 256) and a
    sample rate above 25600 Hz, the kick band, 20 to 100 Hz, lies within
    the first bin: in every tick the kick has energy 0 and is inactive, and
    the composite [drums] is active exactly when the snare or the hihat
    is. *)
Theorem kick_is_silent_on_128_bins (dataArray : list byte)
    (this : Realtime.AudioProcessor) :
  length dataArray = 128%nat ->
  (25600 < Z.pos (Realtime.sampleRate this))%Z ->
  Realtime.isInitialized this = true ->
  Realtime.has_histories this ->
  exists result this' kick snare hihat drums,
    Realtime.getInstrumentEnergy dataArray this = Some (result, this') /\
    result !! "kick" = Some kick /\ result !! "snare" = Some snare /\
    result !! "hihat" = Some hihat /\ result !! "drums" = Some drums /\
    Realtime.energy kick = Num 0 /\ Realtime.active kick = false /\
    Realtime.active drums = Realtime.active snare || Realtime.active hihat.
Proof.
  intros Hlen Hrate Hinit Hall.
  destruct (tick_characterised dataArray this Hinit Hall)
    as (result & this' & Hrun & _ & _ & _ & Hbands & Hdrums & _).
  destruct Hdrums as (kick & snare & hihat & Hk & Hs & Hh & Hd).
  destruct (Hbands "kick" _ (or_intror (or_intror (or_intror (or_introl eq_refl)))))
    as (history & kick' & _ & _ & Hk' & He & Ha & _).
  rewrite Hk in Hk'. injection Hk' as <-.
  assert (Hzero : Realtime.energy kick = Num 0).
  { rewrite He. unfold Session.band_energy. cbn [Realtime.freqRange].
    apply rawEnergy_empty.
    pose proof (to_index_first_bin 100 (Realtime.sampleRate this)
                  (Z.of_nat (length dataArray))) as Hhigh.
    pose proof (to_index_nonneg 20 (Realtime.sampleRate this)
                  (Z.of_nat (length dataArray))) as Hlow.
    rewrite Hlen in *. lia. }
  assert (Hquiet : Realtime.active kick = false) by (rewrite Ha, Hzero; reflexivity).
  eexists result, this', kick, snare, hihat, _.
  split; [exact Hrun|]. split; [exact Hk|]. split; [exact Hs|]. split; [exact Hh|].
  split; [exact Hd|]. split; [exact Hzero|]. split; [exact Hquiet|].
  cbn [Realtime.active]. now rewrite Hquiet.
Qed.

Section Locality.
Import Realtime Session.

Lemma bins_between_ext (d1 d2 : list byte) (lo hi : Z) :
  (0 <= lo)%Z ->
  (forall i : nat, (lo <= Z.of_nat i < hi)%Z -> d1 !! i = d2 !! i) ->
  bins_between d1 lo hi = bins_between d2 lo hi.
Proof.
  intros Hlo Hsame. unfold bins_between. apply list_eq. intros i.
  rewrite !lookup_take. destruct (decide (i < Z.to_nat (hi - lo))%nat); [|reflexivity].
  rewrite !lookup_drop. apply Hsame. lia.
Qed.
End Locality.

(** X8. The energy of a band depends on the bins of that band only: two
    frames of the same length that agree on the bins from the lower index
    up to the upper index give a band (with a non-negative lower frequency)
    the same energy. *)
Theorem band_energy_is_local (rate : positive) (d1 d2 : list byte)
    (lowFreq highFreq : Z) :
  (0 <= lowFreq)%Z ->
  length d1 = length d2 ->
  (forall i : nat,
      (Realtime.to_index lowFreq rate (Z.of_nat (length d1)) <= Z.of_nat i
       < Realtime.to_index highFreq rate (Z.of_nat (length d1)))%Z ->
      d1 !! i = d2 !! i) ->
  exists e1 e2,
    Realtime.rawEnergy rate d1 (Z.of_nat (length d1)) (lowFreq, highFreq) = Num e1 /\
    Realtime.rawEnergy rate d2 (Z.of_nat (length d2)) (lowFreq, highFreq) = Num e2 /\
    e1 == e2.
Proof.
  intros Hlow Hlen Hsame.
  destruct (rawEnergy_average rate d1 lowFreq highFreq Hlow) as (e1 & He1 & _ & Ha1).
  destruct (rawEnergy_average rate d2 lowFreq highFreq Hlow) as (e2 & He2 & _ & Ha2).
  exists e1, e2. split; [exact He1|]. split; [exact He2|].
  rewrite Ha1, Ha2, <- Hlen. unfold Realtime.average_energy. rewrite <- Hlen.
  rewrite (bins_between_ext d1 d2).
  - reflexivity.
  - apply to_index_nonneg; [assumption|lia].
  - intros i Hi. apply Hsame. lia.
Qed.

(** ** The visualizer *)

Section Selection.
Import Visualizer.

Lemma some_active_true (activeInstruments : gmap string bool) :
  some_active activeInstruments = true <-> exists key, activeInstruments !! key = Some true.
Proof.
  unfold some_active. rewrite existsb_exists. split.
  - intros ([key b] & Hin & Hb). simpl in Hb. subst b. exists key.
    apply elem_of_map_to_list. now apply list_elem_of_In.
  - intros [key Hkey]. exists (key, true). split; [|reflexivity].
    apply list_elem_of_In. now apply elem_of_map_to_list.
Qed.

Lemma flag_true (activeInstruments : gmap string bool) (key : string) :
  flag activeInstruments key = true <-> activeInstruments !! key = Some true.
Proof.
  unfold flag. destruct (activeInstruments !! key) as [[]|]; split; congruence.
Qed.

Lemma size_positive (activeInstruments : gmap string bool) (key : string) (b : bool) :
  activeInstruments !! key = Some b -> (size activeInstruments =? 0)%nat = false.
Proof.
  intros Hkey. apply Nat.eqb_neq. intros Hsize.
  apply map_size_empty_iff in Hsize. subst. now rewrite lookup_empty in Hkey.
Qed.

End Selection.

(** X9. Which musicians are drawn.  When no value of [activeInstruments]
    is true (in particular when it is empty) all five musicians are drawn,
    in the order vocalist, guitarist, drummer, bassist, synth.  When one of
    the five flags vocals, guitar, drums, bass, synth is true, exactly the
    musicians whose flag is true are drawn, at least one, whether the audio
    is playing or not: the guitarist default is never taken then. *)
Theorem musicians_follow_the_flags (activeInstruments : gmap string bool)
    (isPlaying : bool) :
  let shown := map Visualizer.type (Visualizer.musicians activeInstruments isPlaying) in
  ((forall key, activeInstruments !! key <> Some true) ->
   shown = ["vocalist"; "guitarist"; "drummer"; "bassist"; "synth"]) /\
  ((exists key, In key ["vocals"; "guitar"; "drums"; "bass"; "synth"] /\
                activeInstruments !! key = Some true) ->
   shown = Visualizer.flagged activeInstruments /\ shown <> []).
Proof.
  intros shown. subst shown. unfold Visualizer.musicians. split.
  - intros Hnone.
    assert (Hquiet : Visualizer.some_active activeInstruments = false).
    { apply not_true_iff_false. rewrite some_active_true. intros [key Hkey].
      now apply (Hnone key). }
    rewrite Hquiet, orb_true_r. reflexivity.
  - intros (key & Hin & Hkey).
    rewrite (size_positive _ _ _ Hkey).
    rewrite (proj2 (some_active_true activeInstruments)) by eauto.
    cbn [orb negb].
    assert (Hflag : Visualizer.flag activeInstruments "vocals"
                    || Visualizer.flag activeInstruments "guitar"
                    || Visualizer.flag activeInstruments "drums"
                    || Visualizer.flag activeInstruments "bass"
                    || Visualizer.flag activeInstruments "synth" = true).
    { apply flag_true in Hkey. simpl in Hin.
      destruct Hin as [<-|[<-|[<-|[<-|[<-|[]]]]]]; rewrite Hkey;
        rewrite ?orb_true_r; reflexivity. }
    unfold Visualizer.flagged, Visualizer.musicianTypes.
    destruct (Visualizer.flag activeInstruments "vocals"),
             (Visualizer.flag activeInstruments "guitar"),
             (Visualizer.flag activeInstruments "drums"),
             (Visualizer.flag activeInstruments "bass"),
             (Visualizer.flag activeInstruments "synth");
      try discriminate Hflag; cbn; split; (reflexivity || discriminate).
Qed.

Section DrawnEnergy.
Import Realtime Session Visualizer.

(** The keys of the mapping of a tick: the seven bands and [drums]. *)
Lemma tick_keys (dataArray : list byte) (this this' : AudioProcessor)
    (result : gmap string DetectionResult) (name : string) :
  getInstrumentEnergy dataArray this = Some (result, this') ->
  is_Some (result !! name) ->
  name = "drums" \/ In name (keys configured_bands).
Proof.
  intros Hrun Hsome.
  destruct (isInitialized this) eqn:Hinit.
  - assert (Hall : has_histories this).
    { rewrite getInstrumentEnergy_flat in Hrun by assumption.
      destruct (process_bands _ _ _ _ this) as [[raw s]|] eqn:Hbands; [|discriminate].
      destruct (process_bands_inv _ _ _ _ _ _ _ Hbands) as (_ & _ & Hvisited & _).
      intros key Hin. apply Hvisited, Hin. }
    destruct (tick_characterised dataArray this Hinit Hall)
      as (result0 & this0 & Hrun0 & _ & _ & _ & _ & _ & Hkeys).
    rewrite Hrun in Hrun0. injection Hrun0 as <- <-. now apply Hkeys.
  - unfold getInstrumentEnergy in Hrun. rewrite Hinit in Hrun.
    injection Hrun as <- <-. rewrite lookup_empty in Hsome. now destruct Hsome.
Qed.
End DrawnEnergy.

(** X10. The mapping of a tick is keyed by band (vocals, guitar, bass,
    kick, snare, hihat, synth, drums) while a musician is drawn with
    [instrumentEnergies[musician.type]?.energy || 0]: for the vocalist, the
    guitarist, the drummer and the bassist that energy is 0 in every tick,
    whatever the frame; only the synth, whose type is also a band, is drawn
    with the energy of its band. *)
Theorem only_the_synth_is_drawn_with_energy (dataArray : list byte)
    (this this' : Realtime.AudioProcessor)
    (result : gmap string Realtime.DetectionResult)
    (activeInstruments : gmap string bool) :
  Realtime.getInstrumentEnergy dataArray this = Some (result, this') ->
  (forall musician,
      In musician (map snd (Visualizer.musicianTypes activeInstruments)) ->
      Visualizer.type musician <> "synth" ->
      Visualizer.drawn_energy result musician = Num 0) /\
  (forall musician r,
      In musician (map snd (Visualizer.musicianTypes activeInstruments)) ->
      Visualizer.type musician = "synth" ->
      result !! "synth" = Some r ->
      Visualizer.drawn_energy result musician
      = Visualizer.or_zero (Some (Realtime.energy r))).
Proof.
  intros Hrun. split.
  - intros musician Hin Hnot. unfold Visualizer.drawn_energy.
    destruct (result !! Visualizer.type musician) as [r|] eqn:Hr; [|reflexivity].
    exfalso.
    assert (Hkey : Visualizer.type musician = "drums"
                   \/ In (Visualizer.type musician) (keys Realtime.configured_bands)).
    { apply (tick_keys _ _ _ _ _ Hrun). rewrite Hr. eauto. }
    simpl in Hin, Hkey.
    destruct Hin as [<-|[<-|[<-|[<-|[<-|[]]]]]]; simpl in Hkey, Hnot;
      try congruence;
      destruct Hkey as [Hkey|Hkey]; try discriminate Hkey;
      repeat (destruct Hkey as [Hkey|Hkey]; [discriminate Hkey|]); exact Hkey.
  - intros musician r Hin Hsynth Hr. unfold Visualizer.drawn_energy.
    now rewrite Hsynth, Hr.
Qed.

Section Fallback.
Import Realtime Session Visualizer.

Lemma fallback_index_div (freq : Z) (n : nat) :
  fallback_index freq (Z.of_nat n) = (freq * Z.of_nat n / 22050)%Z.
Proof.
  unfold fallback_index, Qfloor, Qdiv, Qmult, Qinv, inject_Z.
  destruct (Z.of_nat n) as [|p|p] eqn:Hn; [| |lia]; simpl.
  - rewrite Z.mul_0_r. reflexivity.
  - rewrite !Pos.mul_1_r. reflexivity.
Qed.


Lemma fallback_index_nonneg (freq : Z) (n : nat) :
  (0 <= freq)%Z -> (0 <= fallback_index freq (Z.of_nat n))%Z.
Proof. intros Hf. rewrite fallback_index_div. apply Z.div_pos; lia. Qed.

(** The sum the basic analysis divides: the magnitudes from the lower
    index up to the upper index or the end of the array. *)
Lemma fallback_total (dataArray : list byte) (lowFreq highFreq : Z) :
  (0 <= lowFreq)%Z ->
  let bufferLength := Z.of_nat (length dataArray) in
  let lowIndex := fallback_index lowFreq bufferLength in
  let highIndex := fallback_index highFreq bufferLength in
  exists total,
    fallback_energy dataArray (lowFreq, highFreq)
    = div (div (Num total) (Num (inject_Z (highIndex - lowIndex)))) (Num 255) /\
    total == inject_Z (sum_magnitudes
                         (bins_between dataArray lowIndex (Z.min highIndex bufferLength))).
Proof.
  intros Hlow bufferLength lowIndex highIndex.
  assert (Hlo : (0 <= lowIndex)%Z) by now apply fallback_index_nonneg.
  destruct (energy_loop_sum (Z.to_nat (bufferLength - lowIndex)) dataArray highIndex
              bufferLength (Z.le_refl _) lowIndex 0 0%Z Hlo)
    as (total & Hrun & Htotal); [lia|].
  exists total. unfold fallback_energy. fold bufferLength lowIndex highIndex.
  rewrite Hrun. split; [reflexivity|]. rewrite Htotal. ring.
Qed.

Lemma or_zero_unit (q : Q) : (0 <= q <= 1)%Q -> unit_number (or_zero (Some (Num q))).
Proof.
  intros Hq. unfold or_zero, unit_number.
  destruct (Qeq_bool q 0); eexists; (split; [reflexivity|lra]).
Qed.

Lemma fraction_bounds (total span : Z) :
  (0 < span)%Z -> (0 <= total <= 255 * span)%Z ->
  forall t : Q, t == inject_Z total ->
    (0 <= t / inject_Z span / 255 <= 1)%Q.
Proof.
  intros Hspan Htotal t Ht.
  assert (Hsame : t / inject_Z span / 255 == inject_Z total / inject_Z span / 255).
  { apply Qdiv_comp; [|reflexivity]. apply Qdiv_comp; [exact Ht|reflexivity]. }
  rewrite Hsame. now apply scaled_average_bounds.
Qed.
End Fallback.

(** X11. The basic analysis divides the sum by [highIndex - lowIndex], which
    is 0 for a band that lies within one bin: the average is [NaN] exactly
    when the two indices coincide, and the [|| 0] of the drawing loop turns
    it into 0.  For every frame and every musician whose lower frequency is
    not negative, the energy the musician is drawn with is a number between
    0 and 1. *)
Theorem drawn_fallback_is_a_unit_number (dataArray : list byte)
    (musician : Visualizer.Musician) :
  (0 <= (Visualizer.freqRange musician).1)%Z ->
  let bufferLength := Z.of_nat (length dataArray) in
  let lowIndex := Visualizer.fallback_index (Visualizer.freqRange musician).1 bufferLength in
  let highIndex := Visualizer.fallback_index (Visualizer.freqRange musician).2 bufferLength in
  (Visualizer.fallback_energy dataArray (Visualizer.freqRange musician) = NaN
   <-> lowIndex = highIndex) /\
  Session.unit_number (Visualizer.drawn_fallback dataArray musician).
Proof.
  destruct musician as [type [lowFreq highFreq] active].
  cbn [Visualizer.freqRange fst snd]. intros Hlow. cbv zeta.
  set (bufferLength := Z.of_nat (length dataArray)).
  set (lowIndex := Visualizer.fallback_index lowFreq bufferLength).
  set (highIndex := Visualizer.fallback_index highFreq bufferLength).
  destruct (fallback_total dataArray lowFreq highFreq Hlow) as (total & Henergy & Htotal).
  fold bufferLength lowIndex highIndex in Henergy, Htotal.
  unfold Visualizer.drawn_fallback. cbn [Visualizer.freqRange]. rewrite Henergy.
  assert (Hlo : (0 <= lowIndex)%Z) by now apply fallback_index_nonneg.
  set (stop := Z.min highIndex bufferLength) in *.
  pose proof (sum_magnitudes_bounds (Realtime.bins_between dataArray lowIndex stop))
    as Hsum.
  destruct (Z.lt_trichotomy lowIndex highIndex) as [Hlt|[Heq|Hgt]].
  - unfold div. rewrite Qeq_bool_inject_Z_pos by lia.
    change (Qeq_bool 255 0) with false. cbv iota.
    split; [split; [discriminate|lia]|].
    apply or_zero_unit.
    apply (fraction_bounds
             (Realtime.sum_magnitudes (Realtime.bins_between dataArray lowIndex stop)));
      [lia| |exact Htotal].
    destruct (Z.le_gt_cases stop lowIndex) as [Hcut|Hin].
    + rewrite bins_between_empty in * by assumption. simpl. lia.
    + rewrite bins_between_length in Hsum by (subst stop bufferLength; lia). lia.
  - rewrite Heq, Z.sub_diag. cbn. split; [tauto|].
    exists 0%Q. split; [reflexivity|lra].
  - assert (Hspan : Qeq_bool (inject_Z (highIndex - lowIndex)) 0 = false).
    { unfold Qeq_bool, inject_Z. simpl. apply Z.eqb_neq. lia. }
    unfold div. rewrite Hspan. change (Qeq_bool 255 0) with false. cbv iota.
    split; [split; [discriminate|lia]|].
    rewrite bins_between_empty in Htotal by (subst stop; lia). simpl in Htotal.
    assert (Hzero : total / inject_Z (highIndex - lowIndex) / 255 == 0).
    { rewrite Htotal. unfold Qdiv. rewrite !Qmult_0_l. reflexivity. }
    unfold Visualizer.or_zero.
    destruct (Qeq_bool (total / inject_Z (highIndex - lowIndex) / 255) 0) eqn:Hq.
    + exists 0%Q. split; [reflexivity|lra].
    + apply Qeq_bool_neq in Hq. contradiction.
Qed.

Section Comparison.
Import Realtime Session Visualizer.
Local Open Scope Q_scope.

End Comparison.


(** X13. What an energy between 0 and 1 does to the drawing: the glow is
    0.3 times the energy, so that its cap of 0.6 is never reached and the
    shadow blur stays between 10 and 19; the mouth opens by 15 times the
    energy up to 10, which it reaches from an energy of 2/3 on; and the
    animation phase advances by at least 0.1 and at most 0.4 per frame. *)
Theorem drawing_amounts_are_bounded (e phase : Q) :
  (0 <= e <= 1)%Q ->
  (exists g, Visualizer.glowAmount (Num e) = Num g /\ g == 0.3 * e /\ g <= 0.3)%Q /\
  (exists b, Visualizer.shadowBlur (Num e) = Num b /\ 10 <= b <= 19)%Q /\
  (exists m, Visualizer.mouthOpen (Num e) = Num m /\ (0 <= m <= 10)%Q /\
             (m == 10 <-> (2 # 3) <= e)%Q) /\
  (exists p, Visualizer.next_phase (Num phase) (Num e) = Num p /\
             (phase + 0.1 <= p <= phase + 0.4)%Q).
Proof.
  intros He.
  assert (Hglow : (Qmin (e * 0.3) 0.6 == 0.3 * e)%Q).
  { destruct (Q.min_spec (e * 0.3) 0.6) as [[_ ->]|[Hle _]]; [ring|lra]. }
  split; [|split; [|split]].
  - eexists. split; [reflexivity|]. split; [exact Hglow|]. rewrite Hglow. lra.
  - eexists. split; [reflexivity|]. rewrite Hglow. lra.
  - eexists. split; [reflexivity|].
    destruct (Q.min_spec (e * 15) 10) as [[Hlt ->]|[Hle ->]].
    + split; [lra|]. split; intros; lra.
    + split; [lra|]. split; intros; [lra|reflexivity].
  - eexists. split; [reflexivity|]. lra.
Qed.

(** ** More on the rule layer *)

Section MissingBands.
Import Batch.

Lemma energy_of_Some (frequencyBands : gmap string BandAnalysis) (name : string)
    (e : number) :
  energy_of frequencyBands name = Some e -> is_Some (frequencyBands !! name).
Proof.
  unfold energy_of. destruct (frequencyBands !! name); [eauto|discriminate].
Qed.

(** A detection is only returned after all six bands were read. *)
Lemma detectInstruments_reads_all (frequencyBands : gmap string BandAnalysis)
    (stems : option (gmap string string)) (d : Detection) :
  detectInstruments frequencyBands stems = Some d ->
  forall name, In name ["sub_bass"; "bass"; "low_mids"; "mids"; "high_mids"; "highs"] ->
    is_Some (frequencyBands !! name).
Proof.
  unfold detectInstruments. intros Hrun.
  destruct (energy_of frequencyBands "bass") as [bass_e|] eqn:Hbass; [|discriminate].
  destruct (energy_of frequencyBands "sub_bass") as [sub_e|] eqn:Hsub; [|discriminate].
  destruct (energy_of frequencyBands "highs") as [highs_e|] eqn:Hhighs.
  2:{ exfalso. cbn [mbind option_bind] in Hrun.
      destruct (gt sub_e (Num 0.6)); cbn [mbind option_bind] in Hrun; discriminate. }
  destruct (energy_of frequencyBands "mids") as [mids_e|] eqn:Hmids.
  2:{ exfalso. cbn [mbind option_bind] in Hrun.
      destruct (gt sub_e (Num 0.6)); cbn [mbind option_bind] in Hrun;
        [|destruct (gt highs_e (Num 0.7))]; discriminate. }
  destruct (energy_of frequencyBands "low_mids") as [low_e|] eqn:Hlow.
  2:{ exfalso. cbn [mbind option_bind] in Hrun.
      destruct (gt sub_e (Num 0.6)); cbn [mbind option_bind] in Hrun;
        [|destruct (gt highs_e (Num 0.7))]; discriminate. }
  destruct (energy_of frequencyBands "high_mids") as [high_e|] eqn:Hhigh.
  2:{ exfalso. cbn [mbind option_bind] in Hrun.
      destruct (gt sub_e (Num 0.6)); cbn [mbind option_bind] in Hrun;
        [|destruct (gt highs_e (Num 0.7))]; discriminate. }
  intros name Hin. simpl in Hin.
  destruct Hin as [<-|[<-|[<-|[<-|[<-|[<-|[]]]]]]]; eapply energy_of_Some; eassumption.
Qed.
(** With all six bands present no read fails. *)
Lemma detectInstruments_total_on (frequencyBands : gmap string BandAnalysis)
    (stems : option (gmap string string)) :
  (forall name, In name ["sub_bass"; "bass"; "low_mids"; "mids"; "high_mids"; "highs"] ->
     is_Some (frequencyBands !! name)) ->
  is_Some (detectInstruments frequencyBands stems).
Proof.
  intros Hall.
  destruct (energy_of_is_Some frequencyBands "sub_bass") as [sub_bass Hsub];
    [apply Hall; simpl; tauto|].
  destruct (energy_of_is_Some frequencyBands "bass") as [bass Hbass];
    [apply Hall; simpl; tauto|].
  destruct (energy_of_is_Some frequencyBands "low_mids") as [low_mids Hlow];
    [apply Hall; simpl; tauto|].
  destruct (energy_of_is_Some frequencyBands "mids") as [mids Hmids];
    [apply Hall; simpl; tauto|].
  destruct (energy_of_is_Some frequencyBands "high_mids") as [high_mids Hhigh];
    [apply Hall; simpl; tauto|].
  destruct (energy_of_is_Some frequencyBands "highs") as [highs Hhighs];
    [apply Hall; simpl; tauto|].
  destruct (detectInstruments_present frequencyBands stems _ _ _ _ _ _
              Hsub Hbass Hlow Hmids Hhigh Hhighs) as (d & Hd & _).
  rewrite Hd. eauto.
Qed.
End MissingBands.

(** X14. [detectInstruments] throws exactly when a band is missing: it
    returns a detection if and only if [frequencyBands] holds each of
    sub_bass, bass, low_mids, mids, high_mids and highs, whatever [stems]
    is. *)
Theorem detectInstruments_returns_iff_six_bands
    (frequencyBands : gmap string Batch.BandAnalysis)
    (stems : option (gmap string string)) :
  is_Some (Batch.detectInstruments frequencyBands stems) <->
  forall name, In name ["sub_bass"; "bass"; "low_mids"; "mids"; "high_mids"; "highs"] ->
    is_Some (frequencyBands !! name).
Proof.
  split.
  - intros [d Hd]. now apply (detectInstruments_reads_all _ _ _ Hd).
  - apply detectInstruments_total_on.
Qed.

(** X15. A raised flag carries a confidence above the threshold of its
    rule, and a flag that is not raised carries confidence 0.  For numeric
    band energies: bass and drums above 0.6, vocals above 0.7, guitar above
    0.55 and synth above 0.65; with energies of at most 1 no confidence
    exceeds 1. *)
Theorem raised_flags_carry_confidence (frequencyBands : gmap string Batch.BandAnalysis)
    (stems : option (gmap string string))
    (sub_bass bass low_mids mids high_mids highs : Q) :
  Batch.energy_of frequencyBands "sub_bass" = Some (Num sub_bass) ->
  Batch.energy_of frequencyBands "bass" = Some (Num bass) ->
  Batch.energy_of frequencyBands "low_mids" = Some (Num low_mids) ->
  Batch.energy_of frequencyBands "mids" = Some (Num mids) ->
  Batch.energy_of frequencyBands "high_mids" = Some (Num high_mids) ->
  Batch.energy_of frequencyBands "highs" = Some (Num highs) ->
  exists d,
    Batch.detectInstruments frequencyBands stems = Some d /\
    (forall f bound,
        In (f, bound) [ (Batch.vocals d, 0.7); (Batch.guitar d, 0.55);
                        (Batch.bass d, 0.6); (Batch.drums d, 0.6);
                        (Batch.synth d, 0.65) ]%Q ->
        (Batch.detected f = true ->
         exists c, Batch.confidence f = Num c /\ (bound < c)%Q /\
                   (sub_bass <= 1 /\ bass <= 1 /\ low_mids <= 1 /\ mids <= 1 /\
                    high_mids <= 1 /\ highs <= 1 -> c <= 1)%Q) /\
        (Batch.detected f = false -> Batch.confidence f = Num 0)).
Proof.
  intros Hsub Hbass Hlow Hmids Hhigh Hhighs.
  destruct (detectInstruments_present frequencyBands stems _ _ _ _ _ _
              Hsub Hbass Hlow Hmids Hhigh Hhighs)
    as (d & Hd & Hb & Hdr & Hv & Hg & Hs).
  exists d. split; [exact Hd|].
  intros f bound Hin. simpl in Hin.
  destruct Hin as [[= <- <-]|[[= <- <-]|[[= <- <-]|[[= <- <-]|[[= <- <-]|[]]]]]].
  - rewrite Hv. unfold Batch.flag_if.
    destruct (gt (Num mids) (Num 0.7)) eqn:Ht; cbn; split; try discriminate; auto.
    intros _. apply gt_Num_true in Ht. exists mids. repeat split; [lra|intros; lra].
  - rewrite Hg. unfold Batch.flag_if.
    destruct (gt (Num low_mids) (Num 0.6)) eqn:Ht1;
      destruct (gt (Num mids) (Num 0.5)) eqn:Ht2; cbn; split; try discriminate; auto.
    intros _. apply gt_Num_true in Ht1, Ht2. eexists. split; [reflexivity|].
    unfold Qdiv. change (/ 2)%Q with (1 # 2)%Q.
    split; [lra|intros; lra].
  - rewrite Hb. unfold Batch.flag_if.
    destruct (gt (Num bass) (Num 0.6)) eqn:Ht; cbn; split; try discriminate; auto.
    intros _. apply gt_Num_true in Ht. exists bass. repeat split; [lra|intros; lra].
  - rewrite Hdr. unfold Batch.flag_if.
    pose proof (Q.le_max_l sub_bass highs) as N1.
    pose proof (Q.le_max_r sub_bass highs) as N2.
    assert (Hmax : (sub_bass <= 1 -> highs <= 1 -> Qmax sub_bass highs <= 1)%Q).
    { intros. destruct (Q.max_spec sub_bass highs) as [[_ ->]|[_ ->]]; assumption. }
    destruct (gt (Num sub_bass) (Num 0.6)) eqn:Ht1;
      destruct (gt (Num highs) (Num 0.7)) eqn:Ht2; cbn; split; try discriminate; auto;
      intros _; eexists; (split; [reflexivity|]);
      try apply gt_Num_true in Ht1; try apply gt_Num_true in Ht2;
      (split; [lra|intros; apply Hmax; tauto]).
  - rewrite Hs. unfold Batch.flag_if.
    destruct (gt (Num high_mids) (Num 0.7)) eqn:Ht1;
      destruct (gt (Num highs) (Num 0.6)) eqn:Ht2; cbn; split; try discriminate; auto.
    intros _. apply gt_Num_true in Ht1, Ht2. eexists. split; [reflexivity|].
    unfold Qdiv. change (/ 2)%Q with (1 # 2)%Q.
    split; [lra|intros; lra].
Qed.

Section Monotone.
Import Batch.
Local Open Scope Q_scope.

Lemma gt_mono (x x' limit : Q) :
  x <= x' -> gt (Num x) (Num limit) = true -> gt (Num x') (Num limit) = true.
Proof. intros Hle Hgt. apply gt_Num_true in Hgt. apply gt_Num_true. lra. Qed.

(** [flag_if] grows with its test and its confidence. *)
Lemma flag_if_mono (test test' : bool) (c c' : Q) :
  (test = true -> test' = true) -> c <= c' -> 0 <= c' ->
  (detected (flag_if test (Num c)) = true -> detected (flag_if test' (Num c')) = true) /\
  exists x x', confidence (flag_if test (Num c)) = Num x /\
               confidence (flag_if test' (Num c')) = Num x' /\ x <= x'.
Proof.
  intros Htest Hc Hpos. unfold flag_if.
  destruct test; [rewrite Htest by reflexivity|destruct test']; cbn;
    (split; [auto|]); eexists _, _; (split; [reflexivity|]);
    (split; [reflexivity|]); lra.
Qed.
End Monotone.

(** X16. Louder never loses a flag: when every band of a second analysis
    has at least the energy (a non-negative number) it has in a first one,
    every flag raised for the first is raised for the second, and no
    confidence is lower in the second. *)
Theorem detection_is_monotone (first second : gmap string Batch.BandAnalysis)
    (stems stems' : option (gmap string string))
    (quiet loud : string -> Q) :
  (forall name,
      In name ["sub_bass"; "bass"; "low_mids"; "mids"; "high_mids"; "highs"] ->
      Batch.energy_of first name = Some (Num (quiet name)) /\
      Batch.energy_of second name = Some (Num (loud name)) /\
      (0 <= quiet name <= loud name)%Q) ->
  exists d d',
    Batch.detectInstruments first stems = Some d /\
    Batch.detectInstruments second stems' = Some d' /\
    forall f f',
      In (f, f') [ (Batch.vocals d, Batch.vocals d'); (Batch.guitar d, Batch.guitar d');
                   (Batch.bass d, Batch.bass d'); (Batch.drums d, Batch.drums d');
                   (Batch.synth d, Batch.synth d'); (Batch.piano d, Batch.piano d') ] ->
      (Batch.detected f = true -> Batch.detected f' = true) /\
      exists c c', Batch.confidence f = Num c /\ Batch.confidence f' = Num c' /\
                   (c <= c')%Q.
Proof.
  intros Hbands.
  destruct (Hbands "sub_bass") as (Hs & Hs' & Hsb); [simpl; tauto|].
  destruct (Hbands "bass") as (Hb & Hb' & Hbb); [simpl; tauto|].
  destruct (Hbands "low_mids") as (Hl & Hl' & Hlb); [simpl; tauto|].
  destruct (Hbands "mids") as (Hm & Hm' & Hmb); [simpl; tauto|].
  destruct (Hbands "high_mids") as (Hh & Hh' & Hhb); [simpl; tauto|].
  destruct (Hbands "highs") as (Hi & Hi' & Hib); [simpl; tauto|].
  destruct (detectInstruments_present first stems _ _ _ _ _ _ Hs Hb Hl Hm Hh Hi)
    as (d & Hd & Db & Dd & Dv & Dg & Ds).
  destruct (detectInstruments_present second stems' _ _ _ _ _ _ Hs' Hb' Hl' Hm' Hh' Hi')
    as (d' & Hd' & Db' & Dd' & Dv' & Dg' & Ds').
  exists d, d'. split; [exact Hd|]. split; [exact Hd'|].
  pose proof (detectInstruments_piano _ _ _ Hd) as Dp.
  pose proof (detectInstruments_piano _ _ _ Hd') as Dp'.
  intros f f' Hin. simpl in Hin.
  destruct Hin
    as [[= <- <-]|[[= <- <-]|[[= <- <-]|[[= <- <-]|[[= <- <-]|[[= <- <-]|[]]]]]]].
  - rewrite Dv, Dv'. apply flag_if_mono; [apply gt_mono| |]; lra.
  - rewrite Dg, Dg'. cbn [add div]. change (Qeq_bool 2 0) with false. cbv iota.
    apply flag_if_mono.
    + rewrite !andb_true_iff. intros [H1 H2].
      split; eapply gt_mono; try eassumption; lra.
    + unfold Qdiv. change (/ 2)%Q with (1 # 2)%Q. lra.
    + unfold Qdiv. change (/ 2)%Q with (1 # 2)%Q. lra.
  - rewrite Db, Db'. apply flag_if_mono; [apply gt_mono| |]; lra.
  - rewrite Dd, Dd'. cbn [Math_max].
    pose proof (Q.le_max_l (loud "sub_bass") (loud "highs")).
    pose proof (Q.le_max_r (loud "sub_bass") (loud "highs")).
    apply flag_if_mono.
    + rewrite !orb_true_iff. intros [H1|H1]; [left|right];
        eapply gt_mono; try eassumption; lra.
    + destruct (Q.max_spec (quiet "sub_bass") (quiet "highs")) as [[_ ->]|[_ ->]]; lra.
    + lra.
  - rewrite Ds, Ds'. cbn [add div]. change (Qeq_bool 2 0) with false. cbv iota.
    apply flag_if_mono.
    + rewrite !andb_true_iff. intros [H1 H2].
      split; eapply gt_mono; try eassumption; lra.
    + unfold Qdiv. change (/ 2)%Q with (1 # 2)%Q. lra.
    + unfold Qdiv. change (/ 2)%Q with (1 # 2)%Q. lra.
  - rewrite Dp, Dp'. cbn. split; [auto|]. exists 0%Q, 0%Q. repeat split; lra.
Qed.

(** ** The server *)

Section BandResults.
Import Batch Server.

Lemma bandResults_from_length (results : list BandAnalysis) :
  forall (index : nat) (acc : gmap string BandAnalysis),
    is_Some (bandResults_from index results acc) <->
    (index + length results <= 6 \/ results = [])%nat.
Proof.
  induction results as [|result rest IH]; intros index acc.
  - simpl. split; eauto.
  - cbn [bandResults_from].
    destruct (bands !! index) as [band|] eqn:Hband.
    + rewrite IH. apply lookup_lt_Some in Hband. simpl in Hband. simpl.
      split; [intros [H| ->]; left; simpl; lia|intros [H|[=]]; left; lia].
    + apply lookup_ge_None in Hband. simpl in Hband. simpl. split.
      * intros [x [=]].
      * intros [H|[=]]. lia.
Qed.
End BandResults.

(** X17. The six analyses become the six bands.  The callback that builds
    [frequencyBands] throws exactly when it is handed more than six
    results.  Handed six, it files each under the name of the band at the
    same position, and [detectInstruments] then returns a detection: in
    [processAudio] the rule layer never throws on the result of
    [analyzeFrequencyBands]. *)
Theorem six_results_make_six_bands (results : list Batch.BandAnalysis) :
  (is_Some (Server.bandResults results) <-> (length results <= 6)%nat) /\
  (length results = 6%nat ->
   exists frequencyBands,
     Server.bandResults results = Some frequencyBands /\
     (forall index band result,
         Server.bands !! index = Some band -> results !! index = Some result ->
         frequencyBands !! band.1 = Some result) /\
     forall stems, is_Some (Batch.detectInstruments frequencyBands stems)).
Proof.
  split.
  - unfold Server.bandResults. rewrite bandResults_from_length. simpl.
    split; [intros [H| ->]; simpl; lia|intros H; left; lia].
  - intros Hlen.
    destruct results as [|r1 [|r2 [|r3 [|r4 [|r5 [|r6 [|r7 rest]]]]]]]; try discriminate.
    eexists. split; [reflexivity|].
    assert (Hlookup : forall index band result,
               Server.bands !! index = Some band ->
               [r1; r2; r3; r4; r5; r6] !! index = Some result ->
               (<["highs" := r6]> (<["high_mids" := r5]> (<["mids" := r4]>
                 (<["low_mids" := r3]> (<["bass" := r2]> (<["sub_bass" := r1]> (∅ : gmap string Batch.BandAnalysis)))))))
               !! band.1 = Some result).
    { intros index band result Hband Hresult.
      do 6 (destruct index as [|index];
            [injection Hband as <-; injection Hresult as <-; now simplify_map_eq|]).
      discriminate. }
    split; [exact Hlookup|].
    intros stems.
    apply detectInstruments_total_on. intros name Hname. simpl in Hname.
    destruct Hname as [<-|[<-|[<-|[<-|[<-|[<-|[]]]]]]]; now simplify_map_eq.
Qed.

Section Processing.
Import Batch Server.

End Processing.

Section Stems.
Import Batch Server.

End Stems.




Section Cleanup.
Import Server.

Lemma cleanupFiles_lookup (faults : Faults) (now : Z) (uploads : gmap string Z)
    (file : string) :
  cleanupFiles faults now uploads !! file =
  match uploads !! file with
  | Some mtime =>
      if negb (readdir_fails faults) && unlinked faults now file mtime then None
      else Some mtime
  | None => None
  end.
Proof.
  unfold cleanupFiles. destruct (readdir_fails faults); simpl.
  - destruct (uploads !! file); reflexivity.
  - destruct (uploads !! file) as [mtime|] eqn:Hfile.
    + destruct (unlinked faults now file mtime) eqn:Hun.
      * apply map_lookup_filter_None. right. intros x Hx. simpl.
        rewrite Hfile in Hx. injection Hx as <-. rewrite Hun. discriminate.
      * apply map_lookup_filter_Some. split; [assumption|]. simpl. assumption.
    + apply map_lookup_filter_None. left. assumption.
Qed.
End Cleanup.

(** X21. [cleanupFiles] never touches a recent file and deletes nothing
    else than old ones: whatever fails, the directory afterwards is a part
    of the directory before, with every file modified within the last 24
    hours still in it; a file is gone exactly when the listing, its [stat]
    and its [unlink] all worked and it is older than 24 hours. *)
Theorem cleanup_removes_only_old_files (faults : Server.Faults) (now : Z)
    (uploads : gmap string Z) :
  Server.cleanupFiles faults now uploads ⊆ uploads /\
  (forall file mtime, uploads !! file = Some mtime ->
     (now - 86400000 <= mtime)%Z ->
     Server.cleanupFiles faults now uploads !! file = Some mtime) /\
  (forall file mtime, uploads !! file = Some mtime ->
     (Server.cleanupFiles faults now uploads !! file = None <->
      (mtime < now - 86400000)%Z /\ Server.readdir_fails faults = false /\
      Server.stat_fails faults file = false /\ Server.unlink_fails faults file = false)).
Proof.
  split; [|split].
  - apply map_subseteq_spec. intros file mtime.
    rewrite cleanupFiles_lookup. destruct (uploads !! file); [|discriminate].
    destruct (_ && _); [discriminate|tauto].
  - intros file mtime Hfile Hrecent. rewrite cleanupFiles_lookup, Hfile.
    unfold Server.unlinked, Server.cutoffTime.
    destruct (Z.ltb_spec mtime (now - 24 * 60 * 60 * 1000)); [lia|].
    now rewrite andb_false_r, andb_false_l, andb_false_r.
  - intros file mtime Hfile. rewrite cleanupFiles_lookup, Hfile.
    unfold Server.unlinked, Server.cutoffTime.
    destruct (Z.ltb_spec mtime (now - 24 * 60 * 60 * 1000));
      destruct (Server.readdir_fails faults), (Server.stat_fails faults file),
        (Server.unlink_fails faults file); simpl;
      split; try discriminate; try tauto; try (intros (? & ? & ? & ?); try discriminate; lia);
      intros _; repeat split; lia.
Qed.

(** X22. The band analysis of the server is a placeholder.  The promise
    of [analyzeFrequencyBand] rejects with the message of the filter run
    or, if that worked, of the probe; otherwise it resolves with the
    band's own range and an energy and a significance that are numbers of
    at least 0.5 and below 1, for any two values [Math.random] may
    return. *)
Theorem band_analysis_is_a_placeholder (band : string * (Z * Z))
    (filtered probed : Server.outcome unit) (draw1 draw2 : Q) :
  (0 <= draw1 < 1)%Q -> (0 <= draw2 < 1)%Q ->
  match Server.analyzeFrequencyBand band filtered probed draw1 draw2 with
  | Server.Resolved analysis =>
      (exists done done', filtered = Server.Resolved done /\ probed = Server.Resolved done') /\
      Batch.range analysis = band.2 /\
      exists e s, Batch.energy analysis = Num e /\ Batch.significance analysis = Num s /\
                  (0.5 <= e < 1)%Q /\ (0.5 <= s < 1)%Q
  | Server.Rejected message =>
      filtered = Server.Rejected message \/
      (exists done, filtered = Server.Resolved done) /\ probed = Server.Rejected message
  end.
Proof.
  intros H1 H2. unfold Server.analyzeFrequencyBand.
  destruct filtered as [done|message]; [|now left].
  destruct probed as [done'|message]; [|right; eauto].
  split; [eauto|]. split; [reflexivity|].
  simpl. eexists _, _. split; [reflexivity|]. split; [reflexivity|]. lra.
Qed.

Section WarmUp.
Import Realtime Session.

Lemma push_shift_length (history : list number) (e : number) :
  (length history < 20)%nat -> length (push_shift history e) = S (length history).
Proof.
  intros H. unfold push_shift. rewrite length_app. simpl.
  destruct (Nat.ltb_spec 20 (length history + 1)); [lia|].
  rewrite length_app. simpl. lia.
Qed.

Lemma confidence_from_short (instrument : string) (history : list number) :
  (length history < 5)%nat -> confidence_from instrument history = Num 0.5.
Proof.
  intros H. unfold confidence_from.
  destruct (Nat.ltb_spec (length history) 5); [reflexivity|lia].
Qed.

(** A tick on histories of fewer than four samples. *)
Lemma warm_up_tick (dataArray : list byte) (this : AudioProcessor) (k : nat) :
  isInitialized this = true ->
  has_histories this ->
  (k < 4)%nat ->
  (forall name band history, In (name, band) configured_bands ->
     detectionHistory this !! name = Some history -> (length history <= k)%nat) ->
  exists result this',
    getInstrumentEnergy dataArray this = Some (result, this') /\
    isInitialized this' = true /\ has_histories this' /\
    (forall name band history, In (name, band) configured_bands ->
       detectionHistory this' !! name = Some history -> (length history <= S k)%nat) /\
    forall name r, result !! name = Some r ->
      is_num (confidence r) 0.5 \/ (name = "guitar" /\ is_num (confidence r) 0.35).
Proof.
  intros Hinit Hall Hk Hshort.
  destruct (tick_characterised dataArray this Hinit Hall)
    as (result & this' & Hrun & Hinit' & Hrate & Hrest & Hbands & Hdrums & Hkeys).
  destruct (tick_keeps_histories _ _ _ _ Hinit Hall Hrun) as (_ & Hall' & _ & Hpush).
  exists result, this'. split; [exact Hrun|]. split; [exact Hinit'|].
  split; [exact Hall'|].
  assert (Hband : forall name band r, In (name, band) configured_bands ->
            result !! name = Some r ->
            (name <> "guitar" -> confidence r = Num 0.5) /\
            (is_num (confidence r) 0.5 \/ (name = "guitar" /\ is_num (confidence r) 0.35))).
  { intros name band r Hin Hr.
    destruct (Hbands name band Hin)
      as (history & r0 & Hbefore & _ & Hr0 & _ & _ & _ & Hconf).
    rewrite Hr in Hr0. injection Hr0 as <-.
    pose proof (Hshort _ _ _ Hin Hbefore) as Hlen.
    rewrite confidence_from_short in Hconf
      by (rewrite push_shift_length by lia; lia).
    destruct Hconf as [Hconf|[-> Hconf]]; rewrite Hconf.
    - split; [reflexivity|]. left. reflexivity.
    - split; [congruence|]. right. split; [reflexivity|]. reflexivity. }
  split.
  - intros name band history Hin Hafter.
    destruct (Hbands name band Hin) as (before & r0 & Hbefore & _).
    rewrite (Hpush _ _ _ Hin Hbefore) in Hafter. injection Hafter as <-.
    pose proof (Hshort _ _ _ Hin Hbefore). rewrite push_shift_length by lia. lia.
  - intros name r Hr.
    destruct (Hkeys name (ex_intro _ r Hr)) as [->|Hin].
    + destruct Hdrums as (kick & snare & hihat & Hkick & Hsnare & Hhihat & Hd).
      rewrite Hr in Hd. injection Hd as ->. simpl confidence.
      rewrite (proj1 (Hband "kick" _ kick ltac:(simpl; eauto 10) Hkick) ltac:(discriminate)).
      rewrite (proj1 (Hband "snare" _ snare ltac:(simpl; eauto 10) Hsnare) ltac:(discriminate)).
      rewrite (proj1 (Hband "hihat" _ hihat ltac:(simpl; eauto 10) Hhihat) ltac:(discriminate)).
      left. reflexivity.
    + destruct (configured_band_key name Hin) as [band Hband'].
      exact (proj2 (Hband name band r Hband' Hr)).
Qed.
End WarmUp.

(** X23. The first four ticks report no real confidence.  On an
    initialised object whose histories are still short, so that after the
    given frames no band has seen more than four samples, every mapping of
    the series carries the confidence 0.5 for every entry, the composite
    [drums] included, whatever the frames hold; only a damped guitar has
    0.35. *)
Theorem first_ticks_have_confidence_half (frames : list (list byte))
    (this : Realtime.AudioProcessor) :
  Realtime.isInitialized this = true ->
  Realtime.has_histories this ->
  (forall name band history, In (name, band) Realtime.configured_bands ->
     Realtime.detectionHistory this !! name = Some history ->
     (length history + length frames <= 4)%nat) ->
  exists results this',
    Session.ticks frames this = Some (results, this') /\
    length results = length frames /\
    forall result, In result results ->
      forall name r, result !! name = Some r ->
        is_num (Realtime.confidence r) 0.5 \/
        (name = "guitar" /\ is_num (Realtime.confidence r) 0.35).
Proof.
  revert this. induction frames as [|dataArray rest IH]; intros this Hinit Hall Hshort.
  - exists [], this. split; [reflexivity|]. split; [reflexivity|]. intros ? [].
  - destruct (warm_up_tick dataArray this (3 - length rest) Hinit Hall)
      as (result & this1 & Hrun & Hinit1 & Hall1 & Hshort1 & Hconf).
    + simpl in Hshort. lia.
    + intros name band history Hin Hhist.
      pose proof (Hshort name band history Hin Hhist) as H. simpl in H. lia.
    + destruct (IH this1 Hinit1 Hall1) as (results & this' & Hticks & Hlen & Hrest).
      * intros name band history Hin Hhist.
        pose proof (Hshort1 name band history Hin Hhist) as H.
        destruct (configured_band_key name) as [b Hb];
          [apply (in_map fst) in Hin; exact Hin|].
        destruct (Hall name) as [before Hbefore];
          [apply (in_map fst) in Hin; exact Hin|].
        pose proof (Hshort name band before Hin Hbefore) as H0. simpl in H0. lia.
      * exists (result :: results), this'. split; [|split].
        -- cbn [Session.ticks]. rewrite (bind_Some _ _ _ _ _ Hrun).
           rewrite (bind_Some _ _ _ _ _ Hticks). reflexivity.
        -- simpl. now rewrite Hlen.
        -- intros result0 [<-|Hin]; [exact Hconf|exact (Hrest _ Hin)].
Qed.

(** ** The properties at concrete inputs *)

Lemma fresh_histories_empty (name : string) (history : list number) :
  Realtime.detectionHistory Examples.fresh !! name = Some history -> history = [].
Proof.
  unfold Examples.fresh, Realtime.initial_history. simpl. intros H.
  repeat (apply lookup_insert_Some in H as [[_ <-]|[_ H]]; [reflexivity|]).
  rewrite lookup_empty in H. discriminate.
Qed.

Lemma fresh_has_histories : Realtime.has_histories Examples.fresh.
Proof.
  intros name Hin. simpl in Hin.
  repeat (destruct Hin as [<-|Hin]; [vm_compute; eauto|]). destruct Hin.
Qed.

Lemma fresh_unit_histories : Session.unit_histories Examples.fresh.
Proof.
  intros name history H. rewrite (fresh_histories_empty name history H). constructor.
Qed.

Lemma tick_returns_iff_histories_witness :
  is_Some (Realtime.getInstrumentEnergy Examples.frame_low_mid Examples.fresh).
Proof.
  apply (proj2 (tick_returns_iff_histories Examples.frame_low_mid Examples.fresh)).
  right. exact fresh_has_histories.
Defined.

Lemma tick_energies_stay_in_unit_interval_witness :
  exists result this',
    Realtime.getInstrumentEnergy Examples.frame_low_mid Examples.fresh
    = Some (result, this') /\
    Realtime.has_histories this' /\
    Session.unit_histories this' /\
    forall name r, result !! name = Some r -> Session.unit_number (Realtime.energy r).
Proof.
  apply (tick_energies_stay_in_unit_interval Examples.frame_low_mid Examples.fresh).
  - reflexivity.
  - exact fresh_has_histories.
  - exact fresh_unit_histories.
Defined.

Lemma tick_confidences_are_bounded_witness :
  exists result this',
    Realtime.getInstrumentEnergy Examples.frame_bass_heavy Examples.fresh
    = Some (result, this') /\
    forall name r, result !! name = Some r ->
      exists c, Realtime.confidence r = Num c /\
                (0.21 <= c <= 0.8)%Q /\ (name <> "guitar" -> (0.3 <= c)%Q).
Proof.
  apply (tick_confidences_are_bounded Examples.frame_bass_heavy Examples.fresh).
  - reflexivity.
  - exact fresh_has_histories.
  - exact fresh_unit_histories.
Defined.

Lemma history_after_ticks_witness :
  let frames := [Examples.frame_low_mid; Examples.frame_bass_heavy] in
  let band := Realtime.mkBand (60, 250)%Z 0.5 in
  exists results this',
    Session.ticks frames Examples.fresh = Some (results, this') /\
    length results = length frames /\
    Realtime.detectionHistory this' !! "bass"
    = Some (slice_last 20
              ([] ++ map (Session.band_energy (Realtime.sampleRate Examples.fresh) band)
                       frames)) /\
    (length frames >= 20 ->
     Realtime.detectionHistory this' !! "bass"
     = Some (map (Session.band_energy (Realtime.sampleRate Examples.fresh) band)
               (slice_last 20 frames)))%nat.
Proof.
  intros frames band.
  apply (history_after_ticks frames "bass" band [] Examples.fresh).
  - simpl. tauto.
  - reflexivity.
  - exact fresh_has_histories.
  - vm_compute. reflexivity.
  - simpl. lia.
Defined.

Lemma silent_frame_is_inactive_witness :
  exists result this',
    Realtime.getInstrumentEnergy (replicate 128 x00) Examples.fresh
    = Some (result, this') /\
    forall name r, result !! name = Some r ->
      is_num (Realtime.energy r) 0 /\ Realtime.active r = false.
Proof.
  apply (silent_frame_is_inactive 128 Examples.fresh).
  - reflexivity.
  - exact fresh_has_histories.
Defined.

Lemma band_outside_buffer_has_no_energy_witness :
  Realtime.rawEnergy 48000 Examples.frame_low_mid
    (Z.of_nat (length Examples.frame_low_mid)) (20, 100)%Z
  = Num 0.
Proof.
  apply (band_outside_buffer_has_no_energy 48000 Examples.frame_low_mid 20 100).
  right. right. split; [lia|vm_compute; reflexivity].
Defined.

Lemma kick_is_silent_on_128_bins_witness :
  exists result this' kick snare hihat drums,
    Realtime.getInstrumentEnergy Examples.frame_low_mid Examples.fresh
    = Some (result, this') /\
    result !! "kick" = Some kick /\ result !! "snare" = Some snare /\
    result !! "hihat" = Some hihat /\ result !! "drums" = Some drums /\
    Realtime.energy kick = Num 0 /\ Realtime.active kick = false /\
    Realtime.active drums = Realtime.active snare || Realtime.active hihat.
Proof.
  apply (kick_is_silent_on_128_bins Examples.frame_low_mid Examples.fresh).
  - reflexivity.
  - vm_compute. reflexivity.
  - reflexivity.
  - exact fresh_has_histories.
Defined.

Lemma band_energy_is_local_witness :
  exists e1 e2,
    Realtime.rawEnergy 48000 Examples.frame_low_mid
      (Z.of_nat (length Examples.frame_low_mid)) (60, 250)%Z = Num e1 /\
    Realtime.rawEnergy 48000 Scenes.frame_first_bin
      (Z.of_nat (length Scenes.frame_first_bin)) (60, 250)%Z = Num e2 /\
    (e1 == e2)%Q.
Proof.
  apply (band_energy_is_local 48000 Examples.frame_low_mid Scenes.frame_first_bin 60 250).
  - lia.
  - reflexivity.
  - intros i Hi.
    change (Realtime.to_index 60 48000 (Z.of_nat (length Examples.frame_low_mid)))
      with 0%Z in Hi.
    change (Realtime.to_index 250 48000 (Z.of_nat (length Examples.frame_low_mid)))
      with 1%Z in Hi.
    assert (i = 0%nat) as -> by lia. reflexivity.
Defined.

Lemma musicians_follow_the_flags_witness :
  let activeInstruments : gmap string bool := <["guitar" := true]> (<["bass" := false]> ∅) in
  let shown := map Visualizer.type (Visualizer.musicians activeInstruments false) in
  shown = Visualizer.flagged activeInstruments /\ shown <> [].
Proof.
  intros activeInstruments shown.
  apply (proj2 (musicians_follow_the_flags activeInstruments false)).
  exists "guitar". split; [simpl; tauto|vm_compute; reflexivity].
Defined.

Lemma only_the_synth_is_drawn_with_energy_witness :
  exists result this',
    Realtime.getInstrumentEnergy Examples.frame_low_mid Examples.fresh
    = Some (result, this') /\
    (forall musician,
        In musician (map snd (Visualizer.musicianTypes ∅)) ->
        Visualizer.type musician <> "synth" ->
        Visualizer.drawn_energy result musician = Num 0) /\
    (forall musician r,
        In musician (map snd (Visualizer.musicianTypes ∅)) ->
        Visualizer.type musician = "synth" ->
        result !! "synth" = Some r ->
        Visualizer.drawn_energy result musician
        = Visualizer.or_zero (Some (Realtime.energy r))).
Proof.
  destruct (getInstrumentEnergy_ok Examples.frame_low_mid Examples.fresh
              eq_refl fresh_has_histories) as (raw & this' & Hrun & _).
  exists (Realtime.processOverlaps raw), this'. split; [exact Hrun|].
  exact (only_the_synth_is_drawn_with_energy Examples.frame_low_mid Examples.fresh
           this' (Realtime.processOverlaps raw) ∅ Hrun).
Defined.

Lemma drawn_fallback_is_a_unit_number_witness :
  let musician := Visualizer.mkMusician "drummer" (20, 250)%Z false in
  let dataArray := Examples.frame_low_mid in
  let bufferLength := Z.of_nat (length dataArray) in
  let lowIndex := Visualizer.fallback_index (Visualizer.freqRange musician).1 bufferLength in
  let highIndex := Visualizer.fallback_index (Visualizer.freqRange musician).2 bufferLength in
  (Visualizer.fallback_energy dataArray (Visualizer.freqRange musician) = NaN
   <-> lowIndex = highIndex) /\
  Session.unit_number (Visualizer.drawn_fallback dataArray musician).
Proof.
  intros musician dataArray.
  apply (drawn_fallback_is_a_unit_number dataArray musician).
  simpl. lia.
Defined.


Lemma drawing_amounts_are_bounded_witness :
  (exists g, Visualizer.glowAmount (Num 0.5) = Num g /\ g == 0.3 * 0.5 /\ g <= 0.3)%Q /\
  (exists b, Visualizer.shadowBlur (Num 0.5) = Num b /\ 10 <= b <= 19)%Q /\
  (exists m, Visualizer.mouthOpen (Num 0.5) = Num m /\ (0 <= m <= 10)%Q /\
             (m == 10 <-> (2 # 3) <= 0.5)%Q) /\
  (exists p, Visualizer.next_phase (Num 0) (Num 0.5) = Num p /\
             (0 + 0.1 <= p <= 0 + 0.4)%Q).
Proof.
  apply (drawing_amounts_are_bounded 0.5 0).
  split; unfold Qle; simpl; lia.
Defined.

Lemma detectInstruments_returns_iff_six_bands_witness :
  is_Some (Batch.detectInstruments
             (Batch.six_bands (Num 0.65) (Num 0.8) (Num 0.7) (Num 0.75) (Num 0.6)
                (Num 0.55)) None).
Proof.
  apply (proj2 (detectInstruments_returns_iff_six_bands _ None)).
  intros name Hin. simpl in Hin.
  repeat (destruct Hin as [<-|Hin]; [vm_compute; eauto|]). destruct Hin.
Defined.

Lemma raised_flags_carry_confidence_witness :
  let frequencyBands :=
    Batch.six_bands (Num 0.65) (Num 0.8) (Num 0.7) (Num 0.75) (Num 0.6) (Num 0.55) in
  exists d,
    Batch.detectInstruments frequencyBands None = Some d /\
    (forall f bound,
        In (f, bound) [ (Batch.vocals d, 0.7); (Batch.guitar d, 0.55);
                        (Batch.bass d, 0.6); (Batch.drums d, 0.6);
                        (Batch.synth d, 0.65) ]%Q ->
        (Batch.detected f = true ->
         exists c, Batch.confidence f = Num c /\ (bound < c)%Q /\
                   (0.65 <= 1 /\ 0.8 <= 1 /\ 0.7 <= 1 /\ 0.75 <= 1 /\
                    0.6 <= 1 /\ 0.55 <= 1 -> c <= 1)%Q) /\
        (Batch.detected f = false -> Batch.confidence f = Num 0)).
Proof.
  intros frequencyBands.
  apply (raised_flags_carry_confidence frequencyBands None 0.65 0.8 0.7 0.75 0.6 0.55);
    vm_compute; reflexivity.
Defined.

Lemma detection_is_monotone_witness :
  let first :=
    Batch.six_bands (Num 0.5) (Num 0.5) (Num 0.5) (Num 0.5) (Num 0.5) (Num 0.5) in
  let second :=
    Batch.six_bands (Num 0.8) (Num 0.8) (Num 0.8) (Num 0.8) (Num 0.8) (Num 0.8) in
  exists d d',
    Batch.detectInstruments first None = Some d /\
    Batch.detectInstruments second None = Some d' /\
    forall f f',
      In (f, f') [ (Batch.vocals d, Batch.vocals d'); (Batch.guitar d, Batch.guitar d');
                   (Batch.bass d, Batch.bass d'); (Batch.drums d, Batch.drums d');
                   (Batch.synth d, Batch.synth d'); (Batch.piano d, Batch.piano d') ] ->
      (Batch.detected f = true -> Batch.detected f' = true) /\
      exists c c', Batch.confidence f = Num c /\ Batch.confidence f' = Num c' /\
                   (c <= c')%Q.
Proof.
  intros first second.
  apply (detection_is_monotone first second None None (fun _ => 0.5%Q) (fun _ => 0.8%Q)).
  intros name Hin. simpl in Hin.
  repeat (destruct Hin as [<-|Hin];
          [split; [vm_compute; reflexivity|];
           split; [vm_compute; reflexivity|]; split; unfold Qle; simpl; lia|]).
  destruct Hin.
Defined.

Lemma six_results_make_six_bands_witness :
  let analysis := Batch.mkBandAnalysis (20, 60)%Z (Num 0.75) (Num 0.5) in
  let results := replicate 6 analysis in
  exists frequencyBands,
    Server.bandResults results = Some frequencyBands /\
    (forall index band result,
        Server.bands !! index = Some band -> results !! index = Some result ->
        frequencyBands !! band.1 = Some result) /\
    forall stems, is_Some (Batch.detectInstruments frequencyBands stems).
Proof.
  intros analysis results.
  apply (proj2 (six_results_make_six_bands results)). reflexivity.
Defined.




Lemma cleanup_removes_only_old_files_witness :
  Server.cleanupFiles Server.no_faults Scenes.now Scenes.uploads ⊆ Scenes.uploads /\
  Server.cleanupFiles Server.no_faults Scenes.now Scenes.uploads !! "new.mp3"
  = Some (Scenes.now - 3600000)%Z /\
  Server.cleanupFiles Server.no_faults Scenes.now Scenes.uploads !! "old.mp3" = None.
Proof.
  destruct (cleanup_removes_only_old_files Server.no_faults Scenes.now Scenes.uploads)
    as (Hsub & Hrecent & Hold).
  split; [exact Hsub|]. split.
  - apply Hrecent; [reflexivity|]. unfold Scenes.now. lia.
  - apply (Hold "old.mp3" (Scenes.now - 2 * 86400000)%Z); [reflexivity|].
    repeat split.
Defined.

Lemma band_analysis_is_a_placeholder_witness :
  match Server.analyzeFrequencyBand ("bass", (60, 250)%Z) (Server.Resolved tt)
          (Server.Resolved tt) 0 0.5 with
  | Server.Resolved analysis =>
      (exists done done', Server.Resolved tt = Server.Resolved done /\
                          Server.Resolved tt = Server.Resolved done') /\
      Batch.range analysis = (60, 250)%Z /\
      exists e s, Batch.energy analysis = Num e /\ Batch.significance analysis = Num s /\
                  (0.5 <= e < 1)%Q /\ (0.5 <= s < 1)%Q
  | Server.Rejected message =>
      Server.Resolved tt = Server.Rejected message \/
      (exists done, Server.Resolved tt = Server.Resolved done) /\
      Server.Resolved tt = Server.Rejected message
  end.
Proof.
  apply (band_analysis_is_a_placeholder ("bass", (60, 250)%Z) (Server.Resolved tt)
           (Server.Resolved tt) 0 0.5).
  - split; [unfold Qle|unfold Qlt]; simpl; lia.
  - split; [unfold Qle|unfold Qlt]; simpl; lia.
Defined.

Lemma first_ticks_have_confidence_half_witness :
  let frames := [Examples.frame_low_mid; Examples.frame_bass_heavy] in
  exists results this',
    Session.ticks frames Examples.fresh = Some (results, this') /\
    length results = length frames /\
    forall result, In result results ->
      forall name r, result !! name = Some r ->
        is_num (Realtime.confidence r) 0.5 \/
        (name = "guitar" /\ is_num (Realtime.confidence r) 0.35).
Proof.
  intros frames.
  apply (first_ticks_have_confidence_half frames Examples.fresh).
  - reflexivity.
  - exact fresh_has_histories.
  - intros name band history _ H. rewrite (fresh_histories_empty name history H).
    simpl. lia.
Defined.
